(** * hyprvoice: control daemon, pipeline worker, injector and lockfile

    A shallow embedding of the Go sources

      - [internal/bus]       lockfile handling ([checkExisting], [create],
                             [remove]) and the requests of the client,
      - [internal/config]    configuration record, legacy migration, [Validate]
                             and the conversions to the components' records,
      - [internal/injection] backend chain ([NewInjector], [Inject]) and the
                             ydotool, wtype and clipboard backends,
      - [internal/llm]       prompts and [NewProcessor],
      - [internal/pipeline]  session worker ([Run], [run], [handleInjectAction]),
      - [internal/daemon]    command handler ([handle], [toggle], mode override),
      - [cmd/hyprvoice]      [escapeTomlString] and [truncateString],

    followed by the properties established about them.  Go strings are byte
    strings and are modelled as [string] (a list of [ascii] bytes);
    [time.Duration] and [int] are modelled as [Z]; pointers to configuration
    records are locations of a [gmap] store. *)

From Stdlib Require Import ZArith Lia Ascii String.
From stdpp Require Import base strings list gmap pretty.

Local Open Scope Z_scope.

(** ** Go errors

    [errorString] is what [errors.New] and a [fmt.Errorf] without [%w]
    produce; [wrapError msg err] is [fmt.Errorf(msg + "%w", err)] for a
    non-nil operand and [wrapNil msg] the same call on the nil error. *)

Inductive error : Type :=
  | errorString (s : string)
  | wrapError (msg : string) (err : error)
  | wrapNil (msg : string).

Fixpoint Error (e : error) : string :=
  match e with
  | errorString s => s
  | wrapError msg e' => msg +:+ Error e'
  | wrapNil msg => msg +:+ "%!w(<nil>)"
  end.

(** [fmt.Errorf(msg + "%w", err)], [err] being a possibly nil error value. *)
Definition Errorf_w (msg : string) (err : option error) : error :=
  match err with
  | Some e => wrapError msg e
  | None => wrapNil msg
  end.

(** [errors.Unwrap]. *)
Definition Unwrap (e : error) : option error :=
  match e with
  | wrapError _ err => Some err
  | _ => None
  end.

(** ** Fragments of the Go standard library used by the sources *)

Module strconv.

Definition byte_val (c : ascii) : Z := Z.of_N (N_of_ascii c).





(** [strconv.Itoa]. *)
Definition Itoa (n : Z) : string := pretty n.

Definition hex_digit (n : Z) : ascii :=
  match String.get (Z.to_nat n) "0123456789abcdef" with
  | Some c => c
  | None => "0"%char
  end.

Definition byte_of_Z (n : Z) : ascii := ascii_of_N (Z.to_N n).

(** [strconv.IsPrint] restricted to runes below 0x100. *)
Definition IsPrint_latin1 (r : Z) : bool :=
  if (32 <=? r) && (r <? 127) then true
  else if (161 <=? r) && (r <=? 255) then negb (r =? 173)
  else false.

(** [utf8.AppendRune] for runes below 0x100. *)
Definition AppendRune_latin1 (r : Z) : string :=
  if r <? 128 then String (byte_of_Z r) EmptyString
  else String (byte_of_Z (Z.lor 192 (Z.shiftr r 6)))
         (String (byte_of_Z (Z.lor 128 (Z.land r 63))) EmptyString).

(** [appendEscapedRune] with quote ['\''], for a rune below 0x100. *)
Definition appendEscapedRune (r : Z) : string :=
  if (r =? 39) || (r =? 92) then String "\"%char (String (byte_of_Z r) EmptyString)
  else if IsPrint_latin1 r then AppendRune_latin1 r
  else if r =? 7 then "\a"
  else if r =? 8 then "\b"
  else if r =? 12 then "\f"
  else if r =? 10 then "\n"
  else if r =? 13 then "\r"
  else if r =? 9 then "\t"
  else if r =? 11 then "\v"
  else if (r <? 32) || (r =? 127) then
    "\x" +:+ String (hex_digit (Z.shiftr r 4)) (String (hex_digit (Z.land r 15)) EmptyString)
  else
    "\u" +:+ String (hex_digit (Z.land (Z.shiftr r 12) 15))
              (String (hex_digit (Z.land (Z.shiftr r 8) 15))
                (String (hex_digit (Z.land (Z.shiftr r 4) 15))
                  (String (hex_digit (Z.land r 15)) EmptyString))).

(** What the verb [%q] prints for a [byte] operand: [strconv.QuoteRune]
    of the rune with that value. *)
Definition QuoteRune (c : ascii) : string :=
  "'" +:+ appendEscapedRune (byte_val c) +:+ "'".

End strconv.

Module strings.

Definition asciiSpace (c : ascii) : bool :=
  let n := strconv.byte_val c in
  (n =? 9) || (n =? 10) || (n =? 11) || (n =? 12) || (n =? 13) || (n =? 32).

Definition RuneSelf : Z := 128.

Definition HasPrefix (s pre : string) : bool := String.prefix pre s.

Definition TrimPrefix (s pre : string) : string :=
  if HasPrefix s pre
  then String.substring (String.length pre) (String.length s - String.length pre)%nat s
  else s.

Section TrimSpace.
(** The Unicode-aware fall-backs of [strings.TrimSpace],
    [TrimFunc(s, unicode.IsSpace)] and [TrimRightFunc(s, unicode.IsSpace)],
    are library code outside the repository. *)
Variable TrimFunc_IsSpace : string -> string.
Variable TrimRightFunc_IsSpace : string -> string.

(** Second loop of [TrimSpace], run on the reversed remainder: [rev]
    holds [s[start:stop]] backwards. *)
Fixpoint trim_stop (rev : string) : string :=
  match rev with
  | EmptyString => EmptyString
  | String c r =>
      if RuneSelf <=? strconv.byte_val c
      then TrimRightFunc_IsSpace (String.rev rev)
      else if asciiSpace c then trim_stop r
      else String.rev rev
  end.

Fixpoint TrimSpace (s : string) : string :=
  match s with
  | EmptyString => EmptyString
  | String c r =>
      if RuneSelf <=? strconv.byte_val c then TrimFunc_IsSpace s
      else if asciiSpace c then TrimSpace r
      else trim_stop (String.rev s)
  end.
End TrimSpace.


End strings.


(** [time.Duration] counts nanoseconds. *)
Module time.
Definition Second : Z := 1000000000.
Definition Millisecond : Z := 1000000.
End time.

(** ** internal/injection *)

Module injection.

Record Config := {
  Backends : list string;
  YdotoolTimeout : Z;
  WtypeTimeout : Z;
  ClipboardTimeout : Z }.

Section Injector.
(** [W] is the state of everything a backend touches outside the
    process (the compositor, the clipboard, the focused window); [Ctx]
    is the [context.Context] handed down to the child processes. *)
Context {W Ctx : Type}.

(** The [Backend] interface, without [Available], which [Inject] of the
    injector never calls. *)
Record Backend := {
  Name : string;
  Backend_Inject : Ctx -> string -> Z -> string -> W -> option error * W }.

(** What running the child processes of each backend does is decided
    outside the program. *)
Variable ydotool_Inject wtype_Inject clipboard_Inject :
  Ctx -> string -> Z -> string -> W -> option error * W.

Definition NewYdotoolBackend : Backend :=
  {| Name := "ydotool"; Backend_Inject := ydotool_Inject |}.
Definition NewWtypeBackend : Backend :=
  {| Name := "wtype"; Backend_Inject := wtype_Inject |}.
Definition NewClipboardBackend : Backend :=
  {| Name := "clipboard"; Backend_Inject := clipboard_Inject |}.

Record injector := {
  injector_config : Config;
  backends : list Backend }.

(** One iteration of the loop over [config.Backends]. *)
Definition add_backend (acc : list Backend) (name : string) : list Backend :=
  if String.eqb name "ydotool" then acc ++ [NewYdotoolBackend]
  else if String.eqb name "wtype" then acc ++ [NewWtypeBackend]
  else if String.eqb name "clipboard" then acc ++ [NewClipboardBackend]
  else acc.

Definition NewInjector (config : Config) : injector :=
  let chain := fold_left add_backend (Backends config) [] in
  let chain :=
    if (Z.of_nat (length chain) =? 0) then chain ++ [NewClipboardBackend]
    else chain in
  {| injector_config := config; backends := chain |}.

Definition getTimeout (i : injector) (backendName : string) : Z :=
  if String.eqb backendName "ydotool" then YdotoolTimeout (injector_config i)
  else if String.eqb backendName "wtype" then WtypeTimeout (injector_config i)
  else if String.eqb backendName "clipboard" then ClipboardTimeout (injector_config i)
  else 5 * time.Second.

(** The [for _, backend := range i.backends] loop of [Inject], with the
    variable [lastErr] it carries. *)
Fixpoint Inject_loop (i : injector) (ctx : Ctx) (text windowAddress : string)
    (rest : list Backend) (lastErr : option error) (w : W) : option error * W :=
  match rest with
  | [] => (Some (Errorf_w "all injection backends failed, last error: " lastErr), w)
  | backend :: rest' =>
      let timeout := getTimeout i (Name backend) in
      let '(err, w') := Backend_Inject backend ctx text timeout windowAddress w in
      match err with
      | None => (None, w')
      | Some e => Inject_loop i ctx text windowAddress rest' (Some e) w'
      end
  end.

Definition Inject (i : injector) (ctx : Ctx) (text windowAddress : string) (w : W)
    : option error * W :=
  if String.eqb text "" then (Some (errorString "cannot inject empty text"), w)
  else Inject_loop i ctx text windowAddress (backends i) None w.

End Injector.

Arguments Backend : clear implicits.
Arguments injector : clear implicits.

(** *** The three backends

    A child process as [exec.CommandContext] describes it: the program,
    its arguments, and what it reads on its standard input. *)
Record Cmd := { Path : string; Args : list string; Stdin : string }.

(** [fmt.Errorf(msg + "%w" + rest, err)], with text after the verb.  The
    operand is kept in the text of the error only: nothing in the sources
    unwraps these errors. *)
Definition Errorf_w_mid (msg : string) (err : error) (rest : string) : error :=
  errorString (msg +:+ Error err +:+ rest).

Section Backends.
Context {W Ctx : Type}.

(** What the backends ask of the host: [exec.LookPath], [os.Getenv], the
    error of [os.Stat], [os.Getuid], [filepath.Join],
    [context.WithTimeout], [cmd.Run] of a child process under a context,
    and [time.Sleep]. *)
Variable LookPath : string -> W -> string + error.
Variable Getenv : string -> string.
Variable Stat : string -> W -> option error.
Variable Getuid : Z.
Variable Join : string -> string -> string.
Variable WithTimeout : Ctx -> Z -> W -> Ctx.
Variable Run : Ctx -> Cmd -> W -> option error * W.
Variable Sleep : Z -> W -> W.

(** [cmd.Run()] with its error wrapped under [msg]. *)
Definition Run_wrapped (ctx : Ctx) (cmd : Cmd) (msg : string) (w : W) : option error * W :=
  match Run ctx cmd w with
  | (Some err, w') => (Some (wrapError msg err), w')
  | (None, w') => (None, w')
  end.

(** wtype.go *)

Definition wtype_Available (w : W) : option error :=
  match LookPath "wtype" w with
  | inr err => Some (Errorf_w_mid "wtype not found: " err " (install wtype package)")
  | inl _ =>
      if String.eqb (Getenv "WAYLAND_DISPLAY") "" then
        Some (errorString "WAYLAND_DISPLAY not set - wtype requires Wayland session")
      else if String.eqb (Getenv "XDG_RUNTIME_DIR") "" then
        Some (errorString "XDG_RUNTIME_DIR not set - wtype requires proper session environment")
      else None
  end.

Definition wtype_Inject (ctx : Ctx) (text : string) (timeout : Z) (windowAddress : string)
    (w : W) : option error * W :=
  let ctx := WithTimeout ctx timeout w in
  match wtype_Available w with
  | Some err => (Some err, w)
  | None =>
      Run_wrapped ctx {| Path := "wtype"; Args := ["--"; text]; Stdin := "" |}
        "wtype failed: " w
  end.

(** ydotool.go *)

Definition ydotool_getSocketPath (w : W) : string :=
  let sock := Getenv "YDOTOOL_SOCKET" in
  if negb (String.eqb sock "") && bool_decide (Stat sock w = None) then sock
  else
    let paths :=
      ["/run/user/" +:+ strconv.Itoa Getuid +:+ "/.ydotool_socket"; "/tmp/.ydotool_socket"] in
    let xdg := Getenv "XDG_RUNTIME_DIR" in
    let paths :=
      if negb (String.eqb xdg "") then Join xdg ".ydotool_socket" :: paths else paths in
    match find (fun p => bool_decide (Stat p w = None)) paths with
    | Some p => p
    | None => ""
    end.

Definition ydotool_Available (w : W) : option error :=
  match LookPath "ydotool" w with
  | inr err => Some (Errorf_w_mid "ydotool not found: " err " (install ydotool package)")
  | inl _ =>
      if String.eqb (ydotool_getSocketPath w) "" then
        Some (errorString "ydotoold socket not found - ensure ydotoold is running")
      else None
  end.

Definition ydotool_Inject (ctx : Ctx) (text : string) (timeout : Z) (windowAddress : string)
    (w : W) : option error * W :=
  let ctx := WithTimeout ctx timeout w in
  match ydotool_Available w with
  | Some err => (Some err, w)
  | None =>
      Run_wrapped ctx {| Path := "ydotool"; Args := ["type"; "--"; text]; Stdin := "" |}
        "ydotool failed: " w
  end.

(** clipboard.go *)

Definition clipboard_Available (w : W) : option error :=
  match LookPath "wl-copy" w with
  | inr err => Some (Errorf_w_mid "wl-copy not found: " err " (install wl-clipboard)")
  | inl _ =>
      if String.eqb (Getenv "WAYLAND_DISPLAY") "" then
        Some (errorString
                "WAYLAND_DISPLAY not set - clipboard operations require Wayland session")
      else if String.eqb (Getenv "XDG_RUNTIME_DIR") "" then
        Some (errorString
                "XDG_RUNTIME_DIR not set - clipboard operations require proper session environment")
      else None
  end.

Definition focusWindow (ctx : Ctx) (windowAddress : string) (w : W) : option error * W :=
  Run_wrapped ctx
    {| Path := "hyprctl"; Args := ["dispatch"; "focuswindow"; windowAddress]; Stdin := "" |}
    "hyprctl focuswindow failed: " w.

(** The second half of [pasteFromClipboard], reached when wtype is not
    found or its run has failed. *)
Definition paste_with_ydotool (ctx : Ctx) (w : W) : option error * W :=
  match LookPath "ydotool" w with
  | inl _ =>
      Run_wrapped ctx {| Path := "ydotool"; Args := ["key"; "ctrl+shift+v"]; Stdin := "" |}
        "ydotool paste failed: " w
  | inr _ => (Some (errorString "neither wtype nor ydotool available for pasting"), w)
  end.

Definition pasteFromClipboard (ctx : Ctx) (w : W) : option error * W :=
  match LookPath "wtype" w with
  | inl wtypePath =>
      match Run ctx {| Path := wtypePath;
                       Args := ["-M"; "ctrl"; "-M"; "shift"; "v"; "-m"; "shift"; "-m"; "ctrl"];
                       Stdin := "" |} w with
      | (Some _, w') => paste_with_ydotool ctx w'
      | (None, w') => (None, w')
      end
  | inr _ => paste_with_ydotool ctx w
  end.

(** The errors of focusing and of pasting are only logged. *)
Definition clipboard_Inject (ctx : Ctx) (text : string) (timeout : Z)
    (windowAddress : string) (w : W) : option error * W :=
  let ctx := WithTimeout ctx timeout w in
  match clipboard_Available w with
  | Some err => (Some err, w)
  | None =>
      match Run_wrapped ctx {| Path := "wl-copy"; Args := []; Stdin := text |}
              "wl-copy failed: " w with
      | (Some err, w') => (Some err, w')
      | (None, w') =>
          if negb (String.eqb windowAddress "") then
            match focusWindow ctx windowAddress w' with
            | (Some _, w'') => (None, w'')
            | (None, w'') =>
                let w'' := Sleep (100 * time.Millisecond) w'' in
                (None, snd (pasteFromClipboard ctx w''))
            end
          else (None, w')
      end
  end.

End Backends.

End injection.

(** ** internal/transcriber, internal/llm: the records the configuration
    is converted to *)

Module transcriber.

(** The fields named by the literal in [ToTranscriberConfig]. *)
Record Config := {
  Provider : string;
  APIKey : string;
  Language : string;
  Model : string }.

End transcriber.

Module llm.

Record Config := {
  Provider : string;
  APIKey : string;
  Model : string;
  Level : string;
  CustomPrompt : string }.

(** The values of the map [levelPrompts]. *)
Definition prompt_minimal : string :=
  "You are a speech-to-text proofreader. Make only minor corrections to the transcribed text.

Rules:
- Fix obvious typos and transcription errors
- Correct basic punctuation (periods, commas, question marks)
- Fix capitalization at sentence starts and for proper nouns
- Do NOT remove filler words or restructure sentences
- Do NOT change word choice or rephrase anything
- Preserve the speaker's exact wording as much as possible
- Output only the corrected text with no explanations".

Definition prompt_moderate : string :=
  "You are a speech-to-text cleanup assistant. Clean up the transcribed speech while preserving the speaker's voice.

Rules:
- Remove filler words (um, uh, erm, like, you know, so, basically, etc.)
- Remove false starts, stutters, and repetitions
- Fix punctuation and capitalization
- Keep the original sentence structure where possible
- Maintain the speaker's word choices and expressions
- Do not add information not present in the original
- Output only the cleaned text with no explanations".

Definition prompt_thorough : string :=
  "You are a speech-to-text editor. Rewrite the transcribed speech to be clear and coherent.

Rules:
- Remove all filler words, hesitations, and verbal tics
- Remove false starts, stutters, and repetitions
- Restructure run-on sentences for clarity
- Improve flow and readability while preserving meaning
- Combine fragmented thoughts into complete sentences
- Maintain the original intent and key information
- Keep a natural, conversational tone
- Do not add information not present in the original
- Output only the rewritten text with no explanations".

Definition levelPrompts : gmap string string :=
  {[ "minimal" := prompt_minimal; "moderate" := prompt_moderate;
     "thorough" := prompt_thorough ]}.

(** A lookup in a Go map gives the zero value for a missing key. *)
Definition getPromptForLevel (level customPrompt : string) : string :=
  if String.eqb level "custom" && negb (String.eqb customPrompt "") then customPrompt
  else
    match levelPrompts !! level with
    | Some prompt => prompt
    | None => default "" (levelPrompts !! "moderate")
    end.

(** The client of an [OpenAIProcessor] is known by the key it was made
    with. *)
Record OpenAIProcessor := {
  client : string;
  processor_config : Config }.

Definition NewOpenAIProcessor (config : Config) : OpenAIProcessor :=
  {| client := APIKey config; processor_config := config |}.

Definition NewProcessor (config : Config) : OpenAIProcessor + error :=
  if String.eqb (Provider config) "openai" then inl (NewOpenAIProcessor config)
  else inr (errorString ("unsupported LLM provider: " +:+ Provider config)).

End llm.

(** ** internal/config *)

Module config.

Record ProcessingConfig := { Mode : string }.

Record LLMConfig := {
  LLM_Provider : string;
  LLM_APIKey : string;
  LLM_Model : string;
  Level : string;
  CustomPrompt : string }.

Record RecordingConfig := {
  SampleRate : Z;
  Channels : Z;
  Format : string;
  BufferSize : Z;
  Device : string;
  ChannelBufferSize : Z;
  Timeout : Z }.

Record TranscriptionConfig := {
  Provider : string;
  APIKey : string;
  Language : string;
  Model : string }.

Record InjectionConfig := {
  Backends : list string;
  YdotoolTimeout : Z;
  WtypeTimeout : Z;
  ClipboardTimeout : Z }.

Record NotificationsConfig := {
  Enabled : bool;
  Type_ : string }.

Record Config := {
  Recording : RecordingConfig;
  Transcription : TranscriptionConfig;
  Injection : InjectionConfig;
  Notifications : NotificationsConfig;
  Processing : ProcessingConfig;
  LLM : LLMConfig }.

Definition set_Injection (c : Config) (i : InjectionConfig) : Config :=
  {| Recording := Recording c; Transcription := Transcription c;
     Injection := i; Notifications := Notifications c;
     Processing := Processing c; LLM := LLM c |}.

(** [cfgCopy.Processing.Mode = mode] on a copied record. *)
Definition set_Processing_Mode (c : Config) (mode : string) : Config :=
  {| Recording := Recording c; Transcription := Transcription c;
     Injection := Injection c; Notifications := Notifications c;
     Processing := {| Mode := mode |}; LLM := LLM c |}.

(** [migrateInjectionMode]: the switch on the legacy mode assigns
    [c.Injection.Backends], then the ydotool timeout gets its default
    when it is zero. *)
Definition migrateInjectionMode (c : Config) (mode : string) : Config :=
  let inj := Injection c in
  let backends :=
    if String.eqb mode "clipboard" then ["clipboard"]
    else if String.eqb mode "type" then ["wtype"]
    else if String.eqb mode "fallback" then ["wtype"; "clipboard"]
    else ["ydotool"; "wtype"; "clipboard"] in
  let ydotoolTimeout :=
    if YdotoolTimeout inj =? 0 then 5 * time.Second else YdotoolTimeout inj in
  set_Injection c
    {| Backends := backends;
       YdotoolTimeout := ydotoolTimeout;
       WtypeTimeout := WtypeTimeout inj;
       ClipboardTimeout := ClipboardTimeout inj |}.

Definition ToInjectionConfig (c : Config) : injection.Config :=
  {| injection.Backends := Backends (Injection c);
     injection.YdotoolTimeout := YdotoolTimeout (Injection c);
     injection.WtypeTimeout := WtypeTimeout (Injection c);
     injection.ClipboardTimeout := ClipboardTimeout (Injection c) |}.

(** The tail of [Load], after the TOML file has been decoded into
    [config] and, for the legacy layout, into [legacy.Injection.Mode]
    (the empty string when the key is missing). *)
Definition Load_migrate (config : Config) (legacy_Injection_Mode : string) : Config :=
  if (Z.of_nat (length (Backends (Injection config))) =? 0)
  then migrateInjectionMode config legacy_Injection_Mode
  else config.

Definition set_LLM (c : Config) (l : LLMConfig) : Config :=
  {| Recording := Recording c; Transcription := Transcription c;
     Injection := Injection c; Notifications := Notifications c;
     Processing := Processing c; LLM := l |}.

(** [c.LLM.Provider = v], [c.LLM.Model = v] and [c.LLM.Level = v]. *)
Definition set_LLM_Provider (c : Config) (v : string) : Config :=
  set_LLM c {| LLM_Provider := v; LLM_APIKey := LLM_APIKey (LLM c);
               LLM_Model := LLM_Model (LLM c); Level := Level (LLM c);
               CustomPrompt := CustomPrompt (LLM c) |}.
Definition set_LLM_Model (c : Config) (v : string) : Config :=
  set_LLM c {| LLM_Provider := LLM_Provider (LLM c); LLM_APIKey := LLM_APIKey (LLM c);
               LLM_Model := v; Level := Level (LLM c);
               CustomPrompt := CustomPrompt (LLM c) |}.
Definition set_LLM_Level (c : Config) (v : string) : Config :=
  set_LLM c {| LLM_Provider := LLM_Provider (LLM c); LLM_APIKey := LLM_APIKey (LLM c);
               LLM_Model := LLM_Model (LLM c); Level := v;
               CustomPrompt := CustomPrompt (LLM c) |}.

(** A lookup in a [map[string]bool] literal whose values are all [true]. *)
Definition lookup_true (keys : list string) (k : string) : bool :=
  existsb (String.eqb k) keys.

Definition isValidLanguageCode (code : string) : bool :=
  lookup_true
    [
     "en"; "es"; "fr"; "de"; "it"; "pt"; "ru"; "ja"; "ko"; "zh"; "ar"; "hi";
     "nl"; "sv"; "da"; "no"; "fi"; "pl"; "tr"; "he"; "th"; "vi"; "id"; "ms";
     "uk"; "cs"; "hu"; "ro"; "bg"; "hr"; "sk"; "sl"; "et"; "lv"; "lt"; "mt";
     "cy"; "ga"; "eu"; "ca"; "gl"; "is"; "mk"; "sq"; "az"; "be"; "ka"; "hy";
     "kk"; "ky"; "tg"; "uz"; "mn"; "ne"; "si"; "km"; "lo"; "my"; "fa"; "ps";
     "ur"; "bn"; "ta"; "te"; "ml"; "kn"; "gu"; "pa"; "or"; "as"; "mr"; "sa";
     "sw"; "yo"; "ig"; "ha"; "zu"; "xh"; "af"; "am"; "mg"; "so"; "sn"; "rw" ] code.

Definition Errorf (msg : string) : option error := Some (errorString msg).

Section Validate.
(** [os.Getenv]; [%v] of a [time.Duration]; [%q] of a string. *)
Variable Getenv : string -> string.
Variable Duration_String : Z -> string.
Variable Quote : string -> string.

Definition ToTranscriberConfig (c : Config) : transcriber.Config :=
  let t := Transcription c in
  let apiKey :=
    if String.eqb (APIKey t) "" then
      if String.eqb (Provider t) "openai" then Getenv "OPENAI_API_KEY"
      else if String.eqb (Provider t) "groq-transcription"
              || String.eqb (Provider t) "groq-translation" then Getenv "GROQ_API_KEY"
      else APIKey t
    else APIKey t in
  {| transcriber.Provider := Provider t;
     transcriber.APIKey := apiKey;
     transcriber.Language := Language t;
     transcriber.Model := Model t |}.

Definition ToLLMConfig (c : Config) : llm.Config :=
  let l := LLM c in
  {| llm.Provider := LLM_Provider l;
     llm.APIKey := if String.eqb (LLM_APIKey l) "" then Getenv "OPENAI_API_KEY"
                   else LLM_APIKey l;
     llm.Model := LLM_Model l;
     llm.Level := if String.eqb (Level l) "" then "moderate" else Level l;
     llm.CustomPrompt := CustomPrompt l |}.

(** [Validate], section by section as the source has it.  The checks of
    the recording section. *)
Definition Validate_Recording (c : Config) : option error :=
  let r := Recording c in
  if SampleRate r <=? 0 then
    Errorf ("invalid recording.sample_rate: " +:+ strconv.Itoa (SampleRate r))
  else if Channels r <=? 0 then
    Errorf ("invalid recording.channels: " +:+ strconv.Itoa (Channels r))
  else if BufferSize r <=? 0 then
    Errorf ("invalid recording.buffer_size: " +:+ strconv.Itoa (BufferSize r))
  else if ChannelBufferSize r <=? 0 then
    Errorf ("invalid recording.channel_buffer_size: " +:+ strconv.Itoa (ChannelBufferSize r))
  else if String.eqb (Format r) "" then Errorf "invalid recording.format: empty"
  else if Timeout r <=? 0 then
    Errorf ("invalid recording.timeout: " +:+ Duration_String (Timeout r))
  else None.

(** The key and the language, checked alike for the three providers. *)
Definition Validate_key_language (c : Config) (env missing : string) : option error :=
  let t := Transcription c in
  let apiKey := if String.eqb (APIKey t) "" then Getenv env else APIKey t in
  if String.eqb apiKey "" then Errorf missing
  else if negb (String.eqb (Language t) "") && negb (isValidLanguageCode (Language t)) then
    Errorf ("invalid transcription.language: " +:+ Language t
            +:+ " (use empty string for auto-detect or ISO-639-1 codes like 'en', 'es', 'fr')")
  else None.

Definition Groq_key_missing : string :=
  "Groq API key required: not found in config (transcription.api_key) or environment variable (GROQ_API_KEY)".

Definition Validate_Transcription (c : Config) : option error :=
  let t := Transcription c in
  if String.eqb (Provider t) "" then Errorf "invalid transcription.provider: empty"
  else
    let err :=
      if String.eqb (Provider t) "openai" then
        Validate_key_language c "OPENAI_API_KEY"
          "OpenAI API key required: not found in config (transcription.api_key) or environment variable (OPENAI_API_KEY)"
      else if String.eqb (Provider t) "groq-transcription" then
        match Validate_key_language c "GROQ_API_KEY" Groq_key_missing with
        | Some e => Some e
        | None =>
            if negb (String.eqb (Model t) "")
               && negb (lookup_true ["whisper-large-v3"; "whisper-large-v3-turbo"] (Model t))
            then Errorf ("invalid model for groq-transcription: " +:+ Model t
                         +:+ " (must be whisper-large-v3 or whisper-large-v3-turbo)")
            else None
        end
      else if String.eqb (Provider t) "groq-translation" then
        match Validate_key_language c "GROQ_API_KEY" Groq_key_missing with
        | Some e => Some e
        | None =>
            if negb (String.eqb (Model t) "")
               && negb (String.eqb (Model t) "whisper-large-v3")
            then Errorf ("invalid model for groq-translation: " +:+ Model t
                         +:+ " (must be whisper-large-v3, turbo version not supported for translation)")
            else None
        end
      else
        Errorf ("unsupported transcription.provider: " +:+ Provider t
                +:+ " (must be openai, groq-transcription, or groq-translation)") in
    match err with
    | Some e => Some e
    | None =>
        if String.eqb (Model t) "" then Errorf "invalid transcription.model: empty"
        else None
    end.

Definition Validate_Injection (c : Config) : option error :=
  let i := Injection c in
  if (Z.of_nat (length (Backends i)) =? 0) then
    Errorf "invalid injection.backends: empty (must have at least one backend)"
  else
    match find (fun backend =>
                  negb (lookup_true ["ydotool"; "wtype"; "clipboard"] backend))
               (Backends i) with
    | Some backend =>
        Errorf ("invalid injection.backends: unknown backend " +:+ Quote backend
                +:+ " (must be ydotool, wtype, or clipboard)")
    | None =>
        if YdotoolTimeout i <=? 0 then
          Errorf ("invalid injection.ydotool_timeout: " +:+ Duration_String (YdotoolTimeout i))
        else if WtypeTimeout i <=? 0 then
          Errorf ("invalid injection.wtype_timeout: " +:+ Duration_String (WtypeTimeout i))
        else if ClipboardTimeout i <=? 0 then
          Errorf ("invalid injection.clipboard_timeout: "
                  +:+ Duration_String (ClipboardTimeout i))
        else None
    end.

Definition Validate_Notifications (c : Config) : option error :=
  if negb (lookup_true ["desktop"; "log"; "none"] (Type_ (Notifications c))) then
    Errorf ("invalid notifications.type: " +:+ Type_ (Notifications c)
            +:+ " (must be desktop, log, or none)")
  else None.

(** The checks under [if c.Processing.Mode == "llm"], which fill in the
    defaults of the provider, the model and the level as they go. *)
Definition Validate_LLM (c : Config) : option error * Config :=
  let c := if String.eqb (LLM_Provider (LLM c)) "" then set_LLM_Provider c "openai" else c in
  if negb (String.eqb (LLM_Provider (LLM c)) "openai") then
    (Errorf ("invalid llm.provider: " +:+ LLM_Provider (LLM c) +:+ " (must be openai)"), c)
  else
    let c := if String.eqb (LLM_Model (LLM c)) "" then set_LLM_Model c "gpt-4o-mini" else c in
    let c := if String.eqb (Level (LLM c)) "" then set_LLM_Level c "moderate" else c in
    if negb (lookup_true ["minimal"; "moderate"; "thorough"; "custom"] (Level (LLM c))) then
      (Errorf ("invalid llm.level: " +:+ Level (LLM c)
               +:+ " (must be minimal, moderate, thorough, or custom)"), c)
    else if String.eqb (Level (LLM c)) "custom" && String.eqb (CustomPrompt (LLM c)) "" then
      (Errorf "llm.custom_prompt is required when llm.level is 'custom'", c)
    else
      let apiKey :=
        if String.eqb (LLM_APIKey (LLM c)) "" then Getenv "OPENAI_API_KEY"
        else LLM_APIKey (LLM c) in
      if String.eqb apiKey "" then
        (Errorf "LLM API key required when processing.mode is 'llm': not found in config (llm.api_key) or environment variable (OPENAI_API_KEY)", c)
      else (None, c).

(** [Validate] on the record behind the pointer: the error, and the
    record as the call leaves it. *)
Definition Validate (c : Config) : option error * Config :=
  match Validate_Recording c with
  | Some e => (Some e, c)
  | None =>
  match Validate_Transcription c with
  | Some e => (Some e, c)
  | None =>
  match Validate_Injection c with
  | Some e => (Some e, c)
  | None =>
  match Validate_Notifications c with
  | Some e => (Some e, c)
  | None =>
      let c := if String.eqb (Mode (Processing c)) "" then set_Processing_Mode c "raw" else c in
      if negb (lookup_true ["raw"; "llm"] (Mode (Processing c))) then
        (Errorf ("invalid processing.mode: " +:+ Mode (Processing c)
                 +:+ " (must be raw or llm)"), c)
      else if String.eqb (Mode (Processing c)) "llm" then Validate_LLM c
      else (None, c)
  end end end end.

End Validate.

End config.

(** ** internal/bus: the lockfile *)

Module bus.

(** A file of the cache directory: its bytes, and whether the process may
    open it for reading. *)
Record file := { data : string; readable : bool }.














End bus.

(** ** context: cancellation handles with a deadline *)

Module context.

Record Context := { Deadline : option Z; Done : bool }.

Definition Background : Context := {| Deadline := None; Done := false |}.

Definition cancel (c : Context) : Context :=
  {| Deadline := Deadline c; Done := true |}.

(** [context.WithTimeout(parent, timeout)] called at time [now]: the
    child keeps an earlier deadline of the parent, is done at once when
    its own deadline has already passed, and is done whenever the parent
    is. *)
Definition WithTimeout (parent : Context) (timeout now : Z) : Context :=
  let d := now + timeout in
  match Deadline parent with
  | Some cur =>
      if cur <? d then {| Deadline := Some cur; Done := Done parent |}
      else if timeout <=? 0 then {| Deadline := Some d; Done := true |}
      else {| Deadline := Some d; Done := Done parent |}
  | None =>
      if timeout <=? 0 then {| Deadline := Some d; Done := true |}
      else {| Deadline := Some d; Done := Done parent |}
  end.

(** The timer of the context fires once the clock reaches the deadline. *)
Definition expire (now : Z) (c : Context) : Context :=
  match Deadline c with
  | Some d => if d <=? now then cancel c else c
  | None => c
  end.

End context.

(** ** Outcomes of a call: it returns, it blocks for ever on a channel or a
    wait group, or the process panics (nil pointer dereference). *)

Inductive res (A : Type) : Type :=
  | Ret (a : A)
  | Block
  | Crash.
Arguments Ret {A} a.
Arguments Block {A}.
Arguments Crash {A}.

Definition res_bind {A B : Type} (m : res A) (k : A -> res B) : res B :=
  match m with
  | Ret a => k a
  | Block => Block
  | Crash => Crash
  end.

Notation "'let*' x ':=' m 'in' k" := (res_bind m (fun x => k))
  (at level 10, x pattern, m at level 100, k at level 200).

(** [*ptr] on the configuration store; the nil or dangling pointer panics. *)
Definition deref (mem : gmap positive config.Config) (ptr : positive) : res config.Config :=
  match mem !! ptr with
  | Some c => Ret c
  | None => Crash
  end.

(** ** internal/pipeline *)

Module pipeline.

(** [type Status string] and [type Action string]. *)
Abbreviation Status := string (only parsing).
Abbreviation Action := string (only parsing).

Definition Idle : Status := "idle".
Definition Recording : Status := "recording".
Definition Transcribing : Status := "transcribing".
Definition Injecting : Status := "injecting".

Definition Inject : Action := "inject".
Definition Cancel : Action := "cancel".

Record PipelineError := {
  Title : string;
  Message : string;
  Err : option error }.

(** Where the goroutine started by [Run] stands: not started, before
    [setStatus(Recording)], before [recorder.Start], in the [select] loop,
    or returned. *)
Inductive wpc := NotStarted | AtStart | InRecording | InLoop | Exited.

(** The [pipeline] struct ([status] to [running]; [cancel] tells whether
    the cancel function is set, [stopOnce] whether it has fired), then the
    context made by [Run], the position of the worker, and two counters
    of the model: how many workers [Run] has started and the statuses
    [setStatus] has written, oldest first. *)
Record pipeline := {
  status : Status;
  actionCh : list Action;
  errorCh : list PipelineError;
  config : positive;
  windowAddress : string;
  cancel : bool;
  stopOnce : bool;
  wg : Z;
  running : bool;
  runCtx : context.Context;
  worker : wpc;
  spawned : nat;
  observed : list Status }.

Definition set_status (v : string) (p : pipeline) : pipeline :=
  {| status := v; actionCh := actionCh p; errorCh := errorCh p; config := config p;
     windowAddress := windowAddress p; cancel := cancel p; stopOnce := stopOnce p;
     wg := wg p; running := running p; runCtx := runCtx p; worker := worker p;
     spawned := spawned p; observed := observed p |}.

Definition set_actionCh (v : list string) (p : pipeline) : pipeline :=
  {| status := status p; actionCh := v; errorCh := errorCh p; config := config p;
     windowAddress := windowAddress p; cancel := cancel p; stopOnce := stopOnce p;
     wg := wg p; running := running p; runCtx := runCtx p; worker := worker p;
     spawned := spawned p; observed := observed p |}.

Definition set_errorCh (v : list PipelineError) (p : pipeline) : pipeline :=
  {| status := status p; actionCh := actionCh p; errorCh := v; config := config p;
     windowAddress := windowAddress p; cancel := cancel p; stopOnce := stopOnce p;
     wg := wg p; running := running p; runCtx := runCtx p; worker := worker p;
     spawned := spawned p; observed := observed p |}.

Definition set_windowAddress (v : string) (p : pipeline) : pipeline :=
  {| status := status p; actionCh := actionCh p; errorCh := errorCh p; config := config p;
     windowAddress := v; cancel := cancel p; stopOnce := stopOnce p; wg := wg p;
     running := running p; runCtx := runCtx p; worker := worker p; spawned := spawned p;
     observed := observed p |}.

Definition set_cancel (v : bool) (p : pipeline) : pipeline :=
  {| status := status p; actionCh := actionCh p; errorCh := errorCh p; config := config p;
     windowAddress := windowAddress p; cancel := v; stopOnce := stopOnce p; wg := wg p;
     running := running p; runCtx := runCtx p; worker := worker p; spawned := spawned p;
     observed := observed p |}.

Definition set_stopOnce (v : bool) (p : pipeline) : pipeline :=
  {| status := status p; actionCh := actionCh p; errorCh := errorCh p; config := config p;
     windowAddress := windowAddress p; cancel := cancel p; stopOnce := v; wg := wg p;
     running := running p; runCtx := runCtx p; worker := worker p; spawned := spawned p;
     observed := observed p |}.

Definition set_wg (v : Z) (p : pipeline) : pipeline :=
  {| status := status p; actionCh := actionCh p; errorCh := errorCh p; config := config p;
     windowAddress := windowAddress p; cancel := cancel p; stopOnce := stopOnce p; wg := v;
     running := running p; runCtx := runCtx p; worker := worker p; spawned := spawned p;
     observed := observed p |}.

Definition set_running (v : bool) (p : pipeline) : pipeline :=
  {| status := status p; actionCh := actionCh p; errorCh := errorCh p; config := config p;
     windowAddress := windowAddress p; cancel := cancel p; stopOnce := stopOnce p;
     wg := wg p; running := v; runCtx := runCtx p; worker := worker p;
     spawned := spawned p; observed := observed p |}.

Definition set_runCtx (v : context.Context) (p : pipeline) : pipeline :=
  {| status := status p; actionCh := actionCh p; errorCh := errorCh p; config := config p;
     windowAddress := windowAddress p; cancel := cancel p; stopOnce := stopOnce p;
     wg := wg p; running := running p; runCtx := v; worker := worker p;
     spawned := spawned p; observed := observed p |}.

Definition set_worker (v : wpc) (p : pipeline) : pipeline :=
  {| status := status p; actionCh := actionCh p; errorCh := errorCh p; config := config p;
     windowAddress := windowAddress p; cancel := cancel p; stopOnce := stopOnce p;
     wg := wg p; running := running p; runCtx := runCtx p; worker := v;
     spawned := spawned p; observed := observed p |}.

Definition set_spawned (v : nat) (p : pipeline) : pipeline :=
  {| status := status p; actionCh := actionCh p; errorCh := errorCh p; config := config p;
     windowAddress := windowAddress p; cancel := cancel p; stopOnce := stopOnce p;
     wg := wg p; running := running p; runCtx := runCtx p; worker := worker p;
     spawned := v; observed := observed p |}.

Definition set_observed (v : list string) (p : pipeline) : pipeline :=
  {| status := status p; actionCh := actionCh p; errorCh := errorCh p; config := config p;
     windowAddress := windowAddress p; cancel := cancel p; stopOnce := stopOnce p;
     wg := wg p; running := running p; runCtx := runCtx p; worker := worker p;
     spawned := spawned p; observed := v |}.

(** Zero values everywhere: the status of a new pipeline is the empty
    string. *)
Definition New (cfg : positive) : pipeline :=
  {| status := ""; actionCh := []; errorCh := []; config := cfg;
     windowAddress := ""; cancel := false; stopOnce := false; wg := 0;
     running := false; runCtx := context.Background; worker := NotStarted;
     spawned := 0; observed := [] |}.

Definition actionCh_cap : nat := 1.
Definition errorCh_cap : nat := 10.

Definition setStatus (s : Status) (p : pipeline) : pipeline :=
  set_observed (observed p ++ [s]) (set_status s p).

Definition setCancel (p : pipeline) : pipeline := set_cancel true p.

Definition SetWindowAddress (address : string) (p : pipeline) : pipeline :=
  set_windowAddress address p.

(** [select { case p.errorCh <- pipelineErr: default: }]. *)
Definition sendError (title message : string) (err : option error) (p : pipeline)
    : pipeline :=
  let pipelineErr := {| Title := title; Message := message; Err := err |} in
  if (length (errorCh p) <? errorCh_cap)%nat
  then set_errorCh (errorCh p ++ [pipelineErr]) p
  else p.

(** [Run(ctx)] at time [now]: returns the pipeline and leaves the worker
    at its first instruction when the compare-and-swap succeeds. *)
Definition Run (mem : gmap positive config.Config) (ctx : context.Context) (now : Z)
    (p : pipeline) : res pipeline :=
  if running p then Ret p
  else
    let p := set_running true p in
    let* cfg := deref mem (config p) in
    let runCtx := context.WithTimeout ctx (config.Timeout (config.Recording cfg)) now in
    let p := setCancel (set_runCtx runCtx p) in
    let p := set_wg (wg p + 1) p in
    Ret (set_spawned (S (spawned p)) (set_worker AtStart p)).

Section Worker.
(** [W] is the state of the collaborators outside the pipeline: the
    recorder, the transcriber and what the injection backends act on. *)
Context {W : Type}.

(** [recording.NewRecorder(cfg.ToRecordingConfig()).Start(ctx)]. *)
Variable recorder_Start : config.Config -> context.Context -> W -> option error * W.
Variable recorder_Stop : W -> W.
(** [transcriber.NewTranscriber(cfg.ToTranscriberConfig())]. *)
Variable NewTranscriber : config.Config -> W -> option error * W.
Variable transcriber_Start : context.Context -> W -> option error * W.
Variable transcriber_Stop : context.Context -> W -> option error * W.
Variable GetFinalTranscription : W -> (string * option error) * W.
Variable ydotool_Inject wtype_Inject clipboard_Inject :
  context.Context -> string -> Z -> string -> W -> option error * W.

Definition handleInjectAction (mem : gmap positive config.Config) (p : pipeline) (w : W)
    : res (pipeline * W) :=
  let status := status p in
  if negb (String.eqb status Transcribing) then Ret (p, w)
  else
    let p := setStatus Injecting p in
    let w := recorder_Stop w in
    let '(err, w) := transcriber_Stop (runCtx p) w in
    match err with
    | Some e =>
        Ret (sendError "Transcription Error"
               "Failed to stop transcriber during injection" (Some e) p, w)
    | None =>
        let '((transcriptionText, err), w) := GetFinalTranscription w in
        match err with
        | Some e =>
            Ret (sendError "Transcription Error"
                   "Failed to retrieve transcription" (Some e) p, w)
        | None =>
            let* cfg := deref mem (config p) in
            let injector :=
              injection.NewInjector ydotool_Inject wtype_Inject clipboard_Inject
                (config.ToInjectionConfig cfg) in
            let windowAddress := windowAddress p in
            let '(err, w) :=
              injection.Inject injector (runCtx p) transcriptionText windowAddress w in
            let p :=
              match err with
              | Some e => sendError "Injection Error" "Failed to inject text" (Some e) p
              | None => p
              end in
            Ret (setStatus Idle p, w)
        end
    end.

(** The deferred calls of [run], innermost last registered first run.
    [defer_final] is the function deferred at the top of [run]. *)
Definition defer_final (p : pipeline) : pipeline :=
  let p := set_running false p in
  let p := setStatus Idle p in
  set_worker Exited (set_wg (wg p - 1) p).

Definition defer_recorder (p : pipeline) (w : W) : pipeline * W :=
  (defer_final p, recorder_Stop w).

(** The error of the deferred [t.Stop(ctx)] is only logged. *)
Definition defer_transcriber (p : pipeline) (w : W) : pipeline * W :=
  let '(_, w) := transcriber_Stop (runCtx p) w in
  defer_recorder p w.

(** The cases of the [select] in the loop of [run]. *)
Inductive select_case := SelFrame | SelAction | SelDone.

(** One stretch of [run], from the position of the worker to the next
    one.  In the loop [sel] is the case [select] picks; a case that is
    not ready leaves the worker waiting. *)
Definition run (mem : gmap positive config.Config) (sel : select_case)
    (p : pipeline) (w : W) : res (pipeline * W) :=
  match worker p with
  | NotStarted | Exited => Ret (p, w)
  | AtStart => Ret (set_worker InRecording (setStatus Recording p), w)
  | InRecording =>
      let* cfg := deref mem (config p) in
      let '(err, w) := recorder_Start cfg (runCtx p) w in
      match err with
      | Some e =>
          Ret (defer_final
                 (sendError "Recording Error" "Failed to start recording" (Some e) p), w)
      | None =>
          let '(err, w) := NewTranscriber cfg w in
          match err with
          | Some e =>
              Ret (defer_recorder
                     (sendError "Transcription Error" "Failed to create transcriber"
                        (Some e) p) w)
          | None =>
              let p := setStatus Transcribing p in
              let '(err, w) := transcriber_Start (runCtx p) w in
              match err with
              | Some e =>
                  Ret (defer_recorder
                         (sendError "Transcription Error" "Failed to start transcriber"
                            (Some e) p) w)
              | None => Ret (set_worker InLoop p, w)
              end
          end
      end
  | InLoop =>
      match sel with
      | SelFrame => Ret (p, w)
      | SelAction =>
          match actionCh p with
          | [] => Ret (p, w)
          | action :: rest =>
              let p := set_actionCh rest p in
              if String.eqb action Inject then
                let* (p, w) := handleInjectAction mem p w in
                Ret (defer_transcriber p w)
              else Ret (p, w)
          end
      | SelDone =>
          if context.Done (runCtx p) then Ret (defer_transcriber p w)
          else Ret (p, w)
      end
  end.

(** What happens around the worker: it runs a stretch, somebody sends
    on the action mailbox, the clock advances, the context is cancelled,
    a forwarding goroutine passes on an error of a collaborator, or the
    error mailbox is read. *)
Inductive event :=
  | EvWorker (sel : select_case)
  | EvSend (a : Action)
  | EvClock (now : Z)
  | EvCancel
  | EvForward (title message : string) (err : option error)
  | EvRecvError.

Definition step (mem : gmap positive config.Config) (ev : event)
    (p : pipeline) (w : W) : res (pipeline * W) :=
  match ev with
  | EvWorker sel => run mem sel p w
  | EvSend a =>
      if (length (actionCh p) <? actionCh_cap)%nat
      then Ret (set_actionCh (actionCh p ++ [a]) p, w)
      else Block
  | EvClock now => Ret (set_runCtx (context.expire now (runCtx p)) p, w)
  | EvCancel => Ret (set_runCtx (context.cancel (runCtx p)) p, w)
  | EvForward title message err =>
      match worker p with
      | InLoop | Exited => Ret (sendError title message err p, w)
      | _ => Ret (p, w)
      end
  | EvRecvError => Ret (set_errorCh (tail (errorCh p)) p, w)
  end.

Fixpoint steps (mem : gmap positive config.Config) (evs : list event)
    (p : pipeline) (w : W) : res (pipeline * W) :=
  match evs with
  | [] => Ret (p, w)
  | ev :: evs' =>
      let* (p, w) := step mem ev p w in
      steps mem evs' p w
  end.

(** [wg.Wait()] of [Stop]: the caller is held until the worker has
    returned; [sched] lists the cases the [select] of the worker picks
    meanwhile. *)
Fixpoint wait (mem : gmap positive config.Config) (sched : list select_case)
    (p : pipeline) (w : W) : res (pipeline * W) :=
  if wg p <=? 0 then Ret (p, w)
  else
    match sched with
    | [] => Block
    | sel :: sched' =>
        let* (p, w) := run mem sel p w in
        wait mem sched' p w
    end.

Definition Stop (mem : gmap positive config.Config) (sched : list select_case)
    (p : pipeline) (w : W) : res (pipeline * W) :=
  let p :=
    if stopOnce p then p
    else
      let p := set_stopOnce true p in
      if cancel p then set_runCtx (context.cancel (runCtx p)) p else p in
  wait mem sched p w.

End Worker.

End pipeline.

(** ** internal/daemon *)

Module daemon.

(** A call on [d.notifier]. *)
Inductive note :=
  | Notify (title message : string)
  | NotifyError (message : string).

(** The [Daemon] struct.  [mem] is the store the configuration pointers
    point into and [configMgr] the pointer [d.configMgr.GetConfig()]
    returns; [notifier] is the notification settings the current notifier
    was built from and [notified] the calls made on it, oldest first;
    [ctx] is [d.ctx], which [d.cancel()] cancels.  A pipeline the daemon
    no longer refers to is no longer part of the state. *)
Record Daemon := {
  notifier : config.NotificationsConfig;
  notified : list note;
  mem : gmap positive config.Config;
  configMgr : positive;
  ctx : context.Context;
  pipeline : option pipeline.pipeline;
  wg : Z;
  modeOverride : string }.

Definition set_notifier (v : config.NotificationsConfig) (d : Daemon) : Daemon :=
  {| notifier := v; notified := notified d; mem := mem d; configMgr := configMgr d;
     ctx := ctx d; pipeline := pipeline d; wg := wg d; modeOverride := modeOverride d |}.

Definition set_notified (v : list note) (d : Daemon) : Daemon :=
  {| notifier := notifier d; notified := v; mem := mem d; configMgr := configMgr d;
     ctx := ctx d; pipeline := pipeline d; wg := wg d; modeOverride := modeOverride d |}.

Definition set_mem (v : gmap positive config.Config) (d : Daemon) : Daemon :=
  {| notifier := notifier d; notified := notified d; mem := v; configMgr := configMgr d;
     ctx := ctx d; pipeline := pipeline d; wg := wg d; modeOverride := modeOverride d |}.

Definition set_configMgr (v : positive) (d : Daemon) : Daemon :=
  {| notifier := notifier d; notified := notified d; mem := mem d; configMgr := v;
     ctx := ctx d; pipeline := pipeline d; wg := wg d; modeOverride := modeOverride d |}.

Definition set_ctx (v : context.Context) (d : Daemon) : Daemon :=
  {| notifier := notifier d; notified := notified d; mem := mem d;
     configMgr := configMgr d; ctx := v; pipeline := pipeline d; wg := wg d;
     modeOverride := modeOverride d |}.

Definition set_pipeline (v : option pipeline.pipeline) (d : Daemon) : Daemon :=
  {| notifier := notifier d; notified := notified d; mem := mem d;
     configMgr := configMgr d; ctx := ctx d; pipeline := v; wg := wg d;
     modeOverride := modeOverride d |}.

Definition set_wg (v : Z) (d : Daemon) : Daemon :=
  {| notifier := notifier d; notified := notified d; mem := mem d;
     configMgr := configMgr d; ctx := ctx d; pipeline := pipeline d; wg := v;
     modeOverride := modeOverride d |}.

Definition set_modeOverride (v : string) (d : Daemon) : Daemon :=
  {| notifier := notifier d; notified := notified d; mem := mem d;
     configMgr := configMgr d; ctx := ctx d; pipeline := pipeline d; wg := wg d;
     modeOverride := v |}.

Definition notify (n : note) (d : Daemon) : Daemon :=
  set_notified (notified d ++ [n]) d.

(** What a handler meets outside the daemon while it runs: the answer of
    [hyprctl] to [getActiveWindow], the clock, and the cases the [select]
    of the worker picks while [Stop] waits for it. *)
Record Env := {
  activeWindow : string;
  now : Z;
  sched : list pipeline.select_case }.

(** The peer of a connection: the bytes it sends, and the error [Read]
    returns once they are consumed ([io.EOF] when the peer closes). *)
Record Conn := { readData : string; readErr : error }.

Definition nl : string := String "010"%char EmptyString.

(** The bytes of [s] up to and including the first newline. *)
Fixpoint upto_newline (s : string) : option string :=
  match s with
  | EmptyString => None
  | String c r =>
      if Ascii.eqb c "010"%char then Some (String c EmptyString)
      else option_map (String c) (upto_newline r)
  end.

(** [bufio.NewReader(c).ReadString('\n')]: the line with its delimiter,
    or what was read together with the error that ended the reading. *)
Definition ReadString (c : Conn) : string * option error :=
  match upto_newline (readData c) with
  | Some line => (line, None)
  | None => (readData c, Some (readErr c))
  end.

Section Daemon.
Context {W : Type}.
Variable recorder_Start : config.Config -> context.Context -> W -> option error * W.
Variable recorder_Stop : W -> W.
Variable NewTranscriber : config.Config -> W -> option error * W.
Variable transcriber_Start : context.Context -> W -> option error * W.
Variable transcriber_Stop : context.Context -> W -> option error * W.
Variable GetFinalTranscription : W -> (string * option error) * W.
Variable ydotool_Inject wtype_Inject clipboard_Inject :
  context.Context -> string -> Z -> string -> W -> option error * W.
(** The fall-backs of [strings.TrimSpace] and the constant
    [bus.ProtoVer], declared outside the sources at hand. *)
Variable TrimFunc_IsSpace TrimRightFunc_IsSpace : string -> string.
Variable ProtoVer : string.

Definition status (d : Daemon) : pipeline.Status :=
  match pipeline d with
  | None => pipeline.Idle
  | Some p => pipeline.status p
  end.

Definition stopPipeline (env : Env) (d : Daemon) (w : W) : res (Daemon * W) :=
  let p := pipeline d in
  let d := set_pipeline None d in
  match p with
  | Some p =>
      let* (_, w) :=
        pipeline.Stop recorder_Start recorder_Stop NewTranscriber transcriber_Start
          transcriber_Stop GetFinalTranscription ydotool_Inject wtype_Inject
          clipboard_Inject (mem d) (sched env) p w in
      Ret (d, w)
  | None => Ret (d, w)
  end.

Definition getEffectiveMode (d : Daemon) : res string :=
  if negb (String.eqb (modeOverride d) "") then Ret (modeOverride d)
  else
    let* cfg := deref (mem d) (configMgr d) in
    Ret (config.Mode (config.Processing cfg)).

Definition setModeOverride (mode : string) (d : Daemon) : Daemon :=
  set_modeOverride mode d.

(** [cfgCopy := *cfg] allocates a new record; without an override the
    pointer of the configuration manager itself is returned. *)
Definition getConfigWithModeOverride (d : Daemon) : res (positive * Daemon) :=
  let cfg := configMgr d in
  let modeOverride := modeOverride d in
  if negb (String.eqb modeOverride "") then
    let* c := deref (mem d) cfg in
    let cfgCopy := config.set_Processing_Mode c modeOverride in
    let ptr := fresh (dom (mem d)) in
    Ret (ptr, set_mem (<[ptr := cfgCopy]> (mem d)) d)
  else Ret (cfg, d).

Definition toggle (env : Env) (d : Daemon) (w : W) : res (Daemon * W) :=
  let st := status d in
  if String.eqb st pipeline.Idle then
    let* (config, d) := getConfigWithModeOverride d in
    let windowAddress := activeWindow env in
    let p := pipeline.New config in
    let p :=
      if negb (String.eqb windowAddress "") then pipeline.SetWindowAddress windowAddress p
      else p in
    let* p := pipeline.Run (mem d) (ctx d) (now env) p in
    let d := set_pipeline (Some p) d in
    Ret (notify (Notify "Hyprvoice" "Recording Started") d, w)
  else if String.eqb st pipeline.Recording then
    let* (d, w) := stopPipeline env d w in
    Ret (notify (NotifyError "Recording Aborted") d, w)
  else if String.eqb st pipeline.Transcribing then
    let* d :=
      match pipeline d with
      | Some p =>
          if (length (pipeline.actionCh p) <? pipeline.actionCh_cap)%nat
          then Ret (set_pipeline
                      (Some (pipeline.set_actionCh
                               (pipeline.actionCh p ++ [pipeline.Inject]) p)) d)
          else Block
      | None => Ret d
      end in
    Ret (notify (Notify "Hyprvoice" "Recording Ended... Transcribing") d, w)
  else if String.eqb st pipeline.Injecting then
    let* (d, w) := stopPipeline env d w in
    Ret (notify (NotifyError "Injection Aborted") d, w)
  else Ret (d, w).

Definition cancelPipeline (env : Env) (d : Daemon) (w : W) : res (Daemon * W) :=
  if String.eqb (status d) pipeline.Idle then Ret (d, w)
  else
    let* (d, w) := stopPipeline env d w in
    Ret (notify (Notify "Hyprvoice" "Operation Cancelled") d, w).

(** One turn of [monitorPipelineErrors] on the pipeline the daemon
    holds. *)
Definition monitorPipelineErrors (d : Daemon) : Daemon :=
  match pipeline d with
  | Some p =>
      match pipeline.errorCh p with
      | [] => d
      | pipelineErr :: rest =>
          let message :=
            match pipeline.Err pipelineErr with
            | Some e => pipeline.Message pipelineErr +:+ ": " +:+ Error e
            | None => pipeline.Message pipelineErr
            end in
          notify (NotifyError message)
            (set_pipeline (Some (pipeline.set_errorCh rest p)) d)
      end
  | None => d
  end.

(** [handle]: the response written on the connection and the daemon
    afterwards; the deferred [d.wg.Done()] runs on every return. *)
Definition handle (env : Env) (c : Conn) (d : Daemon) (w : W)
    : res (string * Daemon * W) :=
  let done (d : Daemon) := set_wg (wg d - 1) d in
  let '(line, err) := ReadString c in
  match err with
  | Some e => Ret ("ERR read_error: " +:+ Error e +:+ nl, done d, w)
  | None =>
      match line with
      | EmptyString => Ret ("ERR empty" +:+ nl, done d, w)
      | String cmd rest =>
          if Ascii.eqb cmd "t" then
            let* (d, w) := toggle env d w in
            Ret ("OK toggled" +:+ nl, done d, w)
          else if Ascii.eqb cmd "c" then
            let* (d, w) := cancelPipeline env d w in
            Ret ("OK cancelled" +:+ nl, done d, w)
          else if Ascii.eqb cmd "s" then
            Ret ("STATUS status=" +:+ status d +:+ nl, done d, w)
          else if Ascii.eqb cmd "v" then
            Ret ("STATUS proto=" +:+ ProtoVer +:+ nl, done d, w)
          else if Ascii.eqb cmd "q" then
            Ret ("OK quitting" +:+ nl, done (set_ctx (context.cancel (ctx d)) d), w)
          else if Ascii.eqb cmd "m" then
            let modeArg :=
              strings.TrimSpace TrimFunc_IsSpace TrimRightFunc_IsSpace rest in
            if String.eqb modeArg "" then
              let* mode := getEffectiveMode d in
              Ret ("MODE mode=" +:+ mode +:+ nl, done d, w)
            else if strings.HasPrefix modeArg ":" then
              let newMode := strings.TrimPrefix modeArg ":" in
              if negb (String.eqb newMode "raw") && negb (String.eqb newMode "llm") then
                Ret ("ERR invalid_mode=" +:+ newMode +:+ nl, done d, w)
              else
                Ret ("OK mode=" +:+ newMode +:+ nl, done (setModeOverride newMode d), w)
            else Ret ("ERR invalid_mode_command" +:+ nl, done d, w)
          else
            Ret ("ERR unknown=" +:+ strconv.QuoteRune cmd +:+ nl, done d, w)
      end
  end.

Definition onConfigReload (env : Env) (d : Daemon) (w : W) : res (Daemon * W) :=
  let* (d, w) := stopPipeline env d w in
  let d := notify (Notify "Hyprvoice" "Config Reloaded") d in
  let* cfg := deref (mem d) (configMgr d) in
  Ret (set_notifier (config.Notifications cfg) d, w).

(** Modelled from the spec: the configuration manager, whose source is
    not at hand.  "Mutating operations replace the whole snapshot
    atomically": a valid file read on a change becomes a new record,
    the manager then points to it and the reload callback runs. *)
Definition Manager_reload (env : Env) (loaded : config.Config) (d : Daemon) (w : W)
    : res (Daemon * W) :=
  let ptr := fresh (dom (mem d)) in
  let d := set_configMgr ptr (set_mem (<[ptr := loaded]> (mem d)) d) in
  onConfigReload env d w.

(** What moves the daemon: a connection is handled, the configuration
    file changes, the error monitor takes a turn, or something happens
    to the pipeline it holds. *)
Inductive event :=
  | EvHandle (env : Env) (c : Conn)
  | EvReload (env : Env) (loaded : config.Config)
  | EvMonitor
  | EvPipeline (ev : pipeline.event).

Definition step (ev : event) (d : Daemon) (w : W) : res (Daemon * W) :=
  match ev with
  | EvHandle env c =>
      let* (_, d, w) := handle env c (set_wg (wg d + 1) d) w in
      Ret (d, w)
  | EvReload env loaded => Manager_reload env loaded d w
  | EvMonitor => Ret (monitorPipelineErrors d, w)
  | EvPipeline ev =>
      match pipeline d with
      | Some p =>
          let* (p, w) :=
            pipeline.step recorder_Start recorder_Stop NewTranscriber transcriber_Start
              transcriber_Stop GetFinalTranscription ydotool_Inject wtype_Inject
              clipboard_Inject (mem d) ev p w in
          Ret (set_pipeline (Some p) d, w)
      | None => Ret (d, w)
      end
  end.

Fixpoint steps (evs : list event) (d : Daemon) (w : W) : res (Daemon * W) :=
  match evs with
  | [] => Ret (d, w)
  | ev :: evs' =>
      let* (d, w) := step ev d w in
      steps evs' d w
  end.

End Daemon.

End daemon.

(** ** cmd/hyprvoice: helpers of the configuration dialogue *)

Module cmd.

Definition quote : ascii := "034"%char.


(** [s[:maxLen-3]] panics when [maxLen-3] is negative; it is within the
    string whenever the first test has failed. *)
Definition truncateString (s : string) (maxLen : Z) : res string :=
  if Z.of_nat (String.length s) <=? maxLen then Ret s
  else if maxLen - 3 <? 0 then Crash
  else Ret (String.substring 0 (Z.to_nat (maxLen - 3)) s +:+ "...").

End cmd.

(** ** internal/bus: the client side of the protocol *)

Module client.

(** The bytes [SendCommand(cmd)] writes on the connection. *)
Definition SendCommand_request (cmd : ascii) : string :=
  String cmd daemon.nl.

(** The bytes [SendModeCommand(mode)] writes: "m" to ask for the mode, "m:"
    and the mode to set it, each followed by a newline. *)
Definition SendModeCommand_request (mode : string) : string :=
  if String.eqb mode "" then "m" +:+ daemon.nl
  else "m:" +:+ mode +:+ daemon.nl.

(** What both return once the daemon has written [written] and closed the
    connection: the first line, or the error of [ReadString]. *)
Definition read_response (written : string) : string + error :=
  match daemon.ReadString {| daemon.readData := written; daemon.readErr := errorString "EOF" |} with
  | (resp, None) => inl resp
  | (_, Some err) => inr (wrapError "failed to read response: " err)
  end.

End client.

(** * Vocabulary of the statements and sample data *)

(** The configuration of the daemon tests, decoded: the legacy key
    [injection.mode] and no [backends]. *)
Definition test_config : config.Config :=
  {| config.Recording :=
       {| config.SampleRate := 16000; config.Channels := 1; config.Format := "s16";
          config.BufferSize := 8192; config.Device := ""; config.ChannelBufferSize := 30;
          config.Timeout := 300 * time.Second |};
     config.Transcription :=
       {| config.Provider := "openai"; config.APIKey := "test-key";
          config.Language := ""; config.Model := "whisper-1" |};
     config.Injection :=
       {| config.Backends := []; config.YdotoolTimeout := 0;
          config.WtypeTimeout := 5 * time.Second;
          config.ClipboardTimeout := 3 * time.Second |};
     config.Notifications := {| config.Enabled := true; config.Type_ := "log" |};
     config.Processing := {| config.Mode := "" |};
     config.LLM :=
       {| config.LLM_Provider := ""; config.LLM_APIKey := ""; config.LLM_Model := "";
          config.Level := ""; config.CustomPrompt := "" |} |}.

(** The names [NewInjector] knows. *)
Definition known_backend (name : string) : Prop :=
  name ∈ ["ydotool"; "wtype"; "clipboard"].

Global Instance known_backend_dec (name : string) : Decision (known_backend name).
Proof. unfold known_backend. apply _. Defined.

Section InjectorVocabulary.
Context {W Ctx : Type}.
Variable ydotool_Inject wtype_Inject clipboard_Inject :
  Ctx -> string -> Z -> string -> W -> option error * W.

(** The backend a known name stands for. *)
Definition backend_named (name : string) : injection.Backend W Ctx :=
  if decide (name = "ydotool") then injection.NewYdotoolBackend ydotool_Inject
  else if decide (name = "wtype") then injection.NewWtypeBackend wtype_Inject
  else injection.NewClipboardBackend clipboard_Inject.

(** [all_fail i ctx text win bs w lastErr w']: called one after the other
    from [w], each with the timeout of its name, the backends [bs] all
    return an error; [lastErr] is the error of the last one and [w'] what
    they leave behind. *)
Inductive all_fail (i : injection.injector W Ctx) (ctx : Ctx) (text win : string)
    : list (injection.Backend W Ctx) -> W -> option error -> W -> Prop :=
  | all_fail_nil (w : W) : all_fail i ctx text win [] w None w
  | all_fail_snoc (bs : list (injection.Backend W Ctx)) (b : injection.Backend W Ctx)
      (w w1 w2 : W) (e0 : option error) (e : error) :
      all_fail i ctx text win bs w e0 w1 ->
      injection.Backend_Inject b ctx text (injection.getTimeout i (injection.Name b)) win w1
      = (Some e, w2) ->
      all_fail i ctx text win (bs ++ [b]) w (Some e) w2.
End InjectorVocabulary.

(** Backends that only record their calls: the world is the list of calls
    made so far, each with the name, the text and the timeout it got. *)
Definition call_log : Type := list (string * string * Z).

Definition logging_backend (name : string) (fails : bool)
    (ctx : unit) (text : string) (timeout : Z) (win : string) (w : call_log)
    : option error * call_log :=
  ((if fails then Some (errorString (name +:+ " failed")) else None),
   w ++ [(name, text, timeout)]).

Definition sample_injection_config : injection.Config :=
  {| injection.Backends := ["ydotool"; "xdotool"; "wtype"; "clipboard"];
     injection.YdotoolTimeout := 5 * time.Second;
     injection.WtypeTimeout := 2 * time.Second;
     injection.ClipboardTimeout := 3 * time.Second |}.



(** The command characters [handle] knows. *)
Definition known_command (cmd : ascii) : Prop :=
  cmd ∈ ["t"; "c"; "s"; "v"; "q"; "m"]%char.

(** Collaborators that record their calls in the world, a list of call
    names, and succeed unless told to fail. *)
Definition calls : Type := list string.

Definition called (name : string) (fails : bool) (w : calls) : option error * calls :=
  ((if fails then Some (errorString (name +:+ " failed")) else None), w ++ [name]).

Definition log_recorder_Start (fails : bool) (cfg : config.Config) (ctx : context.Context)
    (w : calls) : option error * calls := called "recorder.Start" fails w.
Definition log_recorder_Stop (w : calls) : calls := w ++ ["recorder.Stop"].
Definition log_NewTranscriber (cfg : config.Config) (w : calls) : option error * calls :=
  called "NewTranscriber" false w.
Definition log_transcriber_Start (ctx : context.Context) (w : calls) : option error * calls :=
  called "transcriber.Start" false w.
Definition log_transcriber_Stop (ctx : context.Context) (w : calls) : option error * calls :=
  called "transcriber.Stop" false w.
Definition log_GetFinalTranscription (w : calls) : (string * option error) * calls :=
  (("hello world", None), w ++ ["GetFinalTranscription"]).
Definition log_backend (name : string) (ctx : context.Context) (text : string) (timeout : Z)
    (win : string) (w : calls) : option error * calls :=
  called (name +:+ " " +:+ text) false w.

(** The test configuration as [Load] returns it, at address 1. *)
Definition sample_config : config.Config := config.Load_migrate test_config "fallback".

Definition sample_mem : gmap positive config.Config := {[ 1%positive := sample_config ]}.

Definition sample_run (sel : pipeline.select_case) (p : pipeline.pipeline) (w : calls)
    : res (pipeline.pipeline * calls) :=
  pipeline.run (log_recorder_Start false) log_recorder_Stop log_NewTranscriber
    log_transcriber_Start log_transcriber_Stop log_GetFinalTranscription
    (log_backend "ydotool") (log_backend "wtype") (log_backend "clipboard")
    sample_mem sel p w.


Definition sample_steps (evs : list pipeline.event) (p : pipeline.pipeline) (w : calls)
    : res (pipeline.pipeline * calls) :=
  pipeline.steps (log_recorder_Start false) log_recorder_Stop log_NewTranscriber
    log_transcriber_Start log_transcriber_Stop log_GetFinalTranscription
    (log_backend "ydotool") (log_backend "wtype") (log_backend "clipboard")
    sample_mem evs p w.

(** A pipeline just after [Run] at time 1000, after the first stretch of
    its worker (status "recording") and once the worker is in its loop
    (status "transcribing"). *)
Definition sample_started : pipeline.pipeline :=
  Eval vm_compute in
    match pipeline.Run sample_mem context.Background 1000 (pipeline.New 1) with
    | Ret p => p
    | _ => pipeline.New 1
    end.

Definition sample_recording : pipeline.pipeline :=
  Eval vm_compute in
    match sample_run pipeline.SelFrame sample_started [] with
    | Ret (p, _) => p
    | _ => sample_started
    end.

Definition sample_looping : pipeline.pipeline :=
  Eval vm_compute in
    match sample_run pipeline.SelFrame sample_recording [] with
    | Ret (p, _) => p
    | _ => sample_recording
    end.

(** C2 as the claim states it: sending an Inject to a pipeline whose
    status is not [Transcribing] is ignored, that is, whatever happens
    next, the status and the statuses written are those of the run
    without the action. *)
Definition inject_ignored_outside_transcribing {W : Type}
    (recorder_Start : config.Config -> context.Context -> W -> option error * W)
    (recorder_Stop : W -> W)
    (NewTranscriber : config.Config -> W -> option error * W)
    (transcriber_Start transcriber_Stop : context.Context -> W -> option error * W)
    (GetFinalTranscription : W -> (string * option error) * W)
    (ydotool_Inject wtype_Inject clipboard_Inject :
       context.Context -> string -> Z -> string -> W -> option error * W) : Prop :=
  forall (mem : gmap positive config.Config) (p : pipeline.pipeline) (w : W)
         (evs : list pipeline.event) (p1 p2 : pipeline.pipeline) (w1 w2 : W),
    pipeline.status p <> pipeline.Transcribing ->
    pipeline.steps recorder_Start recorder_Stop NewTranscriber transcriber_Start
      transcriber_Stop GetFinalTranscription ydotool_Inject wtype_Inject clipboard_Inject
      mem (pipeline.EvSend pipeline.Inject :: evs) p w = Ret (p1, w1) ->
    pipeline.steps recorder_Start recorder_Stop NewTranscriber transcriber_Start
      transcriber_Stop GetFinalTranscription ydotool_Inject wtype_Inject clipboard_Inject
      mem evs p w = Ret (p2, w2) ->
    pipeline.status p1 = pipeline.status p2 /\ pipeline.observed p1 = pipeline.observed p2.

(** [kept d d']: every record of the store of [d] is in the store of
    [d'], unchanged, and a session in flight in [d] that [d'] still
    holds has the pointer it was created with. *)
Definition kept (d d' : daemon.Daemon) : Prop :=
  (forall (ptr : positive) (c : config.Config),
      daemon.mem d !! ptr = Some c -> daemon.mem d' !! ptr = Some c)
  /\ (forall p p' : pipeline.pipeline,
        daemon.status d <> pipeline.Idle ->
        daemon.pipeline d = Some p -> daemon.pipeline d' = Some p' ->
        pipeline.config p' = pipeline.config p).

(** A daemon holding the sample session, and an idle one with the
    override "llm" set; the handlers they run. *)
Definition sample_daemon : daemon.Daemon :=
  {| daemon.notifier := config.Notifications sample_config;
     daemon.notified := [];
     daemon.mem := sample_mem;
     daemon.configMgr := 1%positive;
     daemon.ctx := context.Background;
     daemon.pipeline := Some sample_looping;
     daemon.wg := 1;
     daemon.modeOverride := "" |}.

Definition sample_idle_llm : daemon.Daemon :=
  daemon.setModeOverride "llm" (daemon.set_pipeline None sample_daemon).

Definition sample_env : daemon.Env :=
  {| daemon.activeWindow := "0x55d0"; daemon.now := 5000; daemon.sched := [] |}.

Definition sample_handle (c : daemon.Conn) (d : daemon.Daemon) (w : calls)
    : res (string * daemon.Daemon * calls) :=
  daemon.handle (log_recorder_Start false) log_recorder_Stop log_NewTranscriber
    log_transcriber_Start log_transcriber_Stop log_GetFinalTranscription
    (log_backend "ydotool") (log_backend "wtype") (log_backend "clipboard")
    id id "1" sample_env c d w.

Definition sample_toggle (d : daemon.Daemon) (w : calls) : res (daemon.Daemon * calls) :=
  daemon.toggle (log_recorder_Start false) log_recorder_Stop log_NewTranscriber
    log_transcriber_Start log_transcriber_Stop log_GetFinalTranscription
    (log_backend "ydotool") (log_backend "wtype") (log_backend "clipboard")
    sample_env d w.

(** A peer that sends [bytes] and closes. *)
Definition sends (bytes : string) : daemon.Conn :=
  {| daemon.readData := bytes; daemon.readErr := errorString "EOF" |}.

(** The worker has returned and left the pipeline idle. *)
Definition returned_idle (p : pipeline.pipeline) : Prop :=
  pipeline.worker p = pipeline.Exited
  /\ pipeline.status p = pipeline.Idle
  /\ pipeline.running p = false.

(** The statuses a worker may write from its start to its return, in
    the order it writes them. *)
Definition session_statuses : list (list string) :=
  [ [pipeline.Recording; pipeline.Idle];
    [pipeline.Recording; pipeline.Transcribing; pipeline.Idle];
    [pipeline.Recording; pipeline.Transcribing; pipeline.Injecting; pipeline.Idle];
    [pipeline.Recording; pipeline.Transcribing; pipeline.Injecting; pipeline.Idle;
     pipeline.Idle] ].

(** What a started worker has written as statuses since [before], by
    its position. *)
Definition statuses_follow (before : list string) (p : pipeline.pipeline) : Prop :=
  match pipeline.worker p with
  | pipeline.NotStarted => False
  | pipeline.AtStart => pipeline.observed p = before
  | pipeline.InRecording =>
      pipeline.observed p = before ++ [pipeline.Recording]
      /\ pipeline.status p = pipeline.Recording
  | pipeline.InLoop =>
      pipeline.observed p = before ++ [pipeline.Recording; pipeline.Transcribing]
      /\ pipeline.status p = pipeline.Transcribing
  | pipeline.Exited =>
      (exists s, s ∈ session_statuses /\ pipeline.observed p = before ++ s)
      /\ pipeline.status p = pipeline.Idle
  end.

(** Both mailboxes hold no more than their capacity. *)
Definition mailboxes_bounded (p : pipeline.pipeline) : Prop :=
  (length (pipeline.actionCh p) <= pipeline.actionCh_cap)%nat
  /\ (length (pipeline.errorCh p) <= pipeline.errorCh_cap)%nat.

(** The wait group counts the worker: one while it runs, none once it
    has returned. *)
Definition worker_counted (p : pipeline.pipeline) : Prop :=
  (pipeline.worker p <> pipeline.NotStarted /\ pipeline.worker p <> pipeline.Exited
   /\ pipeline.wg p = 1)
  \/ (returned_idle p /\ pipeline.wg p = 0).




Definition stopping_env : daemon.Env :=
  {| daemon.activeWindow := ""; daemon.now := 6000;
     daemon.sched := [pipeline.SelDone; pipeline.SelDone; pipeline.SelDone] |}.

Definition sample_stopPipeline (d : daemon.Daemon) (w : calls) : res (daemon.Daemon * calls) :=
  daemon.stopPipeline (log_recorder_Start false) log_recorder_Stop log_NewTranscriber
    log_transcriber_Start log_transcriber_Stop log_GetFinalTranscription
    (log_backend "ydotool") (log_backend "wtype") (log_backend "clipboard")
    stopping_env d w.


(** The bytes of a string. *)
Definition bytes (s : string) : list ascii := list_ascii_of_string s.

(** [filled_in old new default]: a field is as it was, or it was empty
    and now holds its default. *)
Definition filled_in (old new default : string) : Prop :=
  new = old \/ (old = "" /\ new = default).

(** An environment whose only variable is the OpenAI key, and stand-ins
    for the two formatting verbs of the error messages. *)
Definition sample_Getenv (name : string) : string :=
  if String.eqb name "OPENAI_API_KEY" then "sk-from-env" else "".
Definition sample_Duration_String (d : Z) : string := strconv.Itoa d +:+ "ns".
Definition sample_Quote (s : string) : string :=
  String cmd.quote s +:+ String cmd.quote EmptyString.

(** The sample configuration switched to the LLM mode, every field of the
    LLM section left empty. *)
Definition sample_llm_config : config.Config :=
  config.set_Processing_Mode sample_config "llm".

Definition sample_Validate : config.Config -> option error * config.Config :=
  config.Validate sample_Getenv sample_Duration_String sample_Quote.

(** The child process that fills the clipboard. *)
Definition wl_copy (text : string) : injection.Cmd :=
  {| injection.Path := "wl-copy"; injection.Args := []; injection.Stdin := text |}.

(** A host on which only wl-copy is installed, inside a Wayland session;
    its state is the list of the child processes run so far, and every
    child process other than wl-copy fails. *)
Definition sample_LookPath (file : string) (w : list injection.Cmd) : string + error :=
  if String.eqb file "wl-copy" then inl "/usr/bin/wl-copy"
  else inr (errorString "executable file not found in $PATH").
Definition sample_host_Getenv (name : string) : string :=
  if String.eqb name "WAYLAND_DISPLAY" then "wayland-1"
  else if String.eqb name "XDG_RUNTIME_DIR" then "/run/user/1000"
  else "".
Definition sample_Stat (p : string) (w : list injection.Cmd) : option error :=
  Some (errorString "no such file or directory").
Definition sample_Join (dir name : string) : string := dir +:+ "/" +:+ name.
Definition sample_WithTimeout (ctx : unit) (timeout : Z) (w : list injection.Cmd) : unit := ctx.
Definition sample_Run (ctx : unit) (cmd : injection.Cmd) (w : list injection.Cmd)
    : option error * list injection.Cmd :=
  if String.eqb (injection.Path cmd) "wl-copy" then (None, w ++ [cmd])
  else (Some (errorString "exit status 1"), w ++ [cmd]).
Definition sample_Sleep (d : Z) (w : list injection.Cmd) : list injection.Cmd := w.

Definition sample_host_injector : injection.injector (list injection.Cmd) unit :=
  injection.NewInjector
    (injection.ydotool_Inject sample_LookPath sample_host_Getenv sample_Stat 1000
       sample_Join sample_WithTimeout sample_Run)
    (injection.wtype_Inject sample_LookPath sample_host_Getenv sample_WithTimeout sample_Run)
    (injection.clipboard_Inject sample_LookPath sample_host_Getenv sample_WithTimeout
       sample_Run sample_Sleep)
    sample_injection_config.

(** * Properties *)

(** ** The legacy injection mode *)

Section LegacyMode.

Lemma Load_migrate_empty (c : config.Config) (mode : string) :
  config.Backends (config.Injection c) = [] ->
  config.Load_migrate c mode = config.migrateInjectionMode c mode.
Proof. unfold config.Load_migrate. intros ->. reflexivity. Qed.

(** C9. When the decoded configuration has no injection backends, the
    legacy mode "clipboard" gives the backends [clipboard], "type" gives
    [wtype], "fallback" gives [wtype; clipboard], and every other mode,
    the missing one (the empty string) included, gives the default
    [ydotool; wtype; clipboard]. *)
Theorem legacy_mode_backends (c : config.Config) :
  config.Backends (config.Injection c) = [] ->
  config.Backends (config.Injection (config.Load_migrate c "clipboard")) = ["clipboard"]
  /\ config.Backends (config.Injection (config.Load_migrate c "type")) = ["wtype"]
  /\ config.Backends (config.Injection (config.Load_migrate c "fallback"))
     = ["wtype"; "clipboard"]
  /\ (forall mode : string,
        mode <> "clipboard" -> mode <> "type" -> mode <> "fallback" ->
        config.Backends (config.Injection (config.Load_migrate c mode))
        = ["ydotool"; "wtype"; "clipboard"]).
Proof.
  intros Hempty. repeat split; try (rewrite Load_migrate_empty by assumption; reflexivity).
  intros mode H1 H2 H3. rewrite Load_migrate_empty by assumption.
  unfold config.migrateInjectionMode. cbn [config.Injection config.set_Injection config.Backends].
  destruct (String.eqb_spec mode "clipboard"); [contradiction|].
  destruct (String.eqb_spec mode "type"); [contradiction|].
  destruct (String.eqb_spec mode "fallback"); [contradiction|].
  reflexivity.
Qed.

End LegacyMode.

Lemma legacy_mode_backends_witness :
  config.Backends (config.Injection (config.Load_migrate test_config "fallback"))
  = ["wtype"; "clipboard"]
  /\ config.Backends (config.Injection (config.Load_migrate test_config ""))
     = ["ydotool"; "wtype"; "clipboard"].
Proof.
  pose proof (legacy_mode_backends test_config eq_refl) as (_ & _ & Hfb & Hdef).
  split; [exact Hfb|].
  apply Hdef; discriminate.
Defined.

(** ** The injector *)

Section InjectorProperties.
Context {W Ctx : Type}.
Variable ydotool_Inject wtype_Inject clipboard_Inject :
  Ctx -> string -> Z -> string -> W -> option error * W.

Local Abbreviation NewInjector :=
  (injection.NewInjector ydotool_Inject wtype_Inject clipboard_Inject).
Local Abbreviation add_backend :=
  (injection.add_backend ydotool_Inject wtype_Inject clipboard_Inject).
Local Abbreviation named :=
  (backend_named ydotool_Inject wtype_Inject clipboard_Inject).

Lemma add_backend_known (acc : list (injection.Backend W Ctx)) (name : string) :
  known_backend name -> add_backend acc name = acc ++ [named name].
Proof.
  unfold known_backend. rewrite !elem_of_cons, elem_of_nil.
  intros [-> | [-> | [-> | []]]]; reflexivity.
Qed.

Lemma add_backend_unknown (acc : list (injection.Backend W Ctx)) (name : string) :
  ~ known_backend name -> add_backend acc name = acc.
Proof.
  unfold known_backend, injection.add_backend. intros Hn.
  destruct (String.eqb_spec name "ydotool") as [-> | _]; [exfalso; apply Hn; set_solver|].
  destruct (String.eqb_spec name "wtype") as [-> | _]; [exfalso; apply Hn; set_solver|].
  destruct (String.eqb_spec name "clipboard") as [-> | _]; [exfalso; apply Hn; set_solver|].
  reflexivity.
Qed.

Lemma fold_add_backend (names : list string) (acc : list (injection.Backend W Ctx)) :
  fold_left add_backend names acc = acc ++ map named (filter known_backend names).
Proof.
  revert acc. induction names as [| name names IH]; intros acc; simpl.
  - by rewrite app_nil_r.
  - rewrite IH, filter_cons. destruct (decide (known_backend name)) as [Hk | Hk].
    + rewrite add_backend_known by assumption. simpl. by rewrite <- app_assoc.
    + by rewrite add_backend_unknown.
Qed.

Lemma NewInjector_backends (cfg : injection.Config) :
  injection.backends (NewInjector cfg) =
  match filter known_backend (injection.Backends cfg) with
  | [] => [injection.NewClipboardBackend clipboard_Inject]
  | valid => map named valid
  end.
Proof.
  unfold injection.NewInjector. cbn [injection.backends].
  rewrite fold_add_backend. simpl.
  destruct (filter known_backend (injection.Backends cfg)); reflexivity.
Qed.



Lemma Inject_loop_after_failures (i : injection.injector W Ctx) (ctx : Ctx)
    (text win : string) (pre : list (injection.Backend W Ctx)) (w w1 : W)
    (e0 : option error) :
  all_fail i ctx text win pre w e0 w1 ->
  forall (rest : list (injection.Backend W Ctx)) (lastErr : option error),
    injection.Inject_loop i ctx text win (pre ++ rest) lastErr w
    = injection.Inject_loop i ctx text win rest
        (match e0 with Some e => Some e | None => lastErr end) w1.
Proof.
  induction 1 as [w | bs b w w1 w2 e0 e _ IH Hb]; intros rest lastErr.
  - reflexivity.
  - rewrite <- app_assoc. simpl. rewrite IH. simpl. by rewrite Hb.
Qed.

Lemma chain_outcomes (i : injection.injector W Ctx) (ctx : Ctx) (text win : string)
    (bs : list (injection.Backend W Ctx)) (w : W) :
  (exists pre b post e0 w1 w2,
      bs = pre ++ b :: post
      /\ all_fail i ctx text win pre w e0 w1
      /\ injection.Backend_Inject b ctx text
           (injection.getTimeout i (injection.Name b)) win w1 = (None, w2))
  \/ (exists e0 w', all_fail i ctx text win bs w e0 w').
Proof.
  induction bs as [| b bs IH] using rev_ind.
  - right. exists None, w. constructor.
  - destruct IH as [(pre & b0 & post & e0 & w1 & w2 & -> & Hpre & Hb0) | (e0 & w' & Hall)].
    + left. exists pre, b0, (post ++ [b]), e0, w1, w2.
      split; [by rewrite <- app_assoc | by split].
    + destruct (injection.Backend_Inject b ctx text
                  (injection.getTimeout i (injection.Name b)) win w') as [[e |] w2] eqn:Hb.
      * right. exists (Some e), w2. by econstructor.
      * left. exists bs, b, [], e0, w', w2. by repeat split.
Qed.

(** C6. [Inject] rejects the empty text without calling a backend.  On
    any other text it calls the backends of the chain in their order,
    each with the timeout of its name; as soon as one succeeds it returns
    no error and the later ones are not called; when all of them fail it
    returns an error wrapping the error of the last one.  One of the two
    always is the case. *)
Theorem Inject_tries_backends_in_order (i : injection.injector W Ctx) (ctx : Ctx)
    (win : string) (w : W) :
  injection.Inject i ctx "" win w = (Some (errorString "cannot inject empty text"), w)
  /\ (forall (text : string) (pre : list (injection.Backend W Ctx))
         (b : injection.Backend W Ctx) (post : list (injection.Backend W Ctx))
         (e0 : option error) (w1 w2 : W),
        text <> "" ->
        injection.backends i = pre ++ b :: post ->
        all_fail i ctx text win pre w e0 w1 ->
        injection.Backend_Inject b ctx text
          (injection.getTimeout i (injection.Name b)) win w1 = (None, w2) ->
        injection.Inject i ctx text win w = (None, w2))
  /\ (forall (text : string) (e : error) (w' : W),
        text <> "" ->
        all_fail i ctx text win (injection.backends i) w (Some e) w' ->
        injection.Inject i ctx text win w
        = (Some (wrapError "all injection backends failed, last error: " e), w'))
  /\ (forall text : string,
        text <> "" ->
        (exists pre b post e0 w1 w2,
            injection.backends i = pre ++ b :: post
            /\ all_fail i ctx text win pre w e0 w1
            /\ injection.Backend_Inject b ctx text
                 (injection.getTimeout i (injection.Name b)) win w1 = (None, w2))
        \/ (exists e0 w', all_fail i ctx text win (injection.backends i) w e0 w')).
Proof.
  split; [reflexivity|]. split; [|split].
  - intros text pre b post e0 w1 w2 Htext Hsplit Hpre Hb. unfold injection.Inject.
    destruct (String.eqb_spec text ""); [contradiction|].
    rewrite Hsplit, (Inject_loop_after_failures _ _ _ _ _ _ _ _ Hpre). simpl. by rewrite Hb.
  - intros text e w' Htext Hall. unfold injection.Inject.
    destruct (String.eqb_spec text ""); [contradiction|].
    rewrite <- (app_nil_r (injection.backends i)).
    by rewrite (Inject_loop_after_failures _ _ _ _ _ _ _ _ Hall).
  - intros text _. apply chain_outcomes.
Qed.

End InjectorProperties.

(** The sample configuration names an unknown backend, which is skipped;
    ydotool fails and wtype succeeds, so the clipboard is never called. *)
Lemma Inject_tries_backends_in_order_witness :
  let i := injection.NewInjector (logging_backend "ydotool" true)
             (logging_backend "wtype" false) (logging_backend "clipboard" false)
             sample_injection_config in
  injection.Inject i tt "hello" "0x55d0" []
  = (None, [("ydotool", "hello", 5 * time.Second); ("wtype", "hello", 2 * time.Second)]).
Proof.
  intros i.
  pose proof (Inject_tries_backends_in_order i tt "0x55d0" []) as (_ & Hfirst & _ & _).
  apply (Hfirst "hello"
           [injection.NewYdotoolBackend (logging_backend "ydotool" true)]
           (injection.NewWtypeBackend (logging_backend "wtype" false))
           [injection.NewClipboardBackend (logging_backend "clipboard" false)]
           (Some (errorString "ydotool failed"))
           [("ydotool", "hello", 5 * time.Second)]).
  - discriminate.
  - reflexivity.
  - eapply (all_fail_snoc i tt "hello" "0x55d0" []
              (injection.NewYdotoolBackend (logging_backend "ydotool" true)) [] []).
    + constructor.
    + reflexivity.
  - reflexivity.
Defined.


(** ** The lockfile *)

Section Lockfile.




End Lockfile.


(** ** The command handler *)

Section Handler.
Context {W : Type}.
Variable recorder_Start : config.Config -> context.Context -> W -> option error * W.
Variable recorder_Stop : W -> W.
Variable NewTranscriber : config.Config -> W -> option error * W.
Variable transcriber_Start : context.Context -> W -> option error * W.
Variable transcriber_Stop : context.Context -> W -> option error * W.
Variable GetFinalTranscription : W -> (string * option error) * W.
Variable ydotool_Inject wtype_Inject clipboard_Inject :
  context.Context -> string -> Z -> string -> W -> option error * W.
Variable TrimFunc_IsSpace TrimRightFunc_IsSpace : string -> string.
Variable ProtoVer : string.

Local Abbreviation handle :=
  (daemon.handle recorder_Start recorder_Stop NewTranscriber transcriber_Start
     transcriber_Stop GetFinalTranscription ydotool_Inject wtype_Inject clipboard_Inject
     TrimFunc_IsSpace TrimRightFunc_IsSpace ProtoVer).

Lemma upto_newline_nonempty (s line : string) :
  daemon.upto_newline s = Some line -> line <> "".
Proof.
  destruct s as [| c r]; simpl; [discriminate|].
  destruct (Ascii.eqb c "010"); [by intros [= <-]|].
  destruct (daemon.upto_newline r); simpl; [by intros [= <-] | discriminate].
Qed.

(** A line read without error ends with the delimiter, so it is never
    empty. *)
Lemma ReadString_nonempty (c : daemon.Conn) (line : string) :
  daemon.ReadString c = (line, None) -> line <> "".
Proof.
  unfold daemon.ReadString.
  destruct (daemon.upto_newline (daemon.readData c)) eqn:E; [|discriminate].
  intros [= <-]. by eapply upto_newline_nonempty.
Qed.

Lemma handle_unknown (env : daemon.Env) (c : daemon.Conn) (d : daemon.Daemon) (w : W)
    (cmd : ascii) (rest : string) :
  daemon.ReadString c = (String cmd rest, None) ->
  ~ known_command cmd ->
  handle env c d w
  = Ret ("ERR unknown=" +:+ strconv.QuoteRune cmd +:+ daemon.nl,
         daemon.set_wg (daemon.wg d - 1) d, w).
Proof.
  intros Hread Hcmd. unfold daemon.handle. rewrite Hread.
  unfold known_command in Hcmd.
  destruct (Ascii.eqb_spec cmd "t") as [-> | _]; [exfalso; apply Hcmd; set_solver|].
  destruct (Ascii.eqb_spec cmd "c") as [-> | _]; [exfalso; apply Hcmd; set_solver|].
  destruct (Ascii.eqb_spec cmd "s") as [-> | _]; [exfalso; apply Hcmd; set_solver|].
  destruct (Ascii.eqb_spec cmd "v") as [-> | _]; [exfalso; apply Hcmd; set_solver|].
  destruct (Ascii.eqb_spec cmd "q") as [-> | _]; [exfalso; apply Hcmd; set_solver|].
  destruct (Ascii.eqb_spec cmd "m") as [-> | _]; [exfalso; apply Hcmd; set_solver|].
  reflexivity.
Qed.

(** C3. The branch answering "ERR empty" is never taken: a line read
    without error ends with its newline, so no connection ever gets the
    response "ERR empty"; the empty request line, a lone newline, is
    answered as the unknown command newline.  Every line whose first
    byte is not one of t, c, s, v, q, m is answered "ERR unknown=",
    the byte as a quoted Go character literal, and a newline. *)
Theorem handle_empty_and_unknown (env : daemon.Env) (d : daemon.Daemon) (w : W) :
  (forall c : daemon.Conn,
      daemon.readData c = daemon.nl ->
      handle env c d w
      = Ret ("ERR unknown='\n'" +:+ daemon.nl, daemon.set_wg (daemon.wg d - 1) d, w))
  /\ (forall (c : daemon.Conn) (resp : string) (d' : daemon.Daemon) (w' : W),
        handle env c d w = Ret (resp, d', w') -> resp <> "ERR empty" +:+ daemon.nl)
  /\ (forall (c : daemon.Conn) (cmd : ascii) (rest : string),
        daemon.ReadString c = (String cmd rest, None) ->
        ~ known_command cmd ->
        handle env c d w
        = Ret ("ERR unknown=" +:+ strconv.QuoteRune cmd +:+ daemon.nl,
               daemon.set_wg (daemon.wg d - 1) d, w)).
Proof.
  split; [|split].
  - intros c Hc.
    rewrite (handle_unknown env c d w "010"%char "").
    + reflexivity.
    + unfold daemon.ReadString. rewrite Hc. reflexivity.
    + unfold known_command. rewrite !elem_of_cons, elem_of_nil.
      intros [H | [H | [H | [H | [H | [H | []]]]]]]; discriminate H.
  - intros c resp d' w'. unfold daemon.handle.
    destruct (daemon.ReadString c) as [line [e |]] eqn:Hread.
    + intros [= <- _ _]. discriminate.
    + destruct line as [| cmd rest]; [by apply ReadString_nonempty in Hread|].
      repeat match goal with
             | |- context [if ?b then _ else _] => destruct b
             | |- context [res_bind ?m _] => destruct m as [[]| |]; simpl
             end;
        try discriminate; intros [= <- _ _]; discriminate.
  - intros c cmd rest. apply handle_unknown.
Qed.

End Handler.

(** ** The session worker *)

Section WorkerProperties.
Context {W : Type}.
Variable recorder_Start : config.Config -> context.Context -> W -> option error * W.
Variable recorder_Stop : W -> W.
Variable NewTranscriber : config.Config -> W -> option error * W.
Variable transcriber_Start : context.Context -> W -> option error * W.
Variable transcriber_Stop : context.Context -> W -> option error * W.
Variable GetFinalTranscription : W -> (string * option error) * W.
Variable ydotool_Inject wtype_Inject clipboard_Inject :
  context.Context -> string -> Z -> string -> W -> option error * W.

Local Abbreviation handleInjectAction :=
  (pipeline.handleInjectAction recorder_Stop transcriber_Stop GetFinalTranscription
     ydotool_Inject wtype_Inject clipboard_Inject).
Local Abbreviation run :=
  (pipeline.run recorder_Start recorder_Stop NewTranscriber transcriber_Start
     transcriber_Stop GetFinalTranscription ydotool_Inject wtype_Inject clipboard_Inject).
Local Abbreviation step :=
  (pipeline.step recorder_Start recorder_Stop NewTranscriber transcriber_Start
     transcriber_Stop GetFinalTranscription ydotool_Inject wtype_Inject clipboard_Inject).
Local Abbreviation steps :=
  (pipeline.steps recorder_Start recorder_Stop NewTranscriber transcriber_Start
     transcriber_Stop GetFinalTranscription ydotool_Inject wtype_Inject clipboard_Inject).
Local Abbreviation defer_transcriber :=
  (pipeline.defer_transcriber recorder_Stop transcriber_Stop).

(** Case analysis on every branch a stretch of the worker can take. *)
Ltac branch :=
  repeat match goal with
         | |- context [deref ?m ?l] =>
             let E := fresh "Ederef" in destruct (deref m l) eqn:E; simpl
         | |- context [match ?x with _ => _ end] =>
             match type of x with
             | sumbool _ _ => fail 1
             | _ => let E := fresh "E" in destruct x eqn:E; simpl
             end
         end.

Lemma defer_final_exit (p : pipeline.pipeline) :
  let p' := pipeline.defer_final p in
  pipeline.worker p' = pipeline.Exited
  /\ pipeline.running p' = false
  /\ pipeline.status p' = pipeline.Idle
  /\ last (pipeline.observed p') = Some pipeline.Idle
  /\ pipeline.errorCh p' = pipeline.errorCh p
  /\ pipeline.spawned p' = pipeline.spawned p.
Proof. simpl. repeat split. apply last_snoc. Qed.

Lemma defer_transcriber_exit (p : pipeline.pipeline) (w : W) :
  let p' := fst (defer_transcriber p w) in
  pipeline.worker p' = pipeline.Exited
  /\ pipeline.running p' = false
  /\ pipeline.status p' = pipeline.Idle
  /\ last (pipeline.observed p') = Some pipeline.Idle
  /\ pipeline.errorCh p' = pipeline.errorCh p
  /\ pipeline.spawned p' = pipeline.spawned p.
Proof.
  unfold pipeline.defer_transcriber, pipeline.defer_recorder.
  destruct (transcriber_Stop _ w). apply defer_final_exit.
Qed.

(** A stretch of the worker that ends in [Exited] has run the deferred
    function of [run]: flag cleared, status [Idle]. *)
Lemma run_exit (mem : gmap positive config.Config) (sel : pipeline.select_case)
    (p p' : pipeline.pipeline) (w w' : W) :
  run mem sel p w = Ret (p', w') ->
  pipeline.worker p <> pipeline.Exited ->
  pipeline.worker p' = pipeline.Exited ->
  pipeline.running p' = false /\ pipeline.status p' = pipeline.Idle
  /\ last (pipeline.observed p') = Some pipeline.Idle.
Proof.
  unfold pipeline.run, pipeline.defer_recorder. intros Hrun Hne Hex. revert Hrun.
  destruct (pipeline.worker p) eqn:Hw; try contradiction.
  - intros [= <- <-]. rewrite Hw in Hex. discriminate.
  - intros [= <- <-]. simpl in Hex. discriminate.
  - unfold pipeline.sendError.
    branch; try discriminate.
    all: intros Hret; injection Hret as <- <-;
      try (simpl in Hex; discriminate);
      simpl; repeat split; apply last_snoc.
  - destruct sel.
    + intros [= <- <-]. rewrite Hw in Hex. discriminate.
    + destruct (pipeline.actionCh p) as [| action rest].
      * intros [= <- <-]. rewrite Hw in Hex. discriminate.
      * destruct (String.eqb action pipeline.Inject).
        -- destruct (handleInjectAction mem _ w) as [[p1 w1] | |]; simpl; try discriminate.
           intros [= Heq]. pose proof (defer_transcriber_exit p1 w1) as Hd.
           rewrite Heq in Hd. simpl in Hd. destruct Hd as (_ & ? & ? & ? & _).
           by repeat split.
        -- intros [= <- <-]. simpl in Hex. rewrite Hw in Hex. discriminate.
    + destruct (context.Done (pipeline.runCtx p)).
      * intros [= Heq]. pose proof (defer_transcriber_exit p w) as Hd.
        rewrite Heq in Hd. simpl in Hd. destruct Hd as (_ & ? & ? & ? & _).
        by repeat split.
      * intros [= <- <-]. rewrite Hw in Hex. discriminate.
Qed.

Lemma handleInjectAction_returns (mem : gmap positive config.Config)
    (p : pipeline.pipeline) (w : W) :
  is_Some (mem !! pipeline.config p) ->
  exists p1 w1, handleInjectAction mem p w = Ret (p1, w1).
Proof.
  intros [cfg Hcfg]. unfold pipeline.handleInjectAction, deref. simpl. rewrite Hcfg.
  branch; eauto.
Qed.

(** C1. Whenever the worker returns from [run], on whatever path, the
    running flag is false and the status is [Idle], the last status
    written.  Each of the exit paths does return: the recorder fails to
    start, the transcriber cannot be built or fails to start, an Inject
    action is taken from the mailbox, the context is done. *)
Theorem worker_exit_clears_running_and_idles (mem : gmap positive config.Config)
    (p : pipeline.pipeline) (w : W) :
  (forall (sel : pipeline.select_case) (p' : pipeline.pipeline) (w' : W),
      run mem sel p w = Ret (p', w') ->
      pipeline.worker p <> pipeline.Exited ->
      pipeline.worker p' = pipeline.Exited ->
      pipeline.running p' = false /\ pipeline.status p' = pipeline.Idle
      /\ last (pipeline.observed p') = Some pipeline.Idle)
  /\ (forall (sel : pipeline.select_case) (cfg : config.Config) (e : error) (w1 : W),
        pipeline.worker p = pipeline.InRecording ->
        mem !! pipeline.config p = Some cfg ->
        recorder_Start cfg (pipeline.runCtx p) w = (Some e, w1) ->
        exists p', run mem sel p w = Ret (p', w1)
                   /\ pipeline.worker p' = pipeline.Exited)
  /\ (forall (sel : pipeline.select_case) (cfg : config.Config) (e : error) (w1 w2 : W),
        pipeline.worker p = pipeline.InRecording ->
        mem !! pipeline.config p = Some cfg ->
        recorder_Start cfg (pipeline.runCtx p) w = (None, w1) ->
        NewTranscriber cfg w1 = (Some e, w2) ->
        exists p', run mem sel p w = Ret (p', recorder_Stop w2)
                   /\ pipeline.worker p' = pipeline.Exited)
  /\ (forall (sel : pipeline.select_case) (cfg : config.Config) (e : error) (w1 w2 w3 : W),
        pipeline.worker p = pipeline.InRecording ->
        mem !! pipeline.config p = Some cfg ->
        recorder_Start cfg (pipeline.runCtx p) w = (None, w1) ->
        NewTranscriber cfg w1 = (None, w2) ->
        transcriber_Start (pipeline.runCtx p) w2 = (Some e, w3) ->
        exists p', run mem sel p w = Ret (p', recorder_Stop w3)
                   /\ pipeline.worker p' = pipeline.Exited)
  /\ (forall rest : list string,
        pipeline.worker p = pipeline.InLoop ->
        pipeline.actionCh p = pipeline.Inject :: rest ->
        is_Some (mem !! pipeline.config p) ->
        exists p' w', run mem pipeline.SelAction p w = Ret (p', w')
                      /\ pipeline.worker p' = pipeline.Exited)
  /\ (pipeline.worker p = pipeline.InLoop ->
      context.Done (pipeline.runCtx p) = true ->
      exists p' w', run mem pipeline.SelDone p w = Ret (p', w')
                    /\ pipeline.worker p' = pipeline.Exited).
Proof.
  split; [intros sel p' w'; apply run_exit|].
  split; [|split; [|split; [|split]]].
  - intros sel cfg e w1 Hw Hcfg Hrec. unfold pipeline.run, deref.
    rewrite Hw, Hcfg. simpl. rewrite Hrec. eexists. split; reflexivity.
  - intros sel cfg e w1 w2 Hw Hcfg Hrec Hnew. unfold pipeline.run, deref.
    rewrite Hw, Hcfg. simpl. rewrite Hrec, Hnew. eexists. split; reflexivity.
  - intros sel cfg e w1 w2 w3 Hw Hcfg Hrec Hnew Hstart. unfold pipeline.run, deref.
    rewrite Hw, Hcfg. simpl. rewrite Hrec, Hnew. simpl. rewrite Hstart.
    eexists. split; reflexivity.
  - intros rest Hw Hact Hcfg. unfold pipeline.run. rewrite Hw, Hact. simpl.
    destruct (handleInjectAction_returns mem (pipeline.set_actionCh rest p) w Hcfg)
      as (p1 & w1 & ->). simpl.
    destruct (defer_transcriber p1 w1) as [p2 w2] eqn:Hd.
    exists p2, w2. split; [reflexivity|].
    pose proof (defer_transcriber_exit p1 w1) as Hex. rewrite Hd in Hex. apply Hex.
  - intros Hw Hdone. unfold pipeline.run. rewrite Hw, Hdone.
    destruct (defer_transcriber p w) as [p2 w2] eqn:Hd.
    exists p2, w2. split; [reflexivity|].
    pose proof (defer_transcriber_exit p w) as Hex. rewrite Hd in Hex. apply Hex.
Qed.

(** What no event changes, and what only the exit of the worker
    changes. *)
Lemma step_facts (mem : gmap positive config.Config) (ev : pipeline.event)
    (p p' : pipeline.pipeline) (w w' : W) :
  step mem ev p w = Ret (p', w') ->
  pipeline.spawned p' = pipeline.spawned p
  /\ pipeline.config p' = pipeline.config p
  /\ (pipeline.worker p = pipeline.Exited -> pipeline.worker p' = pipeline.Exited)
  /\ (pipeline.running p = true -> pipeline.worker p' <> pipeline.Exited ->
      pipeline.running p' = true)
  /\ ((pipeline.worker p = pipeline.InLoop -> pipeline.status p = pipeline.Transcribing) ->
      pipeline.worker p' = pipeline.InLoop -> pipeline.status p' = pipeline.Transcribing).
Proof.
  unfold pipeline.step, pipeline.run, pipeline.handleInjectAction,
    pipeline.defer_transcriber, pipeline.defer_recorder, pipeline.sendError.
  destruct ev as [sel | a | now | | title message err |];
    [destruct (pipeline.worker p) eqn:Hw; [| | | destruct sel |] | | | | |].
  all: branch; try discriminate; intros [= <- <-]; simpl;
    repeat split; intros; simpl in *; try congruence; auto.
Qed.

Lemma steps_facts (mem : gmap positive config.Config) (evs : list pipeline.event)
    (p p' : pipeline.pipeline) (w w' : W) :
  steps mem evs p w = Ret (p', w') ->
  pipeline.spawned p' = pipeline.spawned p
  /\ (pipeline.worker p = pipeline.Exited -> pipeline.worker p' = pipeline.Exited)
  /\ (pipeline.running p = true -> pipeline.worker p' <> pipeline.Exited ->
      pipeline.running p' = true).
Proof.
  revert p w. induction evs as [| ev evs IH]; intros p w; simpl.
  - intros [= <- <-]. by repeat split.
  - destruct (step mem ev p w) as [[p1 w1] | |] eqn:Hstep; simpl; try discriminate.
    intros Hrest. destruct (step_facts _ _ _ _ _ _ Hstep) as (Hs & _ & Hex & Hrun & _).
    destruct (IH _ _ Hrest) as (Hs' & Hex' & Hrun').
    split; [congruence|]. split; [auto|].
    intros Hr Hne. apply Hrun'; [|assumption]. apply Hrun; [assumption|].
    intros Hx. apply Hne. by apply Hex'.
Qed.

(** C4. A [Run] on a running pipeline returns it as it is.  A [Run] on
    a pipeline that is not running starts one worker and sets the flag,
    so that a second [Run], at any later time and with any parent
    context, changes nothing and starts no other worker. *)
Theorem Run_idempotent (mem : gmap positive config.Config)
    (ctx1 ctx2 : context.Context) (now1 now2 : Z) (p : pipeline.pipeline) :
  (pipeline.running p = true -> pipeline.Run mem ctx2 now2 p = Ret p)
  /\ (pipeline.running p = false -> is_Some (mem !! pipeline.config p) ->
      exists p1,
        pipeline.Run mem ctx1 now1 p = Ret p1
        /\ pipeline.running p1 = true
        /\ pipeline.worker p1 = pipeline.AtStart
        /\ pipeline.spawned p1 = S (pipeline.spawned p)
        /\ pipeline.Run mem ctx2 now2 p1 = Ret p1
        /\ (let* p2 := pipeline.Run mem ctx1 now1 p in pipeline.Run mem ctx2 now2 p2)
           = Ret p1)
  /\ (forall (evs : list pipeline.event) (p' : pipeline.pipeline) (w w' : W),
        pipeline.running p = true ->
        steps mem evs p w = Ret (p', w') ->
        pipeline.worker p' <> pipeline.Exited ->
        pipeline.Run mem ctx2 now2 p' = Ret p'
        /\ pipeline.spawned p' = pipeline.spawned p).
Proof.
  split; [|split].
  - intros Hrun. unfold pipeline.Run. by rewrite Hrun.
  - intros Hrun [cfg Hcfg]. unfold pipeline.Run at 1 3, deref. rewrite Hrun. simpl.
    rewrite Hcfg. simpl. eexists. split; [reflexivity|].
    repeat split; reflexivity.
  - intros evs p' w w' Hrun Hsteps Hne.
    destruct (steps_facts _ _ _ _ _ _ Hsteps) as (Hs & _ & Hkeep).
    split; [|exact Hs]. unfold pipeline.Run. by rewrite (Hkeep Hrun Hne).
Qed.

Lemma run_done_in_loop (mem : gmap positive config.Config) (p : pipeline.pipeline) (w : W) :
  pipeline.worker p = pipeline.InLoop ->
  context.Done (pipeline.runCtx p) = true ->
  exists p' w', run mem pipeline.SelDone p w = Ret (p', w') /\ returned_idle p'.
Proof.
  intros Hw Hdone. unfold pipeline.run. rewrite Hw, Hdone.
  destruct (defer_transcriber p w) as [p' w'] eqn:Hd. exists p', w'.
  split; [reflexivity|].
  pose proof (defer_transcriber_exit p w) as Hex. rewrite Hd in Hex. simpl in Hex.
  destruct Hex as (? & ? & ? & _). by repeat split.
Qed.


Lemma run_setup (mem : gmap positive config.Config) (sel : pipeline.select_case)
    (p : pipeline.pipeline) (w : W) :
  pipeline.worker p = pipeline.InRecording ->
  is_Some (mem !! pipeline.config p) ->
  exists p' w',
    run mem sel p w = Ret (p', w')
    /\ pipeline.runCtx p' = pipeline.runCtx p
    /\ (pipeline.worker p' = pipeline.InLoop \/ returned_idle p').
Proof.
  intros Hw [cfg Hcfg].
  unfold pipeline.run, deref, pipeline.defer_recorder, pipeline.sendError, returned_idle.
  rewrite Hw, Hcfg. simpl.
  branch; eexists _, _; (split; [reflexivity|]); simpl; (split; [reflexivity|]);
    first [left; reflexivity | right; by repeat split].
Qed.



(** C2, as amended.  Sending an action only appends it to the mailbox:
    status, worker and collaborators are as before.  The worker takes
    actions from the mailbox only in its loop, and whenever it is in the
    loop the status is [Transcribing], this being kept by every event
    and true when [Run] starts the worker.  [handleInjectAction] leaves
    the pipeline and the collaborators as they are when the status it
    reads is not [Transcribing]. *)
Theorem inject_taken_only_in_loop (mem : gmap positive config.Config)
    (p : pipeline.pipeline) (w : W) :
  (pipeline.status p <> pipeline.Transcribing -> handleInjectAction mem p w = Ret (p, w))
  /\ (forall (a : string) (p' : pipeline.pipeline) (w' : W),
        step mem (pipeline.EvSend a) p w = Ret (p', w') ->
        p' = pipeline.set_actionCh (pipeline.actionCh p ++ [a]) p /\ w' = w)
  /\ (forall (sel : pipeline.select_case) (p' : pipeline.pipeline) (w' : W),
        pipeline.worker p <> pipeline.InLoop ->
        run mem sel p w = Ret (p', w') ->
        pipeline.actionCh p' = pipeline.actionCh p)
  /\ (forall (ev : pipeline.event) (p' : pipeline.pipeline) (w' : W),
        (pipeline.worker p = pipeline.InLoop -> pipeline.status p = pipeline.Transcribing) ->
        step mem ev p w = Ret (p', w') ->
        pipeline.worker p' = pipeline.InLoop -> pipeline.status p' = pipeline.Transcribing)
  /\ (forall (ctx : context.Context) (now : Z) (p' : pipeline.pipeline),
        pipeline.running p = false ->
        pipeline.Run mem ctx now p = Ret p' ->
        pipeline.worker p' <> pipeline.InLoop).
Proof.
  split; [|split; [|split; [|split]]].
  - intros Hst. unfold pipeline.handleInjectAction.
    destruct (String.eqb_spec (pipeline.status p) pipeline.Transcribing);
      [contradiction | reflexivity].
  - intros a p' w'. simpl. destruct (_ <? _)%nat; [|discriminate].
    intros [= <- <-]. by split.
  - intros sel p' w' Hne. unfold pipeline.run, pipeline.defer_recorder, pipeline.sendError.
    destruct (pipeline.worker p) eqn:Hw; try contradiction.
    all: branch; try discriminate; intros [= <- <-]; reflexivity.
  - intros ev p' w' Hinv Hstep. by apply (step_facts _ _ _ _ _ _ Hstep).
  - intros ctx now p' Hrun. unfold pipeline.Run. rewrite Hrun. simpl.
    destruct (deref mem (pipeline.config p)); simpl; try discriminate.
    intros [= <-]. simpl. discriminate.
Qed.

End WorkerProperties.

(** The sample worker, its context cancelled while it is in the loop,
    returns with the flag cleared and the status "idle". *)
Lemma worker_exit_clears_running_and_idles_witness :
  exists p' w',
    sample_run pipeline.SelDone
      (pipeline.set_runCtx (context.cancel (pipeline.runCtx sample_looping)) sample_looping)
      ["recorder.Start"; "NewTranscriber"; "transcriber.Start"] = Ret (p', w')
    /\ pipeline.running p' = false /\ pipeline.status p' = "idle"
    /\ w' = ["recorder.Start"; "NewTranscriber"; "transcriber.Start";
              "transcriber.Stop"; "recorder.Stop"].
Proof.
  eexists _, _. split; [reflexivity|].
  pose proof (worker_exit_clears_running_and_idles (log_recorder_Start false)
                log_recorder_Stop log_NewTranscriber log_transcriber_Start
                log_transcriber_Stop log_GetFinalTranscription (log_backend "ydotool")
                (log_backend "wtype") (log_backend "clipboard") sample_mem
                (pipeline.set_runCtx (context.cancel (pipeline.runCtx sample_looping))
                   sample_looping)
                ["recorder.Start"; "NewTranscriber"; "transcriber.Start"]) as (Hexit & _).
  destruct (Hexit pipeline.SelDone _ _ eq_refl) as (Hrun & Hst & _);
    [discriminate | reflexivity |].
  split; [exact Hrun|]. split; [exact Hst | reflexivity].
Defined.

Lemma Run_idempotent_witness :
  exists p1,
    pipeline.Run sample_mem context.Background 1000 (pipeline.New 1) = Ret p1
    /\ pipeline.spawned p1 = 1%nat
    /\ pipeline.Run sample_mem context.Background 2000 p1 = Ret p1.
Proof.
  destruct (Run_idempotent (log_recorder_Start false)
              log_recorder_Stop log_NewTranscriber log_transcriber_Start
              log_transcriber_Stop log_GetFinalTranscription (log_backend "ydotool")
              (log_backend "wtype") (log_backend "clipboard")
              sample_mem context.Background context.Background
              1000 2000 (pipeline.New 1)) as (_ & Hfirst & _).
  destruct Hfirst as (p1 & Hrun & _ & _ & Hsp & Hagain & _);
    [reflexivity | by eexists |].
  exists p1. by repeat split.
Defined.


Lemma inject_taken_only_in_loop_witness :
  pipeline.handleInjectAction log_recorder_Stop log_transcriber_Stop
    log_GetFinalTranscription (log_backend "ydotool") (log_backend "wtype")
    (log_backend "clipboard") sample_mem sample_recording []
  = Ret (sample_recording, []).
Proof.
  apply (inject_taken_only_in_loop (log_recorder_Start false)
           log_recorder_Stop log_NewTranscriber log_transcriber_Start
           log_transcriber_Stop log_GetFinalTranscription (log_backend "ydotool")
           (log_backend "wtype") (log_backend "clipboard") sample_mem sample_recording []).
  discriminate.
Defined.

(** An Inject sent while the status is "recording" waits in the mailbox;
    the worker reaches its loop and takes it: the session goes through
    "injecting" to "idle", while without it the session stays
    "transcribing". *)
Lemma inject_while_recording_is_handled :
  ~ inject_ignored_outside_transcribing (log_recorder_Start false)
      log_recorder_Stop log_NewTranscriber log_transcriber_Start
      log_transcriber_Stop log_GetFinalTranscription (log_backend "ydotool")
      (log_backend "wtype") (log_backend "clipboard").
Proof.
  intros Hclaim.
  pose proof (Hclaim sample_mem sample_recording []
                [pipeline.EvWorker pipeline.SelFrame; pipeline.EvWorker pipeline.SelAction])
    as H.
  vm_compute in H.
  edestruct H as [Hst _]; [discriminate | reflexivity | reflexivity |].
  discriminate Hst.
Qed.

(** ** The mode override and the configuration snapshots *)

Section Snapshots.
Context {W : Type}.
Variable recorder_Start : config.Config -> context.Context -> W -> option error * W.
Variable recorder_Stop : W -> W.
Variable NewTranscriber : config.Config -> W -> option error * W.
Variable transcriber_Start : context.Context -> W -> option error * W.
Variable transcriber_Stop : context.Context -> W -> option error * W.
Variable GetFinalTranscription : W -> (string * option error) * W.
Variable ydotool_Inject wtype_Inject clipboard_Inject :
  context.Context -> string -> Z -> string -> W -> option error * W.
Variable TrimFunc_IsSpace TrimRightFunc_IsSpace : string -> string.
Variable ProtoVer : string.

Local Abbreviation stopPipeline :=
  (daemon.stopPipeline recorder_Start recorder_Stop NewTranscriber transcriber_Start
     transcriber_Stop GetFinalTranscription ydotool_Inject wtype_Inject clipboard_Inject).
Local Abbreviation toggle :=
  (daemon.toggle recorder_Start recorder_Stop NewTranscriber transcriber_Start
     transcriber_Stop GetFinalTranscription ydotool_Inject wtype_Inject clipboard_Inject).
Local Abbreviation cancelPipeline :=
  (daemon.cancelPipeline recorder_Start recorder_Stop NewTranscriber transcriber_Start
     transcriber_Stop GetFinalTranscription ydotool_Inject wtype_Inject clipboard_Inject).
Local Abbreviation handle :=
  (daemon.handle recorder_Start recorder_Stop NewTranscriber transcriber_Start
     transcriber_Stop GetFinalTranscription ydotool_Inject wtype_Inject clipboard_Inject
     TrimFunc_IsSpace TrimRightFunc_IsSpace ProtoVer).
Local Abbreviation Manager_reload :=
  (daemon.Manager_reload recorder_Start recorder_Stop NewTranscriber transcriber_Start
     transcriber_Stop GetFinalTranscription ydotool_Inject wtype_Inject clipboard_Inject).
Local Abbreviation step :=
  (daemon.step recorder_Start recorder_Stop NewTranscriber transcriber_Start
     transcriber_Stop GetFinalTranscription ydotool_Inject wtype_Inject clipboard_Inject
     TrimFunc_IsSpace TrimRightFunc_IsSpace ProtoVer).
Local Abbreviation steps :=
  (daemon.steps recorder_Start recorder_Stop NewTranscriber transcriber_Start
     transcriber_Stop GetFinalTranscription ydotool_Inject wtype_Inject clipboard_Inject
     TrimFunc_IsSpace TrimRightFunc_IsSpace ProtoVer).

(** A record allocated at a fresh address leaves the others in place. *)
Lemma alloc_keeps (m : gmap positive config.Config) (c x : config.Config) (ptr : positive) :
  m !! ptr = Some c -> <[fresh (dom m) := x]> m !! ptr = Some c.
Proof.
  intros Hptr. rewrite lookup_insert_ne; [exact Hptr|].
  intros <-. apply (is_fresh (dom m)). apply elem_of_dom. by eexists.
Qed.

Lemma kept_same (d d' : daemon.Daemon) :
  daemon.mem d' = daemon.mem d ->
  (daemon.pipeline d' = daemon.pipeline d \/ daemon.pipeline d' = None) ->
  kept d d'.
Proof.
  intros Hm Hp. split.
  - intros ptr c. by rewrite Hm.
  - intros p p' _ H1 H2. destruct Hp as [Hp | Hp]; congruence.
Qed.

Lemma stopPipeline_kept (env : daemon.Env) (d d' : daemon.Daemon) (w w' : W) :
  stopPipeline env d w = Ret (d', w') ->
  daemon.mem d' = daemon.mem d /\ daemon.pipeline d' = None
  /\ daemon.modeOverride d' = daemon.modeOverride d.
Proof.
  unfold daemon.stopPipeline. destruct (daemon.pipeline d) as [p |].
  - destruct (pipeline.Stop _ _ _ _ _ _ _ _ _ _ _ _ _) as [[? ?] | |]; simpl; try discriminate.
    by intros [= <- <-].
  - by intros [= <- <-].
Qed.

Lemma toggle_kept (env : daemon.Env) (d d' : daemon.Daemon) (w w' : W) :
  toggle env d w = Ret (d', w') -> kept d d'.
Proof.
  unfold daemon.toggle.
  destruct (String.eqb_spec (daemon.status d) pipeline.Idle) as [Hidle | Hnidle].
  - unfold daemon.getConfigWithModeOverride, deref.
    destruct (negb (String.eqb (daemon.modeOverride d) "")).
    + destruct (daemon.mem d !! daemon.configMgr d) as [c |]; simpl; try discriminate.
      destruct (pipeline.Run _ _ _ _) as [p1 | |]; simpl; try discriminate.
      intros [= <- <-]. split; [|intros p p' Hn; contradiction].
      intros ptr c0 Hptr. simpl. by apply alloc_keeps.
    + simpl. destruct (pipeline.Run _ _ _ _) as [p1 | |]; simpl; try discriminate.
      intros [= <- <-]. split; [|intros p p' Hn; contradiction].
      intros ptr c0 Hptr. exact Hptr.
  - destruct (String.eqb (daemon.status d) pipeline.Recording).
    { destruct (stopPipeline env d w) as [[d1 w1] | |] eqn:Hstop; simpl; try discriminate.
      destruct (stopPipeline_kept _ _ _ _ _ Hstop) as (Hm & Hp & _).
      intros [= <- <-]. apply kept_same; simpl; auto. }
    destruct (String.eqb (daemon.status d) pipeline.Transcribing).
    { destruct (daemon.pipeline d) as [p |] eqn:Hp; simpl.
      - destruct (_ <? _)%nat; simpl; try discriminate.
        intros [= <- <-]. split; [intros ptr c; by simpl|].
        simpl. intros p0 p' _ Hp0 [= <-]. rewrite Hp in Hp0.
        injection Hp0 as <-. reflexivity.
      - intros [= <- <-]. apply kept_same; simpl; auto. }
    destruct (String.eqb (daemon.status d) pipeline.Injecting).
    { destruct (stopPipeline env d w) as [[d1 w1] | |] eqn:Hstop; simpl; try discriminate.
      destruct (stopPipeline_kept _ _ _ _ _ Hstop) as (Hm & Hp & _).
      intros [= <- <-]. apply kept_same; simpl; auto. }
    intros [= <- <-]. apply kept_same; auto.
Qed.

Lemma cancelPipeline_kept (env : daemon.Env) (d d' : daemon.Daemon) (w w' : W) :
  cancelPipeline env d w = Ret (d', w') -> kept d d'.
Proof.
  unfold daemon.cancelPipeline. destruct (String.eqb _ _).
  - intros [= <- <-]. apply kept_same; auto.
  - destruct (stopPipeline env d w) as [[d1 w1] | |] eqn:Hstop; simpl; try discriminate.
    destruct (stopPipeline_kept _ _ _ _ _ Hstop) as (Hm & Hp & _).
    intros [= <- <-]. apply kept_same; simpl; auto.
Qed.

Lemma kept_set_wg (d d' : daemon.Daemon) (n : Z) :
  kept d d' -> kept d (daemon.set_wg n d').
Proof. intros [H1 H2]. split; [exact H1 | exact H2]. Qed.

Lemma handle_kept (env : daemon.Env) (c : daemon.Conn) (d d' : daemon.Daemon) (w w' : W)
    (resp : string) :
  handle env c d w = Ret (resp, d', w') -> kept d d'.
Proof.
  unfold daemon.handle. destruct (daemon.ReadString c) as [line [e |]].
  { intros [= _ <- _]. apply kept_same; auto. }
  destruct line as [| cmd rest].
  { intros [= _ <- _]. apply kept_same; auto. }
  destruct (Ascii.eqb cmd "t").
  { destruct (toggle env d w) as [[d1 w1] | |] eqn:Ht; simpl; try discriminate.
    intros [= _ <- _]. apply kept_set_wg. by eapply toggle_kept. }
  destruct (Ascii.eqb cmd "c").
  { destruct (cancelPipeline env d w) as [[d1 w1] | |] eqn:Ht; simpl; try discriminate.
    intros [= _ <- _]. apply kept_set_wg. by eapply cancelPipeline_kept. }
  repeat match goal with
         | |- context [if ?b then _ else _] => destruct b
         | |- context [res_bind ?m _] => destruct m; simpl
         end;
    try discriminate; intros [= _ <- _]; apply kept_same; auto.
Qed.

Lemma Manager_reload_kept (env : daemon.Env) (loaded : config.Config)
    (d d' : daemon.Daemon) (w w' : W) :
  Manager_reload env loaded d w = Ret (d', w') -> kept d d'.
Proof.
  unfold daemon.Manager_reload, daemon.onConfigReload.
  set (d0 := daemon.set_configMgr _ _).
  destruct (stopPipeline env d0 w) as [[d1 w1] | |] eqn:Hstop; simpl; try discriminate.
  destruct (stopPipeline_kept _ _ _ _ _ Hstop) as (Hm & Hp & _).
  destruct (deref _ _); simpl; try discriminate.
  intros [= <- <-]. split.
  - intros ptr c Hptr. simpl. rewrite Hm. subst d0. simpl. by apply alloc_keeps.
  - intros p p' _ _. simpl. rewrite Hp. discriminate.
Qed.

Lemma step_kept (ev : daemon.event) (d d' : daemon.Daemon) (w w' : W) :
  step ev d w = Ret (d', w') -> kept d d'.
Proof.
  destruct ev as [env c | env loaded | | ev]; simpl.
  - destruct (handle env c _ w) as [[[resp d1] w1] | |] eqn:Hh; simpl; try discriminate.
    intros [= <- <-]. apply handle_kept in Hh. exact Hh.
  - apply Manager_reload_kept.
  - intros [= <- <-]. unfold daemon.monitorPipelineErrors.
    destruct (daemon.pipeline d) as [p |] eqn:Hp; [|apply kept_same; auto].
    destruct (pipeline.errorCh p) as [| pipelineErr rest]; [apply kept_same; auto|].
    split; [intros ptr c; by simpl|].
    simpl. intros q q' _ Hq [= <-]. rewrite Hp in Hq. injection Hq as <-. reflexivity.
  - destruct (daemon.pipeline d) as [p |] eqn:Hp; [|intros [= <- <-]; apply kept_same; auto].
    destruct (pipeline.step _ _ _ _ _ _ _ _ _ _ _ _ _) as [[p1 w1] | |] eqn:Hs;
      simpl; try discriminate.
    intros [= <- <-]. split; [intros ptr c; by simpl|].
    simpl. intros q q' _ Hq [= <-]. rewrite Hp in Hq. injection Hq as <-.
    by apply (step_facts _ _ _ _ _ _ _ _ _ _ _ _ _ _ _ Hs).
Qed.

Lemma steps_mem (evs : list daemon.event) (d d' : daemon.Daemon) (w w' : W) :
  steps evs d w = Ret (d', w') ->
  forall (ptr : positive) (c : config.Config),
    daemon.mem d !! ptr = Some c -> daemon.mem d' !! ptr = Some c.
Proof.
  revert d w. induction evs as [| ev evs IH]; intros d w; simpl.
  - by intros [= <- <-].
  - destruct (step ev d w) as [[d1 w1] | |] eqn:Hstep; simpl; try discriminate.
    intros Hrest ptr c Hptr. apply (IH _ _ Hrest). by apply (step_kept _ _ _ _ _ Hstep).
Qed.

(** C7. The command "m:raw" or "m:llm" only sets the override: the
    daemon holds the same pipeline and the same store afterwards.  No
    event of the daemon, be it a command, a reload of the configuration
    or a move of the pipeline, changes a record of the store, and a
    session in flight keeps the pointer it was created with; so the
    snapshot of a session stays as it was at creation through any
    sequence of events.  A session created by a toggle while an override
    is set gets a new record, the snapshot of the configuration manager
    with the processing mode replaced by the override; without override
    it gets the pointer of the manager. *)
Theorem mode_override_for_new_sessions_only (env : daemon.Env) (d : daemon.Daemon) (w : W) :
  (forall (c : daemon.Conn) (mode : string),
      mode = "raw" \/ mode = "llm" ->
      daemon.readData c = "m:" +:+ mode +:+ daemon.nl ->
      handle env c d w
      = Ret ("OK mode=" +:+ mode +:+ daemon.nl,
             daemon.set_wg (daemon.wg d - 1) (daemon.setModeOverride mode d), w)
      /\ daemon.pipeline (daemon.setModeOverride mode d) = daemon.pipeline d
      /\ daemon.mem (daemon.setModeOverride mode d) = daemon.mem d
      /\ daemon.modeOverride (daemon.setModeOverride mode d) = mode)
  /\ (forall (ev : daemon.event) (d' : daemon.Daemon) (w' : W),
        step ev d w = Ret (d', w') -> kept d d')
  /\ (forall (evs : list daemon.event) (d' : daemon.Daemon) (w' : W)
         (ptr : positive) (c : config.Config),
        steps evs d w = Ret (d', w') ->
        daemon.mem d !! ptr = Some c -> daemon.mem d' !! ptr = Some c)
  /\ (forall (d' : daemon.Daemon) (w' : W),
        daemon.modeOverride d <> "" ->
        daemon.status d = pipeline.Idle ->
        toggle env d w = Ret (d', w') ->
        exists (p : pipeline.pipeline) (base : config.Config),
          daemon.pipeline d' = Some p
          /\ daemon.mem d !! daemon.configMgr d = Some base
          /\ daemon.mem d !! pipeline.config p = None
          /\ daemon.mem d' !! pipeline.config p
             = Some (config.set_Processing_Mode base (daemon.modeOverride d)))
  /\ (forall (d' : daemon.Daemon) (w' : W),
        daemon.modeOverride d = "" ->
        daemon.status d = pipeline.Idle ->
        toggle env d w = Ret (d', w') ->
        exists p : pipeline.pipeline,
          daemon.pipeline d' = Some p /\ pipeline.config p = daemon.configMgr d
          /\ daemon.mem d' = daemon.mem d).
Proof.
  split; [|split; [|split; [|split]]].
  - intros c mode Hmode Hc. unfold daemon.handle, daemon.ReadString. rewrite Hc.
    destruct Hmode as [-> | ->]; repeat split; reflexivity.
  - intros ev d' w'. apply step_kept.
  - intros evs d' w' ptr c Hsteps. by apply (steps_mem _ _ _ _ _ Hsteps).
  - intros d' w' Hmode Hidle. unfold daemon.toggle. rewrite Hidle. simpl.
    unfold daemon.getConfigWithModeOverride, deref.
    destruct (String.eqb_spec (daemon.modeOverride d) ""); [contradiction|]. simpl.
    destruct (daemon.mem d !! daemon.configMgr d) as [base |] eqn:Hbase;
      simpl; try discriminate.
    set (ptr := fresh (dom (daemon.mem d))).
    assert (Hfresh : daemon.mem d !! ptr = None).
    { apply not_elem_of_dom. apply is_fresh. }
    unfold pipeline.Run, deref.
    destruct (negb (String.eqb (daemon.activeWindow env) "")); simpl;
      rewrite lookup_insert_eq; simpl; intros [= <- <-]; simpl;
      eexists _, base; (split; [reflexivity|]); simpl;
      repeat split; auto; apply lookup_insert_eq.
  - intros d' w' Hmode Hidle. unfold daemon.toggle. rewrite Hidle. simpl.
    unfold daemon.getConfigWithModeOverride. rewrite Hmode. simpl.
    unfold pipeline.Run, deref.
    destruct (negb (String.eqb (daemon.activeWindow env) "")); simpl;
      destruct (daemon.mem d !! daemon.configMgr d); simpl; try discriminate;
      intros [= <- <-]; simpl; eexists; repeat split; reflexivity.
Qed.

End Snapshots.

(** The empty request line and the command of the daemon tests. *)
Lemma handle_empty_and_unknown_witness :
  sample_handle (sends daemon.nl) sample_daemon []
  = Ret ("ERR unknown='\n'" +:+ daemon.nl, daemon.set_wg 0 sample_daemon, [])
  /\ sample_handle (sends ("x" +:+ daemon.nl)) sample_daemon []
     = Ret ("ERR unknown='x'" +:+ daemon.nl, daemon.set_wg 0 sample_daemon, []).
Proof.
  pose proof (handle_empty_and_unknown (log_recorder_Start false) log_recorder_Stop
                log_NewTranscriber log_transcriber_Start log_transcriber_Stop
                log_GetFinalTranscription (log_backend "ydotool") (log_backend "wtype")
                (log_backend "clipboard") id id "1" sample_env sample_daemon [])
    as (Hnl & _ & Hunknown).
  split.
  - apply (Hnl (sends daemon.nl)). reflexivity.
  - apply (Hunknown (sends ("x" +:+ daemon.nl)) "x"%char daemon.nl); [reflexivity|].
    unfold known_command. rewrite !elem_of_cons, elem_of_nil.
    intros [H | [H | [H | [H | [H | [H | []]]]]]]; discriminate H.
Defined.

(** "m:llm" while the sample session is in flight leaves its snapshot
    alone; the next session, started from idle, gets a copy with the mode
    "llm", the file saying nothing. *)
Lemma mode_override_for_new_sessions_only_witness :
  sample_handle (sends ("m:llm" +:+ daemon.nl)) sample_daemon []
  = Ret ("OK mode=llm" +:+ daemon.nl,
         daemon.set_wg 0 (daemon.setModeOverride "llm" sample_daemon), [])
  /\ exists d' w' p cfg,
       sample_toggle sample_idle_llm [] = Ret (d', w')
       /\ daemon.pipeline d' = Some p
       /\ daemon.mem d' !! pipeline.config p = Some cfg
       /\ config.Mode (config.Processing cfg) = "llm".
Proof.
  pose proof (mode_override_for_new_sessions_only (log_recorder_Start false)
                log_recorder_Stop log_NewTranscriber log_transcriber_Start
                log_transcriber_Stop log_GetFinalTranscription (log_backend "ydotool")
                (log_backend "wtype") (log_backend "clipboard") id id "1" sample_env)
    as Hthm.
  split.
  - destruct (Hthm sample_daemon []) as (Hset & _).
    apply (Hset (sends ("m:llm" +:+ daemon.nl)) "llm"); [by right | reflexivity].
  - destruct (Hthm sample_idle_llm []) as (_ & _ & _ & Hnew & _).
    destruct (sample_toggle sample_idle_llm []) as [[d' w'] | |] eqn:Htoggle;
      [| vm_compute in Htoggle; discriminate | vm_compute in Htoggle; discriminate].
    destruct (Hnew d' w') as (p & base & Hp & Hbase & _ & Hcfg);
      [discriminate | reflexivity | exact Htoggle |].
    exists d', w', p, (config.set_Processing_Mode base "llm").
    split; [reflexivity|]. split; [exact Hp|]. split; [exact Hcfg | reflexivity].
Defined.

(** ** The session worker: invariants of a session *)

Section SessionInvariants.
Context {W : Type}.
Variable recorder_Start : config.Config -> context.Context -> W -> option error * W.
Variable recorder_Stop : W -> W.
Variable NewTranscriber : config.Config -> W -> option error * W.
Variable transcriber_Start : context.Context -> W -> option error * W.
Variable transcriber_Stop : context.Context -> W -> option error * W.
Variable GetFinalTranscription : W -> (string * option error) * W.
Variable ydotool_Inject wtype_Inject clipboard_Inject :
  context.Context -> string -> Z -> string -> W -> option error * W.

Local Abbreviation handleInjectAction :=
  (pipeline.handleInjectAction recorder_Stop transcriber_Stop GetFinalTranscription
     ydotool_Inject wtype_Inject clipboard_Inject).
Local Abbreviation run :=
  (pipeline.run recorder_Start recorder_Stop NewTranscriber transcriber_Start
     transcriber_Stop GetFinalTranscription ydotool_Inject wtype_Inject clipboard_Inject).
Local Abbreviation step :=
  (pipeline.step recorder_Start recorder_Stop NewTranscriber transcriber_Start
     transcriber_Stop GetFinalTranscription ydotool_Inject wtype_Inject clipboard_Inject).
Local Abbreviation steps :=
  (pipeline.steps recorder_Start recorder_Stop NewTranscriber transcriber_Start
     transcriber_Stop GetFinalTranscription ydotool_Inject wtype_Inject clipboard_Inject).
Local Abbreviation Stop :=
  (pipeline.Stop recorder_Start recorder_Stop NewTranscriber transcriber_Start
     transcriber_Stop GetFinalTranscription ydotool_Inject wtype_Inject clipboard_Inject).
Local Abbreviation wait :=
  (pipeline.wait recorder_Start recorder_Stop NewTranscriber transcriber_Start
     transcriber_Stop GetFinalTranscription ydotool_Inject wtype_Inject clipboard_Inject).

Ltac cases :=
  repeat match goal with
         | |- context [deref ?m ?l] =>
             let E := fresh "Ederef" in destruct (deref m l) eqn:E; simpl
         | |- context [match ?x with _ => _ end] =>
             match type of x with
             | sumbool _ _ => fail 1
             | _ => let E := fresh "E" in destruct x eqn:E; simpl
             end
         end.

Lemma sendError_bounded (title message : string) (err : option error)
    (p : pipeline.pipeline) :
  mailboxes_bounded p -> mailboxes_bounded (pipeline.sendError title message err p).
Proof.
  unfold mailboxes_bounded, pipeline.sendError, pipeline.errorCh_cap.
  intros [Ha He]. destruct (Nat.ltb_spec (length (pipeline.errorCh p)) 10); simpl.
  - split; [exact Ha|]. rewrite length_app. simpl. lia.
  - by split.
Qed.

Lemma step_bounded (mem : gmap positive config.Config) (ev : pipeline.event)
    (p p' : pipeline.pipeline) (w w' : W) :
  step mem ev p w = Ret (p', w') -> mailboxes_bounded p -> mailboxes_bounded p'.
Proof.
  assert (Htail : forall a (l : list string), (length (a :: l) <= 1)%nat -> (length l <= 1)%nat).
  { intros a l. simpl. lia. }
  unfold pipeline.step, pipeline.run, pipeline.handleInjectAction,
    pipeline.defer_transcriber, pipeline.defer_recorder.
  destruct ev as [sel | a | now | | title message err |];
    [destruct (pipeline.worker p) eqn:Hw; [| | | destruct sel |] | | | | |].
  all: cases; try discriminate; intros [= <- <-] Hb;
    repeat match goal with
           | |- mailboxes_bounded (pipeline.defer_final _) =>
               change (mailboxes_bounded (pipeline.defer_final ?q)) with (mailboxes_bounded q)
           | |- mailboxes_bounded (pipeline.setStatus _ _) =>
               change (mailboxes_bounded (pipeline.setStatus ?st ?q)) with (mailboxes_bounded q)
           | |- mailboxes_bounded (pipeline.set_worker _ _) =>
               change (mailboxes_bounded (pipeline.set_worker ?st ?q)) with (mailboxes_bounded q)
           | |- mailboxes_bounded (pipeline.set_runCtx _ _) =>
               change (mailboxes_bounded (pipeline.set_runCtx ?st ?q)) with (mailboxes_bounded q)
           | |- mailboxes_bounded (pipeline.sendError _ _ _ _) => apply sendError_bounded
           end;
    try exact Hb.
  all: destruct Hb as [Ha He]; unfold mailboxes_bounded in *; simpl in *;
    try rewrite E in *; simpl in *.
  all: try (split; [|exact He]; lia).
  - split; [|exact He]. rewrite length_app. simpl.
    apply Nat.ltb_lt in E. unfold pipeline.actionCh_cap in *. lia.
  - split; [exact Ha|]. destruct (pipeline.errorCh p); simpl in *; lia.
Qed.

Lemma step_follows (mem : gmap positive config.Config) (ev : pipeline.event)
    (before : list string) (p p' : pipeline.pipeline) (w w' : W) :
  step mem ev p w = Ret (p', w') -> statuses_follow before p -> statuses_follow before p'.
Proof.
  intros Hstep Hf. revert Hstep.
  unfold pipeline.step, pipeline.run, pipeline.handleInjectAction,
    pipeline.defer_transcriber, pipeline.defer_recorder, pipeline.sendError.
  destruct ev as [sel | a | now | | title message err |];
    destruct (pipeline.worker p) eqn:Hw; try destruct sel.
  all: cases; try discriminate; intros [= <- <-].
  all: unfold statuses_follow, session_statuses in *; simpl in *; rewrite Hw in *;
    try exact Hf; try contradiction.
  all: try (rewrite Hf; split; reflexivity).
  all: destruct Hf as [Hobs Hst]; rewrite ?Hobs; rewrite <- ?app_assoc; simpl;
    try (split; reflexivity).
  all: split; [|reflexivity].
  all: eexists; (split; last reflexivity);
    repeat first [apply list_elem_of_here | apply list_elem_of_further].
Qed.

Lemma steps_follow (mem : gmap positive config.Config) (evs : list pipeline.event)
    (before : list string) (p p' : pipeline.pipeline) (w w' : W) :
  steps mem evs p w = Ret (p', w') -> statuses_follow before p -> statuses_follow before p'.
Proof.
  revert p w. induction evs as [| ev evs IH]; intros p w; simpl.
  - by intros [= <- <-].
  - destruct (step mem ev p w) as [[p1 w1] | |] eqn:Hstep; simpl; try discriminate.
    intros Hrest Hf. apply (IH _ _ Hrest). by apply (step_follows _ _ _ _ _ _ _ Hstep).
Qed.

Lemma steps_bounded (mem : gmap positive config.Config) (evs : list pipeline.event)
    (p p' : pipeline.pipeline) (w w' : W) :
  steps mem evs p w = Ret (p', w') -> mailboxes_bounded p -> mailboxes_bounded p'.
Proof.
  revert p w. induction evs as [| ev evs IH]; intros p w; simpl.
  - by intros [= <- <-].
  - destruct (step mem ev p w) as [[p1 w1] | |] eqn:Hstep; simpl; try discriminate.
    intros Hrest Hb. apply (IH _ _ Hrest). by apply (step_bounded _ _ _ _ _ _ Hstep).
Qed.

(** X1. The mailboxes never hold more than their capacity, one action
    and ten errors: this is so for a new pipeline and kept by [Run] and
    by every event.  When the error mailbox is full [sendError] leaves the
    pipeline as it is: the new error is dropped, the waiting ones stay. *)
Theorem mailboxes_never_overflow (mem : gmap positive config.Config)
    (p : pipeline.pipeline) (w : W) :
  (forall cfg : positive, mailboxes_bounded (pipeline.New cfg))
  /\ (forall (ctx : context.Context) (now : Z) (p' : pipeline.pipeline),
        pipeline.Run mem ctx now p = Ret p' -> mailboxes_bounded p -> mailboxes_bounded p')
  /\ (forall (evs : list pipeline.event) (p' : pipeline.pipeline) (w' : W),
        steps mem evs p w = Ret (p', w') -> mailboxes_bounded p -> mailboxes_bounded p')
  /\ (forall (title message : string) (err : option error),
        length (pipeline.errorCh p) = pipeline.errorCh_cap ->
        pipeline.sendError title message err p = p).
Proof.
  split; [|split; [|split]].
  - intros cfg. unfold mailboxes_bounded. simpl. unfold pipeline.errorCh_cap. lia.
  - intros ctx now p'. unfold pipeline.Run.
    destruct (pipeline.running p); [by intros [= <-]|].
    destruct (deref _ _); simpl; try discriminate. by intros [= <-].
  - intros evs p' w'. apply steps_bounded.
  - intros title message err Hfull. unfold pipeline.sendError. rewrite Hfull.
    reflexivity.
Qed.

(** X2. From the start of a worker on, whatever happens, the statuses
    written are the beginning of one of four sequences: recording, idle;
    recording, transcribing, idle; recording, transcribing, injecting,
    idle; and the last with idle written twice.  The status never goes
    back, the current status is the last one written, and when the worker
    has returned a whole sequence has been written, ending in idle. *)
Theorem session_statuses_in_order (mem : gmap positive config.Config)
    (evs : list pipeline.event) (p p' : pipeline.pipeline) (w w' : W) :
  pipeline.worker p = pipeline.AtStart ->
  steps mem evs p w = Ret (p', w') ->
  exists s : list string,
    pipeline.observed p' = pipeline.observed p ++ s
    /\ (exists full, full ∈ session_statuses /\ (s `prefix_of` full))
    /\ (s <> [] -> last s = Some (pipeline.status p'))
    /\ (pipeline.worker p' = pipeline.Exited ->
        s ∈ session_statuses /\ pipeline.status p' = pipeline.Idle).
Proof.
  intros Hw Hsteps.
  assert (Hf : statuses_follow (pipeline.observed p) p').
  { apply (steps_follow _ _ _ _ _ _ _ Hsteps). unfold statuses_follow. by rewrite Hw. }
  unfold statuses_follow in Hf. destruct (pipeline.worker p') eqn:Hw'; [contradiction | | | |].
  - exists []. rewrite app_nil_r. split; [exact Hf|]. split; [|split; [done | discriminate]].
    eexists. split; [apply list_elem_of_here | apply prefix_nil].
  - destruct Hf as [Hobs Hst]. exists [pipeline.Recording].
    split; [exact Hobs|]. split; [|split; [by rewrite Hst | discriminate]].
    eexists. split; [apply list_elem_of_here | by eexists].
  - destruct Hf as [Hobs Hst]. exists [pipeline.Recording; pipeline.Transcribing].
    split; [exact Hobs|]. split; [|split; [by rewrite Hst | discriminate]].
    eexists. split; [apply list_elem_of_further, list_elem_of_here | by eexists].
  - destruct Hf as [(s & Hs & Hobs) Hst]. exists s.
    split; [exact Hobs|]. split; [by exists s|]. split; [|by intros _].
    intros _. rewrite Hst. unfold session_statuses in Hs.
    rewrite !elem_of_cons, elem_of_nil in Hs.
    destruct Hs as [-> | [-> | [-> | [-> | []]]]]; reflexivity.
Qed.

(** X3. In its loop the worker stays where it is, status, mailbox of
    errors and collaborators untouched, for as long as the context is not
    done and no Inject waits in the action mailbox, whatever the [select]
    picks: frames and other actions, "cancel" included, end nothing. *)
Theorem loop_left_only_by_inject_or_done (mem : gmap positive config.Config)
    (sels : list pipeline.select_case) (p : pipeline.pipeline) (w : W) :
  pipeline.worker p = pipeline.InLoop ->
  pipeline.Inject ∉ pipeline.actionCh p ->
  context.Done (pipeline.runCtx p) = false ->
  exists p',
    steps mem (map pipeline.EvWorker sels) p w = Ret (p', w)
    /\ pipeline.worker p' = pipeline.InLoop
    /\ pipeline.status p' = pipeline.status p
    /\ pipeline.observed p' = pipeline.observed p
    /\ pipeline.errorCh p' = pipeline.errorCh p
    /\ pipeline.running p' = pipeline.running p.
Proof.
  revert p. induction sels as [| sel sels IH]; intros p Hw Hin Hdone; simpl.
  - exists p. by repeat split.
  - assert (Hone : exists p1,
               run mem sel p w = Ret (p1, w)
               /\ pipeline.worker p1 = pipeline.InLoop
               /\ (pipeline.Inject ∉ pipeline.actionCh p1)
               /\ pipeline.runCtx p1 = pipeline.runCtx p
               /\ pipeline.status p1 = pipeline.status p
               /\ pipeline.observed p1 = pipeline.observed p
               /\ pipeline.errorCh p1 = pipeline.errorCh p
               /\ pipeline.running p1 = pipeline.running p).
    { unfold pipeline.run. rewrite Hw. destruct sel.
      - exists p. by repeat split.
      - destruct (pipeline.actionCh p) as [| action rest] eqn:Hact.
        + exists p. repeat split; try done. by rewrite Hact.
        + destruct (String.eqb_spec action pipeline.Inject) as [-> | Hne].
          * exfalso. apply Hin. apply list_elem_of_here.
          * eexists. split; [reflexivity|]. simpl. repeat split; try done.
            intros Hrest. apply Hin. by apply list_elem_of_further.
      - rewrite Hdone. exists p. by repeat split. }
    destruct Hone as (p1 & Hrun & Hw1 & Hin1 & Hctx & Hst & Hobs & Herr & Hrunning).
    rewrite Hrun. simpl. rewrite <- Hctx in Hdone.
    destruct (IH p1 Hw1 Hin1 Hdone) as (p' & Hsteps & ? & ? & ? & ? & ?).
    exists p'. split; [exact Hsteps|]. repeat split; congruence.
Qed.


Lemma run_counted (mem : gmap positive config.Config) (sel : pipeline.select_case)
    (p p' : pipeline.pipeline) (w w' : W) :
  run mem sel p w = Ret (p', w') ->
  (worker_counted p -> worker_counted p')
  /\ pipeline.runCtx p' = pipeline.runCtx p
  /\ pipeline.stopOnce p' = pipeline.stopOnce p
  /\ pipeline.config p' = pipeline.config p.
Proof.
  unfold pipeline.run, pipeline.handleInjectAction,
    pipeline.defer_transcriber, pipeline.defer_recorder, pipeline.sendError.
  destruct (pipeline.worker p) eqn:Hw; try destruct sel.
  all: cases; try discriminate; intros [= <- <-].
  all: simpl; (split; [|try (repeat split; reflexivity)]).
  all: unfold worker_counted, returned_idle; simpl; rewrite ?Hw; try tauto.
  all: intros [(H1 & H2 & H3) | ((H1 & _) & _)]; try discriminate H1; try contradiction.
  all: try (right; repeat split; try reflexivity; lia).
  all: left; repeat split; try discriminate; try assumption.
Qed.

Lemma wait_returns_idle (mem : gmap positive config.Config) (sched : list pipeline.select_case)
    (p p' : pipeline.pipeline) (w w' : W) :
  wait mem sched p w = Ret (p', w') ->
  worker_counted p ->
  returned_idle p' /\ pipeline.wg p' = 0
  /\ pipeline.runCtx p' = pipeline.runCtx p
  /\ pipeline.stopOnce p' = pipeline.stopOnce p.
Proof.
  revert p w. induction sched as [| sel sched IH]; intros p w; simpl.
  - destruct (Z.leb_spec (pipeline.wg p) 0) as [Hle | Hgt]; [|discriminate].
    intros [= <- <-] [(_ & _ & Hwg) | [Hret Hwg]]; [lia | split; [exact Hret | done]].
  - destruct (Z.leb_spec (pipeline.wg p) 0) as [Hle | Hgt].
    + intros [= <- <-] [(_ & _ & Hwg) | [Hret Hwg]]; [lia | split; [exact Hret | done]].
    + destruct (run mem sel p w) as [[p1 w1] | |] eqn:Hrun; simpl; try discriminate.
      intros Hrest Hc. destruct (run_counted _ _ _ _ _ _ Hrun) as (Hc1 & Hctx & Hso & _).
      destruct (IH _ _ Hrest (Hc1 Hc)) as (Hret & ? & ? & ?).
      split; [exact Hret|]. repeat split; try done; congruence.
Qed.

Lemma wait_done_returns (mem : gmap positive config.Config) (n : nat)
    (p : pipeline.pipeline) (w : W) :
  worker_counted p ->
  context.Done (pipeline.runCtx p) = true ->
  is_Some (mem !! pipeline.config p) ->
  match pipeline.worker p with
  | pipeline.AtStart => (3 <= n)%nat
  | pipeline.InRecording => (2 <= n)%nat
  | pipeline.InLoop => (1 <= n)%nat
  | _ => True
  end ->
  exists p' w', wait mem (repeat pipeline.SelDone n) p w = Ret (p', w').
Proof.
  revert p w. induction n as [| n IH]; intros p w Hc Hdone Hcfg Hrank.
  - destruct Hc as [(Hns & Hne & Hwg) | [Hret Hwg]].
    + destruct (pipeline.worker p); try contradiction; lia.
    + simpl. rewrite Hwg. simpl. by eexists _, _.
  - simpl. destruct (Z.leb_spec (pipeline.wg p) 0); [by eexists _, _|].
    assert (Hrun : exists p1 w1,
               run mem pipeline.SelDone p w = Ret (p1, w1)
               /\ match pipeline.worker p1 with
                  | pipeline.AtStart => (3 <= n)%nat
                  | pipeline.InRecording => (2 <= n)%nat
                  | pipeline.InLoop => (1 <= n)%nat
                  | _ => True
                  end).
    { destruct (pipeline.worker p) eqn:Hw.
      - destruct Hc as [(Hns & _) | [[Hex _] _]]; [contradiction | congruence].
      - eexists _, _. unfold pipeline.run. rewrite Hw. split; [reflexivity|]. simpl. lia.
      - destruct (run_setup recorder_Start recorder_Stop NewTranscriber transcriber_Start
                    transcriber_Stop GetFinalTranscription ydotool_Inject wtype_Inject
                    clipboard_Inject mem pipeline.SelDone p w Hw Hcfg)
          as (p1 & w1 & Hrun & _ & [Hloop | [Hex _]]);
          exists p1, w1; (split; [exact Hrun|]).
        + rewrite Hloop. lia.
        + by rewrite Hex.
      - destruct (run_done_in_loop recorder_Start recorder_Stop NewTranscriber
                    transcriber_Start transcriber_Stop GetFinalTranscription ydotool_Inject
                    wtype_Inject clipboard_Inject mem p w Hw Hdone)
          as (p1 & w1 & Hrun & [Hex _]).
        exists p1, w1. split; [exact Hrun|]. by rewrite Hex.
      - eexists _, _. unfold pipeline.run. rewrite Hw. split; [reflexivity|]. by rewrite Hw. }
    destruct Hrun as (p1 & w1 & Hrun & Hrank1). rewrite Hrun. simpl.
    destruct (run_counted _ _ _ _ _ _ Hrun) as (Hc1 & Hctx & _ & Hconf).
    apply IH; [by apply Hc1 | by rewrite Hctx | by rewrite Hconf | exact Hrank1].
Qed.

(** X5. [Stop] on a pipeline whose worker is running cancels the
    context and waits: when it returns the worker has returned, the
    status is idle, the running flag cleared and the wait group at zero.
    It does return when the [select] of the worker picks the done context,
    three stretches of the worker being enough.  A second [Stop] returns
    at once and changes nothing. *)
Theorem Stop_returns_to_idle (mem : gmap positive config.Config)
    (p : pipeline.pipeline) (w : W) :
  pipeline.worker p <> pipeline.NotStarted ->
  pipeline.worker p <> pipeline.Exited ->
  pipeline.wg p = 1 ->
  pipeline.cancel p = true ->
  pipeline.stopOnce p = false ->
  is_Some (mem !! pipeline.config p) ->
  (forall (sched : list pipeline.select_case) (p' : pipeline.pipeline) (w' : W),
      Stop mem sched p w = Ret (p', w') ->
      returned_idle p' /\ pipeline.wg p' = 0
      /\ context.Done (pipeline.runCtx p') = true
      /\ forall sched' : list pipeline.select_case, Stop mem sched' p' w' = Ret (p', w'))
  /\ (exists p' w',
        Stop mem [pipeline.SelDone; pipeline.SelDone; pipeline.SelDone] p w = Ret (p', w')).
Proof.
  intros Hns Hne Hwg Hcancel Honce Hcfg.
  set (pc := pipeline.set_runCtx (context.cancel (pipeline.runCtx p))
               (pipeline.set_stopOnce true p)).
  assert (HStop : forall sched, Stop mem sched p w = wait mem sched pc w).
  { intros sched. unfold pipeline.Stop. rewrite Honce. simpl. by rewrite Hcancel. }
  assert (Hc : worker_counted pc).
  { left. by repeat split. }
  split.
  - intros sched p' w'. rewrite HStop. intros Hwait.
    destruct (wait_returns_idle _ _ _ _ _ _ Hwait Hc) as (Hret & Hwg' & Hctx & Hso).
    split; [exact Hret|]. split; [exact Hwg'|]. split; [by rewrite Hctx|].
    intros sched'. unfold pipeline.Stop. rewrite Hso. simpl.
    destruct sched'; simpl; by rewrite Hwg'.
  - rewrite HStop. apply (wait_done_returns mem 3 pc w Hc); [reflexivity | exact Hcfg |].
    simpl. destruct (pipeline.worker p); try done; lia.
Qed.

End SessionInvariants.

Lemma mailboxes_never_overflow_witness :
  exists p' w',
    sample_steps [pipeline.EvSend pipeline.Inject;
                  pipeline.EvForward "Recording Error" "Recording stream error" None;
                  pipeline.EvWorker pipeline.SelFrame] sample_looping [] = Ret (p', w')
    /\ mailboxes_bounded p'.
Proof.
  destruct (mailboxes_never_overflow (log_recorder_Start false) log_recorder_Stop
              log_NewTranscriber log_transcriber_Start log_transcriber_Stop
              log_GetFinalTranscription (log_backend "ydotool") (log_backend "wtype")
              (log_backend "clipboard") sample_mem sample_looping []) as (_ & _ & Hsteps & _).
  destruct (sample_steps [pipeline.EvSend pipeline.Inject;
                          pipeline.EvForward "Recording Error" "Recording stream error" None;
                          pipeline.EvWorker pipeline.SelFrame] sample_looping [])
    as [[p' w'] | |] eqn:Hrun;
    [| vm_compute in Hrun; discriminate | vm_compute in Hrun; discriminate].
  exists p', w'. split; [reflexivity|].
  apply (Hsteps _ _ _ Hrun).
  unfold mailboxes_bounded, pipeline.actionCh_cap, pipeline.errorCh_cap. simpl. lia.
Defined.

(** The whole of a session that ends with an injection. *)
Lemma session_statuses_in_order_witness :
  exists p' w',
    sample_steps [pipeline.EvWorker pipeline.SelFrame; pipeline.EvWorker pipeline.SelFrame;
                  pipeline.EvSend pipeline.Inject; pipeline.EvWorker pipeline.SelAction]
      sample_started [] = Ret (p', w')
    /\ exists s, pipeline.observed p' = pipeline.observed sample_started ++ s
                 /\ s ∈ session_statuses.
Proof.
  destruct (sample_steps [pipeline.EvWorker pipeline.SelFrame;
                          pipeline.EvWorker pipeline.SelFrame;
                          pipeline.EvSend pipeline.Inject;
                          pipeline.EvWorker pipeline.SelAction] sample_started [])
    as [[p' w'] | |] eqn:Hrun;
    [| vm_compute in Hrun; discriminate | vm_compute in Hrun; discriminate].
  exists p', w'. split; [reflexivity|].
  destruct (session_statuses_in_order (log_recorder_Start false) log_recorder_Stop
              log_NewTranscriber log_transcriber_Start log_transcriber_Stop
              log_GetFinalTranscription (log_backend "ydotool") (log_backend "wtype")
              (log_backend "clipboard") sample_mem _ sample_started p' [] w' eq_refl Hrun)
    as (s & Hobs & _ & _ & Hexit).
  exists s. split; [exact Hobs|]. apply Hexit.
  vm_compute in Hrun. by injection Hrun as <- _.
Defined.

Lemma loop_left_only_by_inject_or_done_witness :
  exists p',
    sample_steps [pipeline.EvWorker pipeline.SelFrame; pipeline.EvWorker pipeline.SelAction;
                  pipeline.EvWorker pipeline.SelDone] sample_looping [] = Ret (p', [])
    /\ pipeline.worker p' = pipeline.InLoop.
Proof.
  destruct (loop_left_only_by_inject_or_done (log_recorder_Start false) log_recorder_Stop
              log_NewTranscriber log_transcriber_Start log_transcriber_Stop
              log_GetFinalTranscription (log_backend "ydotool") (log_backend "wtype")
              (log_backend "clipboard") sample_mem
              [pipeline.SelFrame; pipeline.SelAction; pipeline.SelDone] sample_looping [])
    as (p' & Hsteps & Hw & _); [reflexivity | | reflexivity |].
  - simpl. apply not_elem_of_nil.
  - exists p'. by split.
Defined.


Lemma Stop_returns_to_idle_witness :
  exists p' w',
    pipeline.Stop (log_recorder_Start false) log_recorder_Stop log_NewTranscriber
      log_transcriber_Start log_transcriber_Stop log_GetFinalTranscription
      (log_backend "ydotool") (log_backend "wtype") (log_backend "clipboard") sample_mem
      [pipeline.SelDone; pipeline.SelDone; pipeline.SelDone] sample_looping [] = Ret (p', w')
    /\ returned_idle p'.
Proof.
  destruct (Stop_returns_to_idle (log_recorder_Start false) log_recorder_Stop
              log_NewTranscriber log_transcriber_Start log_transcriber_Stop
              log_GetFinalTranscription (log_backend "ydotool") (log_backend "wtype")
              (log_backend "clipboard") sample_mem sample_looping [])
    as (Hidle & p' & w' & HStop);
    [discriminate | discriminate | reflexivity | reflexivity | reflexivity | by eexists |].
  exists p', w'. split; [exact HStop|]. by apply (Hidle _ _ _ HStop).
Defined.

(** ** The daemon: commands and toggles *)

Section DaemonProperties.
Context {W : Type}.
Variable recorder_Start : config.Config -> context.Context -> W -> option error * W.
Variable recorder_Stop : W -> W.
Variable NewTranscriber : config.Config -> W -> option error * W.
Variable transcriber_Start : context.Context -> W -> option error * W.
Variable transcriber_Stop : context.Context -> W -> option error * W.
Variable GetFinalTranscription : W -> (string * option error) * W.
Variable ydotool_Inject wtype_Inject clipboard_Inject :
  context.Context -> string -> Z -> string -> W -> option error * W.
Variable TrimFunc_IsSpace TrimRightFunc_IsSpace : string -> string.
Variable ProtoVer : string.

Local Abbreviation stopPipeline :=
  (daemon.stopPipeline recorder_Start recorder_Stop NewTranscriber transcriber_Start
     transcriber_Stop GetFinalTranscription ydotool_Inject wtype_Inject clipboard_Inject).
Local Abbreviation toggle :=
  (daemon.toggle recorder_Start recorder_Stop NewTranscriber transcriber_Start
     transcriber_Stop GetFinalTranscription ydotool_Inject wtype_Inject clipboard_Inject).
Local Abbreviation cancelPipeline :=
  (daemon.cancelPipeline recorder_Start recorder_Stop NewTranscriber transcriber_Start
     transcriber_Stop GetFinalTranscription ydotool_Inject wtype_Inject clipboard_Inject).
Local Abbreviation handle :=
  (daemon.handle recorder_Start recorder_Stop NewTranscriber transcriber_Start
     transcriber_Stop GetFinalTranscription ydotool_Inject wtype_Inject clipboard_Inject
     TrimFunc_IsSpace TrimRightFunc_IsSpace ProtoVer).
Local Abbreviation step :=
  (daemon.step recorder_Start recorder_Stop NewTranscriber transcriber_Start
     transcriber_Stop GetFinalTranscription ydotool_Inject wtype_Inject clipboard_Inject
     TrimFunc_IsSpace TrimRightFunc_IsSpace ProtoVer).
Local Abbreviation steps :=
  (daemon.steps recorder_Start recorder_Stop NewTranscriber transcriber_Start
     transcriber_Stop GetFinalTranscription ydotool_Inject wtype_Inject clipboard_Inject
     TrimFunc_IsSpace TrimRightFunc_IsSpace ProtoVer).

(** What [stopPipeline], [toggle] and [cancelPipeline] leave alone. *)
Lemma stopPipeline_frame (env : daemon.Env) (d d' : daemon.Daemon) (w w' : W) :
  stopPipeline env d w = Ret (d', w') ->
  d' = daemon.set_pipeline None d.
Proof.
  unfold daemon.stopPipeline. destruct (daemon.pipeline d) as [p |].
  - destruct (pipeline.Stop _ _ _ _ _ _ _ _ _ _ _ _ _) as [[? ?] | |]; simpl; try discriminate.
    by intros [= <- <-].
  - by intros [= <- <-].
Qed.

Lemma toggle_frame (env : daemon.Env) (d d' : daemon.Daemon) (w w' : W) :
  toggle env d w = Ret (d', w') ->
  daemon.modeOverride d' = daemon.modeOverride d /\ daemon.wg d' = daemon.wg d
  /\ daemon.configMgr d' = daemon.configMgr d /\ daemon.ctx d' = daemon.ctx d.
Proof.
  assert (Hstopped : forall note w0,
             (let* (d0, w1) := stopPipeline env d w0 in Ret (daemon.notify note d0, w1))
             = Ret (d', w') ->
             daemon.modeOverride d' = daemon.modeOverride d /\ daemon.wg d' = daemon.wg d
             /\ daemon.configMgr d' = daemon.configMgr d /\ daemon.ctx d' = daemon.ctx d).
  { intros note w0.
    destruct (stopPipeline env d w0) as [[d1 w1] | |] eqn:Hstop; simpl; try discriminate.
    apply stopPipeline_frame in Hstop. subst. by intros [= <- <-]. }
  unfold daemon.toggle.
  destruct (String.eqb (daemon.status d) pipeline.Idle).
  { unfold daemon.getConfigWithModeOverride, deref.
    destruct (negb (String.eqb (daemon.modeOverride d) "")).
    - destruct (daemon.mem d !! daemon.configMgr d) as [c |]; simpl; try discriminate.
      destruct (pipeline.Run _ _ _ _) as [p1 | |]; simpl; try discriminate.
      by intros [= <- <-].
    - simpl. destruct (pipeline.Run _ _ _ _) as [p1 | |]; simpl; try discriminate.
      by intros [= <- <-]. }
  destruct (String.eqb (daemon.status d) pipeline.Recording); [apply Hstopped|].
  destruct (String.eqb (daemon.status d) pipeline.Transcribing).
  { destruct (daemon.pipeline d) as [p |]; simpl.
    - destruct (_ <? _)%nat; simpl; try discriminate. by intros [= <- <-].
    - by intros [= <- <-]. }
  destruct (String.eqb (daemon.status d) pipeline.Injecting); [apply Hstopped|].
  by intros [= <- <-].
Qed.

Lemma cancelPipeline_frame (env : daemon.Env) (d d' : daemon.Daemon) (w w' : W) :
  cancelPipeline env d w = Ret (d', w') ->
  daemon.modeOverride d' = daemon.modeOverride d /\ daemon.wg d' = daemon.wg d.
Proof.
  unfold daemon.cancelPipeline. destruct (String.eqb _ _); [by intros [= <- <-]|].
  destruct (stopPipeline env d w) as [[d1 w1] | |] eqn:Hstop; simpl; try discriminate.
  apply stopPipeline_frame in Hstop. subst. by intros [= <- <-].
Qed.

Lemma string_app_assoc (a b c : string) : a +:+ (b +:+ c) = (a +:+ b) +:+ c.
Proof.
  induction a as [| x a IH]; [reflexivity|].
  change (String x (a +:+ (b +:+ c)) = String x ((a +:+ b) +:+ c)). by f_equal.
Qed.

Lemma handle_frame (env : daemon.Env) (c : daemon.Conn) (d d' : daemon.Daemon)
    (w w' : W) (resp : string) :
  handle env c d w = Ret (resp, d', w') ->
  (daemon.modeOverride d' = daemon.modeOverride d
   \/ daemon.modeOverride d' = "raw" \/ daemon.modeOverride d' = "llm")
  /\ daemon.wg d' = daemon.wg d - 1
  /\ exists body, resp = body +:+ daemon.nl.
Proof.
  unfold daemon.handle. destruct (daemon.ReadString c) as [line [e |]].
  { intros [= <- <- _]. split; [by left|]. split; [reflexivity|].
    eexists. apply string_app_assoc. }
  destruct line as [| cmd rest].
  { intros [= <- <- _]. split; [by left|]. split; [reflexivity|]. by eexists. }
  destruct (Ascii.eqb cmd "t").
  { destruct (toggle env d w) as [[d1 w1] | |] eqn:Ht; simpl; try discriminate.
    destruct (toggle_frame _ _ _ _ _ Ht) as (Hm & Hwg & _).
    intros [= <- <- _]. simpl. split; [by left|]. split; [by rewrite Hwg | by eexists]. }
  destruct (Ascii.eqb cmd "c").
  { destruct (cancelPipeline env d w) as [[d1 w1] | |] eqn:Ht; simpl; try discriminate.
    destruct (cancelPipeline_frame _ _ _ _ _ Ht) as (Hm & Hwg).
    intros [= <- <- _]. simpl. split; [by left|]. split; [by rewrite Hwg | by eexists]. }
  destruct (Ascii.eqb cmd "s").
  { intros [= <- <- _]. split; [by left|]. split; [reflexivity|].
    eexists. apply string_app_assoc. }
  destruct (Ascii.eqb cmd "v").
  { intros [= <- <- _]. split; [by left|]. split; [reflexivity|].
    eexists. apply string_app_assoc. }
  destruct (Ascii.eqb cmd "q").
  { intros [= <- <- _]. split; [by left|]. split; [reflexivity|]. by eexists. }
  destruct (Ascii.eqb cmd "m").
  { destruct (String.eqb _ "").
    - destruct (daemon.getEffectiveMode d); simpl; try discriminate.
      intros [= <- <- _]. split; [by left|]. split; [reflexivity|].
      eexists. apply string_app_assoc.
    - destruct (strings.HasPrefix _ _).
      + set (newMode := strings.TrimPrefix _ _).
        destruct (String.eqb_spec newMode "raw") as [Hraw | _];
          [|destruct (String.eqb_spec newMode "llm") as [Hllm | _]]; simpl;
          intros [= <- <- _]; simpl.
        * split; [by right; left|]. split; [reflexivity|]. eexists. apply string_app_assoc.
        * split; [by right; right|]. split; [reflexivity|]. eexists. apply string_app_assoc.
        * split; [by left|]. split; [reflexivity|]. eexists. apply string_app_assoc.
      + intros [= <- <- _]. split; [by left|]. split; [reflexivity|]. by eexists. }
  intros [= <- <- _]. split; [by left|]. split; [reflexivity|].
  eexists. apply string_app_assoc.
Qed.



(** X7. The client's mode command against the handler: setting "raw" or
    "llm" is answered "OK mode=" with the mode, and the query that
    follows is answered "MODE mode=" with it, whatever the configuration
    file says; without override the query reports the mode of the current
    configuration.  The client reads these answers back whole. *)
Theorem mode_set_then_get (env env' : daemon.Env) (d : daemon.Daemon) (w : W) :
  (forall (mode : string) (c1 c2 : daemon.Conn),
      mode = "raw" \/ mode = "llm" ->
      daemon.readData c1 = client.SendModeCommand_request mode ->
      daemon.readData c2 = client.SendModeCommand_request "" ->
      exists d1,
        handle env c1 d w = Ret ("OK mode=" +:+ mode +:+ daemon.nl, d1, w)
        /\ handle env' c2 d1 w
           = Ret ("MODE mode=" +:+ mode +:+ daemon.nl, daemon.set_wg (daemon.wg d1 - 1) d1, w)
        /\ client.read_response ("MODE mode=" +:+ mode +:+ daemon.nl)
           = inl ("MODE mode=" +:+ mode +:+ daemon.nl))
  /\ (forall (c2 : daemon.Conn) (cfg : config.Config),
        daemon.modeOverride d = "" ->
        daemon.mem d !! daemon.configMgr d = Some cfg ->
        daemon.readData c2 = client.SendModeCommand_request "" ->
        handle env c2 d w
        = Ret ("MODE mode=" +:+ config.Mode (config.Processing cfg) +:+ daemon.nl,
               daemon.set_wg (daemon.wg d - 1) d, w)).
Proof.
  split.
  - intros mode c1 c2 Hmode Hc1 Hc2.
    exists (daemon.set_wg (daemon.wg d - 1) (daemon.setModeOverride mode d)).
    unfold daemon.handle, daemon.ReadString. rewrite Hc1, Hc2.
    destruct Hmode as [-> | ->]; repeat split; reflexivity.
  - intros c2 cfg Hov Hcfg Hc2.
    unfold daemon.handle, daemon.ReadString. rewrite Hc2. simpl.
    unfold daemon.getEffectiveMode, deref. rewrite Hov, Hcfg. reflexivity.
Qed.

(** X8. A toggle of an idle daemon creates a pipeline on the current
    configuration, with the window address it was given, and starts its
    worker.  Until the worker has made its first move the status of that
    pipeline is the empty string, not "idle" and not "recording": the
    status command answers "STATUS status=" and a further toggle does
    nothing at all. *)
Theorem toggle_before_worker_moves (env : daemon.Env) (d d1 : daemon.Daemon) (w w1 : W) :
  daemon.status d = pipeline.Idle ->
  toggle env d w = Ret (d1, w1) ->
  (exists p,
      daemon.pipeline d1 = Some p
      /\ pipeline.worker p = pipeline.AtStart
      /\ pipeline.running p = true
      /\ pipeline.windowAddress p = daemon.activeWindow env
      /\ pipeline.status p = "")
  /\ w1 = w
  /\ daemon.status d1 = ""
  /\ (forall env' : daemon.Env, toggle env' d1 w1 = Ret (d1, w1))
  /\ (forall (env' : daemon.Env) (c : daemon.Conn),
        daemon.readData c = client.SendCommand_request "s" ->
        handle env' c d1 w1
        = Ret ("STATUS status=" +:+ daemon.nl, daemon.set_wg (daemon.wg d1 - 1) d1, w1)).
Proof.
  intros Hidle. unfold daemon.toggle at 1. rewrite Hidle. simpl.
  destruct (daemon.getConfigWithModeOverride d) as [[ptr d0] | |]; simpl; try discriminate.
  assert (Hwin : pipeline.windowAddress
                   (if negb (String.eqb (daemon.activeWindow env) "")
                    then pipeline.SetWindowAddress (daemon.activeWindow env) (pipeline.New ptr)
                    else pipeline.New ptr) = daemon.activeWindow env).
  { destruct (String.eqb_spec (daemon.activeWindow env) "") as [-> | _]; reflexivity. }
  set (p0 := if negb _ then _ else _) in *.
  assert (Hp0 : pipeline.running p0 = false /\ pipeline.status p0 = "").
  { subst p0. by destruct (negb _). }
  destruct Hp0 as [Hrun0 Hst0].
  unfold pipeline.Run. rewrite Hrun0. simpl.
  destruct (deref _ _) as [cfg | |]; simpl; try discriminate.
  intros Heq. injection Heq as Hd Hw. subst d1 w1. simpl.
  split; [eexists; split; [reflexivity|]; simpl; by repeat split|].
  split; [reflexivity|]. split; [exact Hst0|]. split.
  - intros env'. unfold daemon.toggle, daemon.status. simpl. rewrite Hst0. reflexivity.
  - intros env' c Hc. unfold daemon.handle, daemon.ReadString. rewrite Hc. simpl.
    unfold daemon.status. simpl. rewrite Hst0. reflexivity.
Qed.

(** X9. A toggle while the status is "transcribing" puts one Inject in
    the action mailbox when it is empty, and notifies; when an action
    already waits there the send blocks, and with it the handler of the
    toggle command, which writes no response. *)
Theorem toggle_while_transcribing (env : daemon.Env) (d : daemon.Daemon)
    (p : pipeline.pipeline) (w : W) :
  daemon.pipeline d = Some p ->
  pipeline.status p = pipeline.Transcribing ->
  (pipeline.actionCh p = [] ->
   toggle env d w
   = Ret (daemon.notify (daemon.Notify "Hyprvoice" "Recording Ended... Transcribing")
            (daemon.set_pipeline
               (Some (pipeline.set_actionCh [pipeline.Inject] p)) d), w))
  /\ (pipeline.actionCh p <> [] ->
      toggle env d w = Block
      /\ forall c : daemon.Conn,
           daemon.readData c = client.SendCommand_request "t" ->
           handle env c d w = Block).
Proof.
  intros Hp Hst.
  assert (Hstatus : daemon.status d = pipeline.Transcribing).
  { unfold daemon.status. by rewrite Hp. }
  split.
  - intros Hact. unfold daemon.toggle. rewrite Hstatus, Hp, Hact. reflexivity.
  - intros Hact.
    assert (Hblock : toggle env d w = Block).
    { unfold daemon.toggle. rewrite Hstatus, Hp. simpl.
      destruct (pipeline.actionCh p); [contradiction | reflexivity]. }
    split; [exact Hblock|].
    intros c Hc. unfold daemon.handle, daemon.ReadString. rewrite Hc. simpl.
    by rewrite Hblock.
Qed.

(** X10. [stopPipeline] that returns leaves the daemon without pipeline,
    hence idle, and everything else as it was; done again, or followed by
    a cancel, it changes nothing and calls no collaborator.  On a daemon
    without pipeline it is a no-op from the start. *)
Theorem stopPipeline_idempotent (env : daemon.Env) (d d' : daemon.Daemon) (w w' : W) :
  stopPipeline env d w = Ret (d', w') ->
  d' = daemon.set_pipeline None d
  /\ daemon.status d' = pipeline.Idle
  /\ (daemon.pipeline d = None -> d' = d /\ w' = w)
  /\ (forall env' : daemon.Env,
        stopPipeline env' d' w' = Ret (d', w')
        /\ cancelPipeline env' d' w' = Ret (d', w')).
Proof.
  intros Hstop. pose proof (stopPipeline_frame _ _ _ _ _ Hstop) as ->.
  split; [reflexivity|]. split; [reflexivity|]. split.
  - intros Hnone. revert Hstop. unfold daemon.stopPipeline. rewrite Hnone.
    intros [= <-]. split; [|reflexivity]. destruct d. simpl in *. by subst.
  - intros env'. split; reflexivity.
Qed.

(** X11. Every connection whose handler returns gets exactly one write,
    a response that ends with a newline, and the wait group of the
    daemon, raised when the connection was accepted, is back at its value:
    no path through the handler skips the deferred [Done]. *)
Theorem handler_answers_and_releases (env : daemon.Env) (c : daemon.Conn)
    (d : daemon.Daemon) (w : W) :
  (forall (resp : string) (d' : daemon.Daemon) (w' : W),
      handle env c d w = Ret (resp, d', w') ->
      (exists body, resp = body +:+ daemon.nl) /\ daemon.wg d' = daemon.wg d - 1)
  /\ (forall (d' : daemon.Daemon) (w' : W),
        step (daemon.EvHandle env c) d w = Ret (d', w') -> daemon.wg d' = daemon.wg d).
Proof.
  split.
  - intros resp d' w' Hh. destruct (handle_frame _ _ _ _ _ _ _ Hh) as (_ & Hwg & Hbody).
    by split.
  - intros d' w'. simpl.
    destruct (handle env c _ w) as [[[resp d1] w1] | |] eqn:Hh; simpl; try discriminate.
    intros [= <- <-]. destruct (handle_frame _ _ _ _ _ _ _ Hh) as (_ & Hwg & _).
    rewrite Hwg. simpl. lia.
Qed.

End DaemonProperties.


Lemma mode_set_then_get_witness :
  exists d1,
    sample_handle (sends (client.SendModeCommand_request "llm")) sample_daemon []
    = Ret ("OK mode=llm" +:+ daemon.nl, d1, [])
    /\ sample_handle (sends (client.SendModeCommand_request "")) d1 []
       = Ret ("MODE mode=llm" +:+ daemon.nl, daemon.set_wg (daemon.wg d1 - 1) d1, []).
Proof.
  destruct (mode_set_then_get (log_recorder_Start false) log_recorder_Stop
              log_NewTranscriber log_transcriber_Start log_transcriber_Stop
              log_GetFinalTranscription (log_backend "ydotool") (log_backend "wtype")
              (log_backend "clipboard") id id "1" sample_env sample_env sample_daemon [])
    as (Hset & _).
  destruct (Hset "llm" (sends (client.SendModeCommand_request "llm"))
              (sends (client.SendModeCommand_request "")))
    as (d1 & H1 & H2 & _); [by right | reflexivity | reflexivity |].
  exists d1. by split.
Defined.

Lemma toggle_before_worker_moves_witness :
  exists d1 w1,
    sample_toggle (daemon.set_pipeline None sample_daemon) [] = Ret (d1, w1)
    /\ daemon.status d1 = ""
    /\ sample_toggle d1 w1 = Ret (d1, w1).
Proof.
  destruct (sample_toggle (daemon.set_pipeline None sample_daemon) [])
    as [[d1 w1] | |] eqn:Hrun;
    [| vm_compute in Hrun; discriminate | vm_compute in Hrun; discriminate].
  exists d1, w1. split; [reflexivity|].
  destruct (toggle_before_worker_moves (log_recorder_Start false) log_recorder_Stop
              log_NewTranscriber log_transcriber_Start log_transcriber_Stop
              log_GetFinalTranscription (log_backend "ydotool") (log_backend "wtype")
              (log_backend "clipboard") id id "1" sample_env
              (daemon.set_pipeline None sample_daemon) d1 [] w1 eq_refl Hrun)
    as (_ & _ & Hst & Hagain & _).
  split; [exact Hst | apply Hagain].
Defined.

Lemma toggle_while_transcribing_witness :
  sample_toggle sample_daemon []
  = Ret (daemon.notify (daemon.Notify "Hyprvoice" "Recording Ended... Transcribing")
           (daemon.set_pipeline
              (Some (pipeline.set_actionCh [pipeline.Inject] sample_looping)) sample_daemon),
         []).
Proof.
  apply (toggle_while_transcribing (log_recorder_Start false) log_recorder_Stop
           log_NewTranscriber log_transcriber_Start log_transcriber_Stop
           log_GetFinalTranscription (log_backend "ydotool") (log_backend "wtype")
           (log_backend "clipboard") id id "1" sample_env sample_daemon sample_looping []);
    reflexivity.
Defined.

Lemma stopPipeline_idempotent_witness :
  exists d' w',
    sample_stopPipeline sample_daemon [] = Ret (d', w')
    /\ daemon.pipeline d' = None
    /\ sample_stopPipeline d' w' = Ret (d', w').
Proof.
  destruct (sample_stopPipeline sample_daemon []) as [[d' w'] | |] eqn:Hrun;
    [| vm_compute in Hrun; discriminate | vm_compute in Hrun; discriminate].
  exists d', w'. split; [reflexivity|].
  destruct (stopPipeline_idempotent (log_recorder_Start false) log_recorder_Stop
              log_NewTranscriber log_transcriber_Start log_transcriber_Stop
              log_GetFinalTranscription (log_backend "ydotool") (log_backend "wtype")
              (log_backend "clipboard") stopping_env sample_daemon d' [] w' Hrun)
    as (Hd' & _ & _ & Hagain).
  split; [by rewrite Hd' | apply Hagain].
Defined.

Lemma handler_answers_and_releases_witness :
  exists body,
    sample_handle (sends (client.SendCommand_request "s")) sample_daemon []
    = Ret (body +:+ daemon.nl, daemon.set_wg 0 sample_daemon, []).
Proof.
  destruct (handler_answers_and_releases (log_recorder_Start false) log_recorder_Stop
              log_NewTranscriber log_transcriber_Start log_transcriber_Stop
              log_GetFinalTranscription (log_backend "ydotool") (log_backend "wtype")
              (log_backend "clipboard") id id "1" sample_env
              (sends (client.SendCommand_request "s")) sample_daemon []) as (Hone & _).
  destruct (Hone ("STATUS status=transcribing" +:+ daemon.nl)
              (daemon.set_wg 0 sample_daemon) []) as ((body & Hbody) & _); [reflexivity|].
  exists body. unfold sample_handle. rewrite <- Hbody. reflexivity.
Defined.

(** ** The helpers of the configuration dialogue *)

Section CliHelpers.

Lemma string_app_cons (c : ascii) (a b : string) :
  String c a +:+ b = String c (a +:+ b).
Proof. reflexivity. Qed.





Lemma substring_prefix (n : nat) (s : string) :
  (n <= String.length s)%nat ->
  String.length (String.substring 0 n s) = n
  /\ exists post, s = String.substring 0 n s +:+ post.
Proof.
  revert s. induction n as [|n IH]; intros s Hn.
  - destruct s; (split; [reflexivity|]); eexists; reflexivity.
  - destruct s as [|c r]; [cbn in Hn; lia|].
    cbn in Hn. destruct (IH r) as (Hlen & post & Hpost); [lia|].
    cbn [String.substring]. split; [cbn; by rewrite Hlen|].
    exists post. rewrite string_app_cons. by rewrite <- Hpost.
Qed.

Lemma string_length_app (a b : string) :
  String.length (a +:+ b) = (String.length a + String.length b)%nat.
Proof. induction a as [|c a IH]; [reflexivity|]. rewrite string_app_cons. cbn. by rewrite IH. Qed.

(** X13. With room for the three dots, [truncateString] returns at most
    [maxLen] bytes: the string itself when it fits, and otherwise exactly
    [maxLen] bytes, a prefix of the string followed by three dots.  It
    panics on the slice exactly when [maxLen] is below 3 and the string
    is longer than [maxLen]. *)
Theorem truncateString_bounded (s : string) (maxLen : Z) :
  (3 <= maxLen ->
   exists t, cmd.truncateString s maxLen = Ret t
     /\ Z.of_nat (String.length t) <= maxLen
     /\ (Z.of_nat (String.length s) <= maxLen -> t = s)
     /\ (maxLen < Z.of_nat (String.length s) ->
         Z.of_nat (String.length t) = maxLen
         /\ exists pre post, s = pre +:+ post /\ t = pre +:+ "..."))
  /\ (cmd.truncateString s maxLen = Crash
      <-> maxLen < 3 /\ maxLen < Z.of_nat (String.length s)).
Proof.
  unfold cmd.truncateString. split.
  - intros Hmax. destruct (Z.leb_spec (Z.of_nat (String.length s)) maxLen) as [Hfit|Hlong].
    + exists s. split; [reflexivity|]. split; [done|]. split; [done|lia].
    + destruct (Z.ltb_spec (maxLen - 3) 0) as [?|_]; [lia|].
      destruct (substring_prefix (Z.to_nat (maxLen - 3)) s) as (Hlen & post & Hpost); [lia|].
      eexists. split; [reflexivity|].
      assert (Z.of_nat (String.length (String.substring 0 (Z.to_nat (maxLen - 3)) s +:+ "..."))
              = maxLen) as Hlen'.
      { rewrite string_length_app, Hlen. cbn. lia. }
      split; [lia|]. split; [lia|]. split; [done|]. eauto.
  - destruct (Z.leb_spec (Z.of_nat (String.length s)) maxLen) as [Hfit|Hlong].
    + split; [done|lia].
    + destruct (Z.ltb_spec (maxLen - 3) 0) as [?|?]; split; try done; lia.
Qed.

End CliHelpers.

Lemma truncateString_bounded_witness :
  exists t, cmd.truncateString "Rewrite the transcript as a formal letter, keep every name as it was said" 60 = Ret t
    /\ Z.of_nat (String.length t) <= 60.
Proof.
  destruct (truncateString_bounded
              "Rewrite the transcript as a formal letter, keep every name as it was said" 60)
    as (Hret & _).
  destruct Hret as (t & Ht & Hlen & _); [lia|]. by exists t.
Defined.

(** ** The lockfile written and removed by the daemon *)

Section PidFile.






End PidFile.


(** ** The validation of the configuration *)

Section ValidateProperties.
Variable Getenv : string -> string.
Variable Duration_String : Z -> string.
Variable Quote : string -> string.
Context {W Ctx : Type}.
Variable ydotool_Inject wtype_Inject clipboard_Inject :
  Ctx -> string -> Z -> string -> W -> option error * W.

Local Abbreviation NewInjector :=
  (injection.NewInjector ydotool_Inject wtype_Inject clipboard_Inject).
Local Abbreviation named :=
  (backend_named ydotool_Inject wtype_Inject clipboard_Inject).

Local Abbreviation Validate := (config.Validate Getenv Duration_String Quote).
Local Abbreviation Validate_LLM := (config.Validate_LLM Getenv).

Lemma lookup_true_elem (keys : list string) (k : string) :
  config.lookup_true keys k = true <-> k ∈ keys.
Proof.
  unfold config.lookup_true. rewrite existsb_exists. split.
  - intros (x & Hx & Heq). apply String.eqb_eq in Heq. subst. by apply list_elem_of_In.
  - intros Hk. exists k. split; [by apply list_elem_of_In | apply String.eqb_refl].
Qed.

Ltac split_if H :=
  match type of H with
  | context [if ?b then _ else _] => destruct b eqn:?; try discriminate H
  end.

Ltac rewrite_eqb :=
  repeat match goal with
         | H : ?x = ?b |- context [?x] =>
             lazymatch x with true => fail | false => fail | _ => idtac end;
             lazymatch b with true => idtac | false => idtac end;
             rewrite !H
         end.

Lemma Validate_LLM_ok (c c' : config.Config) :
  Validate_LLM c = (None, c') ->
  Validate_LLM c' = (None, c')
  /\ config.Processing c' = config.Processing c
  /\ config.LLM_Provider (config.LLM c') = "openai"
  /\ config.LLM_Model (config.LLM c') <> ""
  /\ config.Level (config.LLM c') ∈ ["minimal"; "moderate"; "thorough"; "custom"]
  /\ (config.Level (config.LLM c') = "custom" -> config.CustomPrompt (config.LLM c') <> "")
  /\ (if String.eqb (config.LLM_APIKey (config.LLM c')) "" then Getenv "OPENAI_API_KEY"
      else config.LLM_APIKey (config.LLM c')) <> "".
Proof.
  destruct c as [R T I N P [lp lk lm ll lc]].
  unfold config.Validate_LLM. cbn.
  destruct (String.eqb lp "") eqn:Hlp; cbn;
  destruct (String.eqb lm "") eqn:Hlm; cbn;
  destruct (String.eqb ll "") eqn:Hll; cbn;
  intros H; repeat split_if H; injection H as <-; cbn;
  repeat (progress (rewrite_eqb; cbn)).
  all: split; [reflexivity|].
  all: repeat match goal with |- _ /\ _ => split end.
  all: try done.
  all: try (apply lookup_true_elem; unfold config.lookup_true; cbn; by apply negb_false_iff).
  all: try (by apply String.eqb_eq, negb_false_iff).
  all: try (by apply String.eqb_neq).
  all: try (intros Hk; rewrite Hk in *; discriminate).
  all: intros ->; cbn in *; by apply String.eqb_neq.
Qed.

Lemma Validate_LLM_frame (c : config.Config) :
  let c' := snd (Validate_LLM c) in
  config.Recording c' = config.Recording c
  /\ config.Transcription c' = config.Transcription c
  /\ config.Injection c' = config.Injection c
  /\ config.Notifications c' = config.Notifications c
  /\ config.Processing c' = config.Processing c
  /\ filled_in (config.LLM_Provider (config.LLM c)) (config.LLM_Provider (config.LLM c')) "openai"
  /\ filled_in (config.LLM_Model (config.LLM c)) (config.LLM_Model (config.LLM c')) "gpt-4o-mini"
  /\ filled_in (config.Level (config.LLM c)) (config.Level (config.LLM c')) "moderate"
  /\ config.LLM_APIKey (config.LLM c') = config.LLM_APIKey (config.LLM c)
  /\ config.CustomPrompt (config.LLM c') = config.CustomPrompt (config.LLM c).
Proof.
  destruct c as [R T I N P [lp lk lm ll lc]].
  unfold config.Validate_LLM, filled_in. cbn.
  destruct (String.eqb_spec lp "") as [->|?]; cbn;
  destruct (String.eqb_spec lm "") as [->|?]; cbn;
  destruct (String.eqb_spec ll "") as [->|?]; cbn;
  repeat match goal with
         | |- context [if ?b then _ else _] => destruct b
         end; cbn; repeat split; auto.
Qed.

Lemma Validate_ok_inv (c c' : config.Config) :
  Validate c = (None, c') ->
  config.Validate_Recording Duration_String c = None
  /\ config.Validate_Transcription Getenv c = None
  /\ config.Validate_Injection Duration_String Quote c = None
  /\ config.Validate_Notifications c = None
  /\ exists c1,
      c1 = (if String.eqb (config.Mode (config.Processing c)) ""
            then config.set_Processing_Mode c "raw" else c)
      /\ config.Mode (config.Processing c1) ∈ ["raw"; "llm"]
      /\ (if String.eqb (config.Mode (config.Processing c1)) "llm"
          then Validate_LLM c1 = (None, c') else c' = c1).
Proof.
  unfold config.Validate.
  destruct (config.Validate_Recording _ c); [discriminate|].
  destruct (config.Validate_Transcription _ c); [discriminate|].
  destruct (config.Validate_Injection _ _ c); [discriminate|].
  destruct (config.Validate_Notifications c); [discriminate|].
  intros H. repeat split. eexists. split; [reflexivity|].
  set (c1 := if String.eqb _ "" then _ else c) in *.
  destruct (negb (config.lookup_true _ _)) eqn:Hmode; [discriminate H|].
  apply negb_false_iff, lookup_true_elem in Hmode. split; [exact Hmode|].
  destruct (String.eqb _ "llm"); [exact H | by injection H].
Qed.

Lemma Validate_sections (c c' : config.Config) :
  config.Recording c' = config.Recording c ->
  config.Transcription c' = config.Transcription c ->
  config.Injection c' = config.Injection c ->
  config.Notifications c' = config.Notifications c ->
  config.Validate_Recording Duration_String c' = config.Validate_Recording Duration_String c
  /\ config.Validate_Transcription Getenv c' = config.Validate_Transcription Getenv c
  /\ config.Validate_Injection Duration_String Quote c'
     = config.Validate_Injection Duration_String Quote c
  /\ config.Validate_Notifications c' = config.Validate_Notifications c.
Proof.
  intros HR HT HI HN.
  unfold config.Validate_Recording, config.Validate_Transcription,
    config.Validate_key_language, config.Validate_Injection, config.Validate_Notifications.
  by rewrite HR, HT, HI, HN.
Qed.

Lemma Validate_keeps_sections (c : config.Config) :
  let c' := snd (Validate c) in
  config.Recording c' = config.Recording c
  /\ config.Transcription c' = config.Transcription c
  /\ config.Injection c' = config.Injection c
  /\ config.Notifications c' = config.Notifications c.
Proof.
  unfold config.Validate.
  destruct (config.Validate_Recording _ c); [cbn; by repeat split|].
  destruct (config.Validate_Transcription _ c); [cbn; by repeat split|].
  destruct (config.Validate_Injection _ _ c); [cbn; by repeat split|].
  destruct (config.Validate_Notifications c); [cbn; by repeat split|].
  set (c1 := if String.eqb _ "" then _ else c).
  assert (config.Recording c1 = config.Recording c
          /\ config.Transcription c1 = config.Transcription c
          /\ config.Injection c1 = config.Injection c
          /\ config.Notifications c1 = config.Notifications c) as (HR & HT & HI & HN).
  { subst c1. by destruct (String.eqb (config.Mode (config.Processing c)) ""). }
  destruct (negb (config.lookup_true _ _)); [by cbn|].
  destruct (String.eqb (config.Mode (config.Processing c1)) "llm"); [|by cbn].
  destruct (Validate_LLM_frame c1) as (R' & T' & I' & N' & _).
  cbn zeta in *. by rewrite R', T', I', N'.
Qed.

(** The four sections of an accepted configuration pass their checks
    again. *)
Lemma Validate_ok_sections (c c' : config.Config) :
  Validate c = (None, c') ->
  config.Validate_Recording Duration_String c' = None
  /\ config.Validate_Transcription Getenv c' = None
  /\ config.Validate_Injection Duration_String Quote c' = None
  /\ config.Validate_Notifications c' = None.
Proof.
  intros H. destruct (Validate_ok_inv c c' H) as (HR & HT & HI & HN & _).
  pose proof (Validate_keeps_sections c) as Hframe. cbn zeta in Hframe.
  rewrite H in Hframe. cbn [snd] in Hframe.
  destruct Hframe as (R' & T' & I' & N').
  destruct (Validate_sections c c' R' T' I' N') as (ER & ET & EI & EN).
  by rewrite ER, ET, EI, EN.
Qed.

Lemma Validate_ok_mode (c c' : config.Config) :
  Validate c = (None, c') ->
  config.Mode (config.Processing c') ∈ ["raw"; "llm"]
  /\ (config.Mode (config.Processing c') = "llm" -> Validate_LLM c' = (None, c')).
Proof.
  intros H. destruct (Validate_ok_inv c c' H) as (_ & _ & _ & _ & c1 & _ & Hmode & Hrest).
  destruct (String.eqb_spec (config.Mode (config.Processing c1)) "llm") as [Hllm|Hraw].
  - destruct (Validate_LLM_ok c1 c' Hrest) as (Hidem & HP & _).
    rewrite HP. by split.
  - subst c'. by split.
Qed.

(** X16. Whatever it returns, [Validate] leaves the recording, the
    transcription, the injection and the notification sections, the LLM
    key and the custom prompt as they were.  The only fields it writes
    are the processing mode and the provider, model and level of the LLM
    section, and each of them only when it was empty, with its default:
    "raw", "openai", "gpt-4o-mini" and "moderate".  When the mode it
    leaves is not "llm", the LLM section is untouched. *)
Theorem Validate_only_fills_defaults (c : config.Config) :
  let c' := snd (Validate c) in
  config.Recording c' = config.Recording c
  /\ config.Transcription c' = config.Transcription c
  /\ config.Injection c' = config.Injection c
  /\ config.Notifications c' = config.Notifications c
  /\ filled_in (config.Mode (config.Processing c)) (config.Mode (config.Processing c')) "raw"
  /\ filled_in (config.LLM_Provider (config.LLM c)) (config.LLM_Provider (config.LLM c')) "openai"
  /\ filled_in (config.LLM_Model (config.LLM c)) (config.LLM_Model (config.LLM c')) "gpt-4o-mini"
  /\ filled_in (config.Level (config.LLM c)) (config.Level (config.LLM c')) "moderate"
  /\ config.LLM_APIKey (config.LLM c') = config.LLM_APIKey (config.LLM c)
  /\ config.CustomPrompt (config.LLM c') = config.CustomPrompt (config.LLM c)
  /\ (config.Mode (config.Processing c') <> "llm" -> config.LLM c' = config.LLM c).
Proof.
  assert (forall x d, filled_in x x d) as Hsame by (intros; by left).
  unfold config.Validate.
  destruct (config.Validate_Recording _ c); [cbn; by repeat split|].
  destruct (config.Validate_Transcription _ c); [cbn; by repeat split|].
  destruct (config.Validate_Injection _ _ c); [cbn; by repeat split|].
  destruct (config.Validate_Notifications c); [cbn; by repeat split|].
  set (c1 := if String.eqb _ "" then _ else c).
  assert (config.Recording c1 = config.Recording c
          /\ config.Transcription c1 = config.Transcription c
          /\ config.Injection c1 = config.Injection c
          /\ config.Notifications c1 = config.Notifications c
          /\ filled_in (config.Mode (config.Processing c)) (config.Mode (config.Processing c1)) "raw"
          /\ config.LLM c1 = config.LLM c) as (HR & HT & HI & HN & HM & HL).
  { subst c1. destruct (String.eqb_spec (config.Mode (config.Processing c)) "") as [Hm|_].
    - cbn. repeat split. right. by split.
    - by repeat split. }
  destruct (negb (config.lookup_true _ _)).
  { cbn. rewrite HL. by repeat split. }
  destruct (String.eqb_spec (config.Mode (config.Processing c1)) "llm") as [Hllm|Hraw].
  - destruct (Validate_LLM_frame c1) as (R' & T' & I' & N' & P' & F1 & F2 & F3 & K' & C').
    cbn zeta in *. rewrite R', T', I', N', P', K', C'. rewrite HL in *.
    by repeat split.
  - cbn. rewrite HL. by repeat split.
Qed.

(** X17. A configuration that [Validate] has accepted, defaults filled
    in, is accepted again under the same environment and is not changed
    by the second call. *)
Theorem Validate_idempotent (c c' : config.Config) :
  Validate c = (None, c') -> Validate c' = (None, c').
Proof.
  intros H. destruct (Validate_ok_sections c c' H) as (HR & HT & HI & HN).
  destruct (Validate_ok_mode c c' H) as (Hmode & Hllm).
  unfold config.Validate. rewrite HR, HT, HI, HN.
  assert (String.eqb (config.Mode (config.Processing c')) "" = false) as ->.
  { apply String.eqb_neq. intros Hempty. rewrite Hempty in Hmode.
    rewrite !elem_of_cons, elem_of_nil in Hmode. by destruct Hmode as [?|[?|[]]]. }
  apply lookup_true_elem in Hmode. rewrite Hmode. cbn [negb].
  destruct (String.eqb_spec (config.Mode (config.Processing c')) "llm") as [Hm|_];
    [by apply Hllm | reflexivity].
Qed.

Lemma Validate_Transcription_ok (c : config.Config) :
  config.Validate_Transcription Getenv c = None ->
  transcriber.Provider (config.ToTranscriberConfig Getenv c)
    ∈ ["openai"; "groq-transcription"; "groq-translation"]
  /\ transcriber.APIKey (config.ToTranscriberConfig Getenv c) <> ""
  /\ transcriber.Model (config.ToTranscriberConfig Getenv c) <> "".
Proof.
  destruct c as [R [p k l m] I N P L].
  unfold config.Validate_Transcription, config.Validate_key_language,
    config.ToTranscriberConfig, config.Errorf. cbn.
  intros H.
  destruct (String.eqb_spec p "") as [|_]; [discriminate H|].
  destruct (String.eqb_spec m "") as [->|Hm].
  { repeat split_if H. }
  destruct (String.eqb_spec p "openai") as [->|_]; cbn;
    [|destruct (String.eqb_spec p "groq-transcription") as [->|_]; cbn;
      [|destruct (String.eqb_spec p "groq-translation") as [->|_]; cbn;
        [|discriminate H]]].
  all: (split; [rewrite !elem_of_cons; auto|]); (split; [|done]).
  all: destruct (String.eqb_spec k "") as [->|Hk]; [|done].
  all: intros Hkey; rewrite Hkey in H; discriminate H.
Qed.

Lemma Validate_Injection_ok (c : config.Config) :
  config.Validate_Injection Duration_String Quote c = None ->
  config.Backends (config.Injection c) <> []
  /\ Forall known_backend (config.Backends (config.Injection c))
  /\ 0 < config.YdotoolTimeout (config.Injection c)
  /\ 0 < config.WtypeTimeout (config.Injection c)
  /\ 0 < config.ClipboardTimeout (config.Injection c).
Proof.
  unfold config.Validate_Injection, config.Errorf.
  destruct (config.Backends (config.Injection c)) as [|b bs] eqn:Hbs; [discriminate|].
  change (Z.of_nat (length (b :: bs)) =? 0) with false. cbv iota.
  destruct (find _ (b :: bs)) eqn:Hfind; [discriminate|].
  destruct (Z.leb_spec (config.YdotoolTimeout (config.Injection c)) 0); [discriminate|].
  destruct (Z.leb_spec (config.WtypeTimeout (config.Injection c)) 0); [discriminate|].
  destruct (Z.leb_spec (config.ClipboardTimeout (config.Injection c)) 0); [discriminate|].
  intros _. split; [done|]. split; [|done].
  apply Forall_forall. intros x Hx.
  apply list_elem_of_In in Hx. apply (find_none _ _ Hfind) in Hx.
  apply negb_false_iff, lookup_true_elem in Hx. exact Hx.
Qed.

Lemma named_Name (name : string) :
  known_backend name -> injection.Name (named name) = name.
Proof.
  unfold known_backend, backend_named. rewrite !elem_of_cons, elem_of_nil.
  intros [-> | [-> | [-> | []]]]; reflexivity.
Qed.

Lemma filter_known_all (names : list string) :
  Forall known_backend names -> filter known_backend names = names.
Proof.
  induction 1 as [|x l Hx _ IH]; [reflexivity|].
  rewrite filter_cons. destruct (decide (known_backend x)); [by rewrite IH | done].
Qed.

Lemma named_Names (names : list string) :
  Forall known_backend names -> map injection.Name (map named names) = names.
Proof.
  induction 1 as [|x l Hx _ IH]; [reflexivity|].
  cbn [map]. by rewrite IH, named_Name.
Qed.

(** X18. For a configuration that [Validate] has accepted, the chain
    [NewInjector] builds from [ToInjectionConfig] has exactly the
    configured backend names, in their order: none is skipped and the
    clipboard fallback is not needed.  Every backend of the chain gets a
    positive timeout. *)
Theorem validated_chain_is_configured (c c' : config.Config) :
  Validate c = (None, c') ->
  let i := NewInjector (config.ToInjectionConfig c') in
  config.Backends (config.Injection c') <> []
  /\ map injection.Name (injection.backends i) = config.Backends (config.Injection c')
  /\ forall b, b ∈ injection.backends i ->
       0 < injection.getTimeout i (injection.Name b).
Proof.
  intros H. destruct (Validate_ok_sections c c' H) as (_ & _ & HI & _).
  destruct (Validate_Injection_ok c' HI) as (Hne & Hknown & HY & HW & HC).
  cbn zeta.
  rewrite (NewInjector_backends ydotool_Inject wtype_Inject clipboard_Inject).
  cbn [config.ToInjectionConfig injection.Backends].
  rewrite (filter_known_all _ Hknown).
  destruct (config.Backends (config.Injection c')) as [|b0 bs] eqn:Hbs; [done|].
  split; [done|]. split.
  - by apply named_Names.
  - intros b Hb. apply list_elem_of_fmap in Hb as (name & -> & Hname).
    rewrite Forall_forall in Hknown. specialize (Hknown name Hname).
    rewrite named_Name by done.
    unfold injection.getTimeout. cbn [injection.injector_config injection.NewInjector
      config.ToInjectionConfig injection.YdotoolTimeout injection.WtypeTimeout
      injection.ClipboardTimeout].
    unfold known_backend in Hknown. rewrite !elem_of_cons, elem_of_nil in Hknown.
    destruct Hknown as [-> | [-> | [-> | []]]]; cbn; assumption.
Qed.

(** X19. For a configuration that [Validate] has accepted, the
    transcriber configuration names one of the three providers and has
    an API key, from the file or from the environment, and a model; the
    mode is "raw" or "llm"; and when it is "llm", the LLM configuration
    has provider "openai", an API key, a model and one of the four
    levels, the level of the file itself, with a custom prompt when the
    level is "custom". *)
Theorem validated_adapters_are_complete (c c' : config.Config) :
  Validate c = (None, c') ->
  transcriber.Provider (config.ToTranscriberConfig Getenv c')
    ∈ ["openai"; "groq-transcription"; "groq-translation"]
  /\ transcriber.APIKey (config.ToTranscriberConfig Getenv c') <> ""
  /\ transcriber.Model (config.ToTranscriberConfig Getenv c') <> ""
  /\ config.Mode (config.Processing c') ∈ ["raw"; "llm"]
  /\ (config.Mode (config.Processing c') = "llm" ->
      llm.Provider (config.ToLLMConfig Getenv c') = "openai"
      /\ llm.APIKey (config.ToLLMConfig Getenv c') <> ""
      /\ llm.Model (config.ToLLMConfig Getenv c') <> ""
      /\ llm.Level (config.ToLLMConfig Getenv c') ∈ ["minimal"; "moderate"; "thorough"; "custom"]
      /\ llm.Level (config.ToLLMConfig Getenv c') = config.Level (config.LLM c')
      /\ (llm.Level (config.ToLLMConfig Getenv c') = "custom" ->
          llm.CustomPrompt (config.ToLLMConfig Getenv c') <> "")).
Proof.
  intros H. destruct (Validate_ok_sections c c' H) as (_ & HT & _ & _).
  destruct (Validate_Transcription_ok c' HT) as (Hp & Hk & Hm).
  destruct (Validate_ok_mode c c' H) as (Hmode & Hrest).
  repeat (split; [assumption|]).
  intros Hllm. specialize (Hrest Hllm).
  destruct (Validate_LLM_ok c' c' Hrest) as (_ & _ & Hprov & Hmodel & Hlevel & Hcustom & Hkey).
  unfold config.ToLLMConfig. cbn.
  assert (String.eqb (config.Level (config.LLM c')) "" = false) as ->.
  { apply String.eqb_neq. intros Hempty. rewrite Hempty in Hlevel.
    rewrite !elem_of_cons, elem_of_nil in Hlevel. by destruct Hlevel as [?|[?|[?|[?|[]]]]]. }
  by repeat split.
Qed.

(** X20. The backends [Load] gives a file without a backend list are
    known names and at least one, whatever the legacy mode says.  The
    injection checks of [Validate] accept the migrated configuration
    exactly when the wtype and clipboard timeouts of the file are
    positive and its ydotool timeout is not negative: a missing ydotool
    timeout gets its default, the two others do not. *)
Theorem migrated_backends_pass (c : config.Config) (mode : string) :
  config.Backends (config.Injection c) = [] ->
  let c' := config.Load_migrate c mode in
  Forall known_backend (config.Backends (config.Injection c'))
  /\ config.Backends (config.Injection c') <> []
  /\ (config.Validate_Injection Duration_String Quote c' = None
      <-> 0 <= config.YdotoolTimeout (config.Injection c)
          /\ 0 < config.WtypeTimeout (config.Injection c)
          /\ 0 < config.ClipboardTimeout (config.Injection c)).
Proof.
  intros Hb. unfold config.Load_migrate. rewrite Hb.
  change (Z.of_nat (@length string []) =? 0) with true. cbv iota.
  cbn zeta. unfold config.migrateInjectionMode.
  set (bs := if String.eqb mode "clipboard" then _ else _).
  assert (bs <> [] /\ Forall known_backend bs
          /\ find (fun backend =>
                     negb (config.lookup_true ["ydotool"; "wtype"; "clipboard"] backend)) bs
             = None
          /\ (Z.of_nat (length bs) =? 0) = false) as (Hne & Hknown & Hfind & Hlen).
  { subst bs. unfold known_backend.
    destruct (String.eqb mode "clipboard"); [|destruct (String.eqb mode "type");
      [|destruct (String.eqb mode "fallback")]];
      (split; [done|]); (split; [|by split]);
      repeat (apply Forall_cons_2; [rewrite !elem_of_cons; auto 6|]); apply Forall_nil_2. }
  clearbody bs.
  cbn [config.set_Injection config.Injection config.Backends].
  split; [done|]. split; [done|].
  unfold config.Validate_Injection, config.Errorf.
  cbn [config.set_Injection config.Injection config.Backends config.YdotoolTimeout
       config.WtypeTimeout config.ClipboardTimeout].
  rewrite Hlen, Hfind.
  change time.Second with 1000000000.
  destruct (Z.eqb_spec (config.YdotoolTimeout (config.Injection c)) 0) as [HY0|HY0].
  - rewrite HY0. cbn [Z.leb Z.mul Pos.mul Z.compare].
    destruct (Z.leb_spec (config.WtypeTimeout (config.Injection c)) 0);
      [split; [discriminate|lia]|].
    destruct (Z.leb_spec (config.ClipboardTimeout (config.Injection c)) 0);
      [split; [discriminate|lia]|].
    split; [lia|done].
  - destruct (Z.leb_spec (config.YdotoolTimeout (config.Injection c)) 0);
      [split; [discriminate|lia]|].
    destruct (Z.leb_spec (config.WtypeTimeout (config.Injection c)) 0);
      [split; [discriminate|lia]|].
    destruct (Z.leb_spec (config.ClipboardTimeout (config.Injection c)) 0);
      [split; [discriminate|lia]|].
    split; [lia|done].
Qed.

Lemma levelPrompts_lookup (level prompt : string) :
  llm.levelPrompts !! level = Some prompt <->
  (level = "minimal" /\ prompt = llm.prompt_minimal)
  \/ (level = "moderate" /\ prompt = llm.prompt_moderate)
  \/ (level = "thorough" /\ prompt = llm.prompt_thorough).
Proof.
  unfold llm.levelPrompts.
  rewrite !lookup_insert_Some, lookup_singleton_Some. split.
  - intros [[<- <-] | [? [[<- <-] | [? [<- <-]]]]]; auto.
  - intros [[-> ->] | [[-> ->] | [-> ->]]]; [by left | right | right].
    + split; [done|]. by left.
    + split; [done|]. right. by split.
Qed.

Lemma levelPrompts_nonempty (level prompt : string) :
  llm.levelPrompts !! level = Some prompt -> prompt <> "".
Proof.
  intros [[_ ->] | [[_ ->] | [_ ->]]]%levelPrompts_lookup; discriminate.
Qed.

Lemma levelPrompts_known (level prompt : string) :
  llm.levelPrompts !! level = Some prompt -> level ∈ ["minimal"; "moderate"; "thorough"].
Proof.
  intros [[-> _] | [[-> _] | [-> _]]]%levelPrompts_lookup; rewrite !elem_of_cons; auto.
Qed.

Lemma getPromptForLevel_custom (customPrompt : string) :
  customPrompt <> "" -> llm.getPromptForLevel "custom" customPrompt = customPrompt.
Proof.
  intros Hne. unfold llm.getPromptForLevel.
  by destruct (String.eqb_spec customPrompt "").
Qed.

(** X24. [getPromptForLevel] never returns the empty string.  It
    returns the custom prompt when the level is "custom" and the prompt
    is not empty; for a level that is none of "minimal", "moderate" and
    "thorough", the level "custom" with an empty prompt included, it
    returns the prompt of "moderate". *)
Theorem getPromptForLevel_never_empty (level customPrompt : string) :
  llm.getPromptForLevel level customPrompt <> ""
  /\ (level = "custom" -> customPrompt <> "" ->
      llm.getPromptForLevel level customPrompt = customPrompt)
  /\ (level ∉ ["minimal"; "moderate"; "thorough"] ->
      level <> "custom" \/ customPrompt = "" ->
      llm.getPromptForLevel level customPrompt = llm.prompt_moderate).
Proof.
  unfold llm.getPromptForLevel.
  assert (llm.levelPrompts !! "moderate" = Some llm.prompt_moderate) as Hmod.
  { apply levelPrompts_lookup. auto. }
  rewrite Hmod. clear Hmod. cbn [default from_option id].
  destruct (String.eqb_spec level "custom") as [->|Hlevel];
    destruct (String.eqb_spec customPrompt "") as [->|Hcustom]; cbn [andb negb].
  2:{ split; [assumption|]. split; [reflexivity|]. intros _ [?|?]; contradiction. }
  all: destruct (llm.levelPrompts !! _) as [prompt|] eqn:Hp.
  all: split; [first [by eapply levelPrompts_nonempty | discriminate]|].
  all: split; [intros; congruence|].
  all: try reflexivity.
  all: intros Hnot _; exfalso; apply Hnot; by eapply levelPrompts_known.
Qed.

(** X23. For a configuration that [Validate] has accepted in the mode
    "llm", [NewProcessor] on [ToLLMConfig] returns the OpenAI processor,
    whose client is made with a key that is not empty, and
    [getPromptForLevel] does not fall back on the prompt of "moderate":
    it gives the custom prompt of the file when the level is "custom",
    and otherwise the prompt [levelPrompts] holds for the level. *)
Theorem validated_llm_prompt (c c' : config.Config) :
  Validate c = (None, c') ->
  config.Mode (config.Processing c') = "llm" ->
  let cfg := config.ToLLMConfig Getenv c' in
  llm.NewProcessor cfg = inl (llm.NewOpenAIProcessor cfg)
  /\ llm.client (llm.NewOpenAIProcessor cfg) <> ""
  /\ (llm.Level cfg = "custom" ->
      llm.getPromptForLevel (llm.Level cfg) (llm.CustomPrompt cfg)
      = config.CustomPrompt (config.LLM c'))
  /\ (llm.Level cfg <> "custom" ->
      llm.levelPrompts !! llm.Level cfg
      = Some (llm.getPromptForLevel (llm.Level cfg) (llm.CustomPrompt cfg))).
Proof.
  intros H Hllm.
  destruct (Validate_ok_mode c c' H) as (_ & Hrest).
  specialize (Hrest Hllm).
  destruct (Validate_LLM_ok c' c' Hrest)
    as (_ & _ & Hprov & Hmodel & Hlevel & Hcustom & Hkey).
  cbn zeta. unfold config.ToLLMConfig, llm.NewProcessor, llm.NewOpenAIProcessor.
  cbn [llm.Provider llm.APIKey llm.Level llm.CustomPrompt llm.client].
  rewrite Hprov. cbn [String.eqb Ascii.eqb Bool.eqb andb].
  assert (String.eqb (config.Level (config.LLM c')) "" = false) as ->.
  { apply String.eqb_neq. intros Hempty. rewrite Hempty in Hlevel.
    rewrite !elem_of_cons, elem_of_nil in Hlevel. by destruct Hlevel as [?|[?|[?|[?|[]]]]]. }
  split; [reflexivity|]. split; [exact Hkey|]. split.
  - intros Hc. rewrite Hc. apply getPromptForLevel_custom. by apply Hcustom.
  - intros Hc. rewrite !elem_of_cons, elem_of_nil in Hlevel.
    destruct Hlevel as [Hl|[Hl|[Hl|[Hl|[]]]]]; [| | |done]; rewrite Hl; reflexivity.
Qed.
End ValidateProperties.

Lemma Validate_idempotent_witness :
  exists c', sample_Validate sample_llm_config = (None, c')
             /\ sample_Validate c' = (None, c').
Proof.
  destruct (sample_Validate sample_llm_config) as [[e|] c'] eqn:Hv;
    [vm_compute in Hv; discriminate|].
  exists c'. split; [reflexivity|].
  exact (Validate_idempotent sample_Getenv sample_Duration_String sample_Quote
           sample_llm_config c' Hv).
Defined.

Lemma validated_chain_is_configured_witness :
  exists c', sample_Validate sample_config = (None, c')
    /\ map injection.Name
         (injection.backends
            (injection.NewInjector (log_backend "ydotool") (log_backend "wtype")
               (log_backend "clipboard") (config.ToInjectionConfig c')))
       = ["wtype"; "clipboard"].
Proof.
  destruct (sample_Validate sample_config) as [[e|] c'] eqn:Hv;
    [vm_compute in Hv; discriminate|].
  exists c'. split; [reflexivity|].
  destruct (validated_chain_is_configured sample_Getenv sample_Duration_String sample_Quote
              (log_backend "ydotool") (log_backend "wtype") (log_backend "clipboard")
              sample_config c' Hv) as (_ & Hnames & _).
  rewrite Hnames. vm_compute in Hv. by injection Hv as <-.
Defined.

Lemma validated_adapters_are_complete_witness :
  exists c', sample_Validate sample_llm_config = (None, c')
    /\ transcriber.APIKey (config.ToTranscriberConfig sample_Getenv c') <> ""
    /\ llm.APIKey (config.ToLLMConfig sample_Getenv c') <> "".
Proof.
  destruct (sample_Validate sample_llm_config) as [[e|] c'] eqn:Hv;
    [vm_compute in Hv; discriminate|].
  exists c'. split; [reflexivity|].
  destruct (validated_adapters_are_complete sample_Getenv sample_Duration_String sample_Quote
              sample_llm_config c' Hv) as (_ & Hkey & _ & _ & Hllm).
  split; [exact Hkey|]. apply Hllm.
  vm_compute in Hv. by injection Hv as <-.
Defined.

Lemma migrated_backends_pass_witness :
  config.Validate_Injection sample_Duration_String sample_Quote
    (config.Load_migrate test_config "type") = None.
Proof.
  destruct (migrated_backends_pass sample_Duration_String sample_Quote test_config "type")
    as (_ & _ & Hiff); [reflexivity|].
  apply Hiff. vm_compute. repeat split; discriminate.
Defined.

(** ** The three backends on a host *)

Section BackendProperties.
Context {W Ctx : Type}.
Variable LookPath : string -> W -> string + error.
Variable Getenv : string -> string.
Variable Stat : string -> W -> option error.
Variable Getuid : Z.
Variable Join : string -> string -> string.
Variable WithTimeout : Ctx -> Z -> W -> Ctx.
Variable Run : Ctx -> injection.Cmd -> W -> option error * W.
Variable Sleep : Z -> W -> W.

Local Abbreviation ydotool_Inject :=
  (injection.ydotool_Inject LookPath Getenv Stat Getuid Join WithTimeout Run).
Local Abbreviation wtype_Inject :=
  (injection.wtype_Inject LookPath Getenv WithTimeout Run).
Local Abbreviation clipboard_Inject :=
  (injection.clipboard_Inject LookPath Getenv WithTimeout Run Sleep).
Local Abbreviation clipboard_Available := (injection.clipboard_Available LookPath Getenv).
Local Abbreviation NewInjector :=
  (injection.NewInjector ydotool_Inject wtype_Inject clipboard_Inject).

(** X21. The clipboard backend succeeds exactly when its availability
    check passes and wl-copy runs without error: neither the window
    address nor the outcome of focusing the window or of pasting changes
    the result.  When the check fails, its error is returned and no
    child process is run; when wl-copy fails, its error is returned
    wrapped and nothing else is run. *)
Theorem clipboard_Inject_outcome (ctx : Ctx) (text : string) (timeout : Z)
    (windowAddress : string) (w : W) :
  (fst (clipboard_Inject ctx text timeout windowAddress w) = None
   <-> clipboard_Available w = None
       /\ fst (Run (WithTimeout ctx timeout w) (wl_copy text) w) = None)
  /\ (forall e, clipboard_Available w = Some e ->
        clipboard_Inject ctx text timeout windowAddress w = (Some e, w))
  /\ (forall e w', clipboard_Available w = None ->
        Run (WithTimeout ctx timeout w) (wl_copy text) w = (Some e, w') ->
        clipboard_Inject ctx text timeout windowAddress w
        = (Some (wrapError "wl-copy failed: " e), w')).
Proof.
  unfold injection.clipboard_Inject, injection.Run_wrapped.
  fold (wl_copy text). cbn zeta.
  destruct (clipboard_Available w) as [e0|] eqn:Hav.
  { split; [split; [discriminate | by intros [? _]]|]. split; [by intros e [= ->]|done]. }
  destruct (Run (WithTimeout ctx timeout w) (wl_copy text) w) as [[e1|] w1] eqn:Hrun.
  { split; [split; [discriminate | by intros [_ ?]]|]. split; [done|by intros e w' _ [= -> ->]]. }
  split; [|split; [done|discriminate]..].
  split; [done|]. intros _.
  destruct (negb (String.eqb windowAddress "")); [|reflexivity].
  by destruct (injection.focusWindow Run _ windowAddress w1) as [[?|] ?].
Qed.

Lemma Inject_loop_member_succeeds (i : injection.injector W Ctx) (ctx : Ctx)
    (text win : string) (good : injection.Backend W Ctx) :
  (forall timeout w, fst (injection.Backend_Inject good ctx text timeout win w) = None) ->
  forall (rest : list (injection.Backend W Ctx)) (lastErr : option error) (w : W),
    good ∈ rest ->
    fst (injection.Inject_loop i ctx text win rest lastErr w) = None.
Proof.
  intros Hgood rest. induction rest as [|b rest IH]; intros lastErr w Hin.
  - by apply elem_of_nil in Hin.
  - cbn [injection.Inject_loop].
    destruct (injection.Backend_Inject b ctx text _ win w) as [[e|] w'] eqn:Hb; [|reflexivity].
    apply elem_of_cons in Hin as [<- | Hin].
    + pose proof (Hgood (injection.getTimeout i (injection.Name good)) w) as Hok.
      rewrite Hb in Hok. discriminate Hok.
    + by apply IH.
Qed.

(** X22. On a host where wl-copy is found, the two Wayland variables
    are set and wl-copy runs without error, the injector with the three
    backends never fails on a non-empty text as long as "clipboard" is
    among the configured backends, or no configured name is known:
    whatever the backends before it do, the chain gets to the clipboard
    or succeeds earlier. *)
Theorem working_clipboard_never_fails (cfg : injection.Config) (ctx : Ctx)
    (text win : string) (w : W) :
  (forall w', exists path, LookPath "wl-copy" w' = inl path) ->
  Getenv "WAYLAND_DISPLAY" <> "" ->
  Getenv "XDG_RUNTIME_DIR" <> "" ->
  (forall ctx' w', fst (Run ctx' (wl_copy text) w') = None) ->
  "clipboard" ∈ injection.Backends cfg
  \/ filter known_backend (injection.Backends cfg) = [] ->
  text <> "" ->
  fst (injection.Inject (NewInjector cfg) ctx text win w) = None.
Proof.
  intros Hpath Hway Hxdg Hrun Hcfg Htext.
  set (good := injection.NewClipboardBackend clipboard_Inject).
  assert (forall timeout w', fst (injection.Backend_Inject good ctx text timeout win w') = None)
    as Hgood.
  { intros timeout w'. subst good. cbn [injection.Backend_Inject injection.NewClipboardBackend].
    unfold injection.clipboard_Inject, injection.clipboard_Available, injection.Run_wrapped.
    destruct (Hpath w') as (path & ->).
    destruct (String.eqb_spec (Getenv "WAYLAND_DISPLAY") ""); [done|].
    destruct (String.eqb_spec (Getenv "XDG_RUNTIME_DIR") ""); [done|].
    fold (wl_copy text). cbn zeta.
    pose proof (Hrun (WithTimeout ctx timeout w') w') as Hok.
    destruct (Run (WithTimeout ctx timeout w') (wl_copy text) w') as [[e|] w1];
      [discriminate Hok|].
    destruct (negb (String.eqb win "")); [|reflexivity].
    by destruct (injection.focusWindow Run _ win w1) as [[?|] ?]. }
  unfold injection.Inject. destruct (String.eqb_spec text ""); [done|].
  apply (Inject_loop_member_succeeds _ ctx text win good Hgood).
  rewrite (NewInjector_backends ydotool_Inject wtype_Inject clipboard_Inject).
  destruct Hcfg as [Hin | ->]; [|apply list_elem_of_here].
  assert ("clipboard" ∈ filter known_backend (injection.Backends cfg)) as Hin'.
  { apply list_elem_of_filter. split; [|done]. unfold known_backend.
    rewrite !elem_of_cons. auto. }
  destruct (filter known_backend (injection.Backends cfg)) as [|name names] eqn:Hf.
  { by apply elem_of_nil in Hin'. }
  change good with (backend_named ydotool_Inject wtype_Inject clipboard_Inject "clipboard").
  by apply list_elem_of_fmap_2.
Qed.

End BackendProperties.

Lemma clipboard_Inject_outcome_witness :
  fst (injection.clipboard_Inject sample_LookPath sample_host_Getenv sample_WithTimeout
         sample_Run sample_Sleep tt "hello" (3 * time.Second) "0x55d0c0" []) = None.
Proof.
  apply (clipboard_Inject_outcome sample_LookPath sample_host_Getenv sample_WithTimeout
           sample_Run sample_Sleep tt "hello" (3 * time.Second) "0x55d0c0" []).
  split; reflexivity.
Defined.

Lemma working_clipboard_never_fails_witness :
  fst (injection.Inject sample_host_injector tt "hello" "0x55d0c0" []) = None.
Proof.
  apply (working_clipboard_never_fails sample_LookPath sample_host_Getenv sample_Stat 1000
           sample_Join sample_WithTimeout sample_Run sample_Sleep sample_injection_config
           tt "hello" "0x55d0c0" []).
  - intros w'. by exists "/usr/bin/wl-copy".
  - discriminate.
  - discriminate.
  - intros ctx' w'. reflexivity.
  - left. unfold sample_injection_config. cbn [injection.Backends].
    rewrite !elem_of_cons. auto 6.
  - discriminate.
Defined.

Lemma validated_llm_prompt_witness :
  exists c', sample_Validate sample_llm_config = (None, c')
    /\ llm.levelPrompts !! llm.Level (config.ToLLMConfig sample_Getenv c')
       = Some llm.prompt_moderate.
Proof.
  destruct (sample_Validate sample_llm_config) as [[e|] c'] eqn:Hv;
    [vm_compute in Hv; discriminate|].
  exists c'. split; [reflexivity|].
  assert (config.Mode (config.Processing c') = "llm"
          /\ config.Level (config.LLM c') = "moderate") as (Hmode & Hlevel).
  { vm_compute in Hv. by injection Hv as <-. }
  destruct (validated_llm_prompt sample_Getenv sample_Duration_String sample_Quote
              sample_llm_config c' Hv Hmode) as (_ & _ & _ & Hprompt).
  unfold config.ToLLMConfig in *. cbn [llm.Level llm.CustomPrompt] in *.
  rewrite Hlevel in *. cbn [String.eqb Ascii.eqb Bool.eqb] in *.
  rewrite Hprompt by discriminate. reflexivity.
Defined.
